(** * Composio: schema synthesis, signature compilation and the runtime registry

    A shallow embedding of the Python sources

    - [auto_gen/composio_autogen/autogen_toolspec.py]  (module [Autogen])
    - [python/composio/tools/base/runtime.py]          (module [Runtime])
    - [python/composio/tools/local/codemap/actions/get_repomap.py]
                                                       (module [RepoMap])
    - [python/composio/local_tools/local_workspace/cmd_manager/actions/cmds.py]
      and [.../actions/base_class.py]                  (module [Cmds])
    - [python/composio/workspace/e2b_workspace.py]     (module [E2B])
    - [python/examples/slack_bot_agent/slack_agent_autogen/slack_agent_autogen.py]
                                                       (module [SlackAgent])

    The class [ComposioAutogenToolset] of the first file is in the module
    [Toolset].

    Python exceptions are values of [exn] carried by the [result] monad,
    dictionaries that are iterated are insertion-ordered association lists,
    dictionaries that are only looked up are [gmap]s, and class objects that
    the code mutates after creation live in an explicit heap. *)

From Stdlib Require Import ZArith QArith Ascii String List Bool Lia.
From Stdlib Require Import DecimalString.
From stdpp Require Import gmap strings list.

Import ListNotations.
Set Warnings "-register-all".
Local Open Scope string_scope.
Local Open Scope list_scope.

(** ** Python prelude *)

Module Py.

(** An exception object: its class, [str(e)], and whether the class derives
    from [Exception] (as opposed to [BaseException] only, which an
    [except Exception] clause does not catch). *)
Record exn := mkExn {
  exc_class : string;
  exc_text : string;
  exc_is_Exception : bool
}.

Definition KeyError (key : string) : exn := mkExn "KeyError" key true.
Definition ValueError (msg : string) : exn := mkExn "ValueError" msg true.
Definition TypeError (msg : string) : exn := mkExn "TypeError" msg true.
Definition AttributeError (msg : string) : exn := mkExn "AttributeError" msg true.

(** The error with which pydantic refuses a class definition; the text is
    the field name it refuses, not pydantic's message. *)
Definition PydanticUserError (name : string) : exn :=
  mkExn "PydanticUserError" name true.

Inductive result (A : Type) : Type :=
| Ok (a : A)
| Raise (e : exn).
Arguments Ok {A} a.
Arguments Raise {A} e.

Definition bind {A B} (m : result A) (k : A -> result B) : result B :=
  match m with
  | Ok a => k a
  | Raise e => Raise e
  end.

Definition is_ok {A} (m : result A) : bool :=
  match m with Ok _ => true | Raise _ => false end.

Declare Scope py_scope.
Delimit Scope py_scope with py.
Notation "x <- m ;; k" := (bind m (fun x => k))
  (at level 100, m at next level, right associativity) : py_scope.

(** Python values that cross the modelled interfaces.  Floats are carried
    as rationals; the only float the sources compute with is [0.0]. *)
Inductive pyval :=
| VNone
| VEllipsis
| VBool (b : bool)
| VInt (z : Z)
| VFloat (q : Q)
| VStr (s : string)
| VList (l : list pyval)
| VDict (d : list (string * pyval))
| VShell (ident : nat)
| VWorkspace (shells_recent : pyval)
| VInstance (cls : string) (fields : list (string * pyval)).

(** *** Insertion-ordered dictionaries *)

Section Dict.
Context {V : Type}.

Fixpoint dict_get (d : list (string * V)) (k : string) : option V :=
  match d with
  | [] => None
  | (k', v) :: rest => if String.eqb k' k then Some v else dict_get rest k
  end.

(** [d[k] = v]: overwrite in place, or append a new key at the end. *)
Fixpoint dict_set (d : list (string * V)) (k : string) (v : V)
  : list (string * V) :=
  match d with
  | [] => [(k, v)]
  | (k', v') :: rest =>
      if String.eqb k' k then (k', v) :: rest
      else (k', v') :: dict_set rest k v
  end.

(** [d[k]] *)
Definition getitem (d : list (string * V)) (k : string) : result V :=
  match dict_get d k with
  | Some v => Ok v
  | None => Raise (KeyError k)
  end.

(** [d.get(k, default)] *)
Definition get_default (d : list (string * V)) (k : string) (dflt : V) : V :=
  match dict_get d k with
  | Some v => v
  | None => dflt
  end.

(** [dict(pairs)] *)
Definition dict_of_pairs (l : list (string * V)) : list (string * V) :=
  fold_left (fun d kv => dict_set d (fst kv) (snd kv)) l [].

Definition keys (d : list (string * V)) : list string := map fst d.
End Dict.

(** [k in l] for a list of strings. *)
Definition mem (k : string) (l : list string) : bool :=
  existsb (String.eqb k) l.

(** The keys of a Python dictionary, and the parameter names of a Python
    signature, are pairwise distinct. *)
Fixpoint distinct (l : list string) : bool :=
  match l with
  | [] => true
  | x :: rest => negb (mem x rest) && distinct rest
  end.

(** [value or default] for a value that is [None] or not, and
    [getattr(obj, name, default)] for an attribute that is set or not. *)
Definition or_else {A} (value : option A) (dflt : A) : A :=
  match value with
  | Some a => a
  | None => dflt
  end.

(** *** Strings

    A [string] is read as a sequence of code points below 256; [upper] is
    Python's [str.upper] on the ASCII range, and [isspace] is Python's
    [str.isspace] on the code points below 256. *)

Definition chars (s : string) : list ascii := list_ascii_of_string s.
Definition str (l : list ascii) : string := string_of_list_ascii l.

Definition upper_char (c : ascii) : ascii :=
  let n := nat_of_ascii c in
  if (97 <=? n)%nat && (n <=? 122)%nat then ascii_of_nat (n - 32) else c.

Definition upper (s : string) : string := str (map upper_char (chars s)).

Definition isspace (c : ascii) : bool :=
  let n := nat_of_ascii c in
  ((9 <=? n)%nat && (n <=? 13)%nat) || ((28 <=? n)%nat && (n <=? 32)%nat)
  || (n =? 133)%nat || (n =? 160)%nat.

Fixpoint lstrip_chars (l : list ascii) : list ascii :=
  match l with
  | [] => []
  | c :: rest => if isspace c then lstrip_chars rest else l
  end.

Definition lstrip (s : string) : string := str (lstrip_chars (chars s)).
Definition rstrip (s : string) : string :=
  str (rev (lstrip_chars (rev (chars s)))).
Definition strip (s : string) : string := rstrip (lstrip s).

Definition ascii_eqb (a b : ascii) : bool := Ascii.eqb a b.

Fixpoint is_prefix (p l : list ascii) : bool :=
  match p, l with
  | [], _ => true
  | _ :: _, [] => false
  | a :: p', b :: l' => ascii_eqb a b && is_prefix p' l'
  end.

(** [name.startswith("_")] *)
Definition private_name (name : string) : bool :=
  is_prefix (chars "_") (chars name).

(** [sub in s] *)
Fixpoint contains_chars (p l : list ascii) : bool :=
  is_prefix p l ||
  match l with
  | [] => false
  | _ :: rest => contains_chars p rest
  end.
Definition contains (sub s : string) : bool := contains_chars (chars sub) (chars s).

(** [s.endswith(suffix)] *)
Definition endswith (s suffix : string) : bool :=
  is_prefix (rev (chars suffix)) (rev (chars s)).

(** [s.replace(old, "")] for a non-empty [old]: non-overlapping occurrences
    are dropped from left to right.  [skip] counts the characters of the
    occurrence being dropped. *)
Fixpoint remove_chars (old : list ascii) (skip : nat) (l : list ascii)
  : list ascii :=
  match l with
  | [] => []
  | c :: rest =>
      match skip with
      | S n => remove_chars old n rest
      | O =>
          if is_prefix old l then remove_chars old (List.length old - 1) rest
          else c :: remove_chars old 0 rest
      end
  end.
Definition remove (old s : string) : string :=
  str (remove_chars (chars old) 0 (chars s)).

(** [s.split(sep)] for a one-character separator: never the empty list. *)
Fixpoint split_chars (sep : ascii) (cur : list ascii) (l : list ascii)
  : list (list ascii) :=
  match l with
  | [] => [rev cur]
  | c :: rest =>
      if ascii_eqb c sep then rev cur :: split_chars sep [] rest
      else split_chars sep (c :: cur) rest
  end.
Definition split (sep : ascii) (s : string) : list string :=
  map str (split_chars sep [] (chars s)).

(** [s.title()] restricted to ASCII letters: the first letter of every run
    of letters is upper-cased, the others lower-cased. *)
Definition is_alpha (c : ascii) : bool :=
  let n := nat_of_ascii c in
  ((65 <=? n)%nat && (n <=? 90)%nat) || ((97 <=? n)%nat && (n <=? 122)%nat).
Definition lower_char (c : ascii) : ascii :=
  let n := nat_of_ascii c in
  if (65 <=? n)%nat && (n <=? 90)%nat then ascii_of_nat (n + 32) else c.
Fixpoint title_chars (prev_alpha : bool) (l : list ascii) : list ascii :=
  match l with
  | [] => []
  | c :: rest =>
      (if prev_alpha then lower_char c else upper_char c)
        :: title_chars (is_alpha c) rest
  end.
Definition title (s : string) : string := str (title_chars false (chars s)).

(** [str(n)] for an [int]. *)
Definition str_int (n : Z) : string := NilZero.string_of_int (Z.to_int n).

(** [sep.join(parts)] *)
Fixpoint join (sep : string) (parts : list string) : string :=
  match parts with
  | [] => ""
  | [p] => p
  | p :: rest => p +:+ sep +:+ join sep rest
  end.

End Py.

Import Py.
Local Open Scope py_scope.

(** ** The schema synthesizer: [autogen_toolspec.py] *)

Module Autogen.

(** JSON values, as found under a schema's [default] key. *)
Inductive json :=
| JNull
| JBool (b : bool)
| JNum (q : Q)
| JStr (s : string)
| JArr (items : list json)
| JObj (members : list (string * json)).

(** A node of the parameter schema: the JSON object the catalog sends,
    restricted to the keys the code reads.  A key that is absent from the
    object is [None]; [properties] keeps the declaration order. *)
Inductive schema := Schema {
  s_title : option string;
  s_type : option string;
  s_properties : option (list (string * schema));
  s_required : option (list string);
  s_default : option json;
  s_description : option string;
  s_desc : option string
}.

(** What a field is annotated with: a Python type of
    [schema_type_python_type_dict], or a model made by [create_model]. *)
Inductive pytype :=
| PyStr
| PyFloat
| PyBool
| PyList
| PyModel (name : string) (fields : list (string * (pytype * field_info)))

(** [pydantic.Field(default, title=..., description=...)]; the default
    [Required] stands for the [...] of a required field. *)
with field_info := Field (default : field_default) (title : string)
                         (description : option string)
with field_default :=
| Required
| Default (v : json).

Definition is_required (f : field_info) : bool :=
  match f with
  | Field Required _ _ => true
  | Field (Default _) _ _ => false
  end.

Definition default_of (f : field_info) : option json :=
  match f with
  | Field Required _ _ => None
  | Field (Default v) _ _ => Some v
  end.

Definition schema_type_python_type_dict : list (string * pytype) :=
  [("string", PyStr); ("number", PyFloat); ("boolean", PyBool);
   ("array", PyList)].

Definition fallback_values : list (string * json) :=
  [("string", JStr ""); ("number", JNum 0); ("boolean", JBool false);
   ("object", JObj []); ("array", JArr [])].

(** [schema[key]] for the keys that must be present. *)
Definition subscript {A} (key : string) (o : option A) : result A :=
  match o with
  | Some a => Ok a
  | None => Raise (KeyError key)
  end.

(** [schema.get(key, default)] *)
Definition get {A} (o : option A) (dflt : A) : A :=
  match o with
  | Some a => a
  | None => dflt
  end.

(** [create_model(name, **fields)].  Pydantic refuses a field whose name
    starts with an underscore.  It also refuses or warns about other names
    (those that start with [model_], those that shadow an attribute of
    [BaseModel]); these refusals are not modelled, and the statements that
    conclude that a model is made are about names that are none of them
    ([plain_name] below), unless they say otherwise. *)
Definition create_model (name : string)
  (fields : list (string * (pytype * field_info))) : result pytype :=
  match List.find private_name (keys fields) with
  | Some bad => Raise (PydanticUserError bad)
  | None => Ok (PyModel name fields)
  end.

(** The body of the [for prop_name, prop_info in ...items()] loop; [synth]
    is the recursive call for a property that is not a listed primitive.
    [fallback_values[prop_type]] is an argument of [.get] and so is looked
    up whether or not the property has a default. *)
Section Loop.
Variable synth : schema -> result pytype.
Variable required_props : list string.

Definition synth_field (prop_name : string) (prop_info : schema)
  : result (pytype * field_info) :=
  prop_type <- subscript "type" (s_type prop_info) ;;
  prop_title <- subscript "title" (s_title prop_info) ;;
  let prop_title := remove " " prop_title in
  fallback <- getitem fallback_values prop_type ;;
  let prop_default := get (s_default prop_info) fallback in
  signature_prop_type <-
    match dict_get schema_type_python_type_dict prop_type with
    | Some ty => Ok ty
    | None => synth prop_info
    end ;;
  if mem prop_name required_props then
    Ok (signature_prop_type,
        Field Required prop_title
          (Some (get (s_description prop_info)
                   (get (s_desc prop_info) prop_title))))
  else
    Ok (signature_prop_type,
        Field (Default prop_default) prop_title None).

Fixpoint synth_fields (items : list (string * schema))
  (fields : list (string * (pytype * field_info)))
  : result (list (string * (pytype * field_info))) :=
  match items with
  | [] => Ok fields
  | (prop_name, prop_info) :: rest =>
      field <- synth_field prop_name prop_info ;;
      synth_fields rest (dict_set fields prop_name field)
  end.
End Loop.

Fixpoint pydantic_model_from_param_schema (param_schema : schema)
  : result pytype :=
  param_title <- subscript "title" (s_title param_schema) ;;
  let param_title := remove " " param_title in
  let required_props := get (s_required param_schema) [] in
  match s_properties param_schema with
  | None => Raise (KeyError "properties")
  | Some properties =>
      fields <- synth_fields pydantic_model_from_param_schema
                  required_props properties [] ;;
      create_model param_title fields
  end.

(** [inspect.Parameter(name=..., kind=POSITIONAL_OR_KEYWORD,
    annotation=Annotated[type, description], default=...)]; [Required]
    stands for [Parameter.empty]. *)
Record InspectParameter := mkParameter {
  p_name : string;
  p_annotation : pytype * string;
  p_default : field_default
}.

(** The body of the loop of [get_signature_format_from_schema_params].
    Here the type is resolved before the fallback is looked up.  The
    [print(param_name)] that ends each iteration is not modelled. *)
Definition signature_param (required_params : list string)
  (param_name : string) (param_schema : schema) : result InspectParameter :=
  param_type <- subscript "type" (s_type param_schema) ;;
  param_title <- subscript "title" (s_title param_schema) ;;
  let param_title := remove " " param_title in
  signature_param_type <-
    match dict_get schema_type_python_type_dict param_type with
    | Some ty => Ok ty
    | None => pydantic_model_from_param_schema param_schema
    end ;;
  fallback <- getitem fallback_values param_type ;;
  let param_default := get (s_default param_schema) fallback in
  let param_annotation :=
    (signature_param_type,
     get (s_description param_schema)
       (get (s_desc param_schema) param_title)) in
  Ok (mkParameter param_name param_annotation
        (if mem param_name required_params then Required
         else Default param_default)).

Fixpoint signature_params (required_params : list string)
  (items : list (string * schema)) (parameters : list InspectParameter)
  : result (list InspectParameter) :=
  match items with
  | [] => Ok parameters
  | (param_name, param_schema) :: rest =>
      param <- signature_param required_params param_name param_schema ;;
      signature_params required_params rest (parameters ++ [param])
  end.

Definition get_signature_format_from_schema_params (schema_params : schema)
  : result (list InspectParameter) :=
  let required_params := get (s_required schema_params) [] in
  properties <- subscript "properties" (s_properties schema_params) ;;
  signature_params required_params properties [].

(** *** Predicates on schemas used by the statements *)

(** The primitive leaf types, the keys of [schema_type_python_type_dict]. *)
Definition primitive_types : list string :=
  ["string"; "number"; "boolean"; "array"].

(** A valid parameter tree with primitive leaves: every node that is
    synthesized carries [title] and [properties], every property carries
    [title] and [type], and a property is either of a primitive type or an
    [object] that is itself such a tree. *)
Section WellFormed.
Variable well_formed : schema -> bool.

Definition well_formed_property (prop_info : schema) : bool :=
  match s_title prop_info, s_type prop_info with
  | Some _, Some ty =>
      mem ty primitive_types
      || (String.eqb ty "object" && well_formed prop_info)
  | _, _ => false
  end.

Fixpoint well_formed_properties (items : list (string * schema)) : bool :=
  match items with
  | [] => true
  | (_, prop_info) :: rest =>
      well_formed_property prop_info && well_formed_properties rest
  end.
End WellFormed.

Fixpoint well_formed (s : schema) : bool :=
  match s_title s, s_properties s with
  | Some _, Some properties =>
      distinct (map fst properties)
      && well_formed_properties well_formed properties
  | _, _ => false
  end.

(** The fallback default of each schema type, as the specification lists
    them: empty string, 0.0, false, empty sequence, empty record. *)
Definition type_fallback (ty : string) : json :=
  if String.eqb ty "string" then JStr ""
  else if String.eqb ty "number" then JNum 0
  else if String.eqb ty "boolean" then JBool false
  else if String.eqb ty "array" then JArr []
  else JObj [].

(** The Python type the specification assigns to a primitive schema type. *)
Definition primitive_pytype (ty : string) : option pytype :=
  if String.eqb ty "string" then Some PyStr
  else if String.eqb ty "number" then Some PyFloat
  else if String.eqb ty "boolean" then Some PyBool
  else if String.eqb ty "array" then Some PyList
  else None.

(** [reflects s m]: the model [m] has exactly the properties of [s] as its
    fields, in declaration order; a field is required iff its name is in
    the [required] list of [s]; an optional field carries the schema's
    default, or else the fallback of its type; a primitive property has
    the corresponding Python type and an object property a model that
    reflects it in turn. *)
Section Reflects.
Variable reflects : schema -> pytype -> Prop.
Variable required : list string.

Definition field_reflects (prop_name : string) (prop_info : schema)
  (field_name : string) (ty : pytype) (f : field_info) : Prop :=
  field_name = prop_name
  /\ (is_required f = true <-> In prop_name required)
  /\ (is_required f = false ->
      default_of f =
        Some (match s_default prop_info with
              | Some d => d
              | None => type_fallback (get (s_type prop_info) "")
              end))
  /\ match primitive_pytype (get (s_type prop_info) "") with
     | Some prim => ty = prim
     | None => reflects prop_info ty
     end.

Fixpoint fields_reflect (items : list (string * schema))
  (fields : list (string * (pytype * field_info))) : Prop :=
  match items, fields with
  | [], [] => True
  | (prop_name, prop_info) :: items', (field_name, (ty, f)) :: fields' =>
      field_reflects prop_name prop_info field_name ty f
      /\ fields_reflect items' fields'
  | _, _ => False
  end.
End Reflects.

Fixpoint reflects (s : schema) (m : pytype) {struct s} : Prop :=
  match m with
  | PyModel _ fields =>
      match s_properties s with
      | Some properties =>
          fields_reflect reflects (get (s_required s) []) properties fields
      | None => False
      end
  | _ => False
  end.

(** The first property, in the order synthesis visits them, whose type is
    neither a supported primitive nor [object]: properties are visited in
    declaration order and an object is descended into before its next
    sibling. *)
Section Unsupported.
Variable first_unsupported : schema -> option string.

Fixpoint first_unsupported_in (items : list (string * schema))
  : option string :=
  match items with
  | [] => None
  | (_, prop_info) :: rest =>
      match s_type prop_info with
      | Some ty =>
          if mem ty primitive_types then first_unsupported_in rest
          else if String.eqb ty "object" then
            match first_unsupported prop_info with
            | Some bad => Some bad
            | None => first_unsupported_in rest
            end
          else Some ty
      | None => first_unsupported_in rest
      end
  end.
End Unsupported.

Fixpoint first_unsupported (s : schema) {struct s} : option string :=
  match s_properties s with
  | Some properties => first_unsupported_in first_unsupported properties
  | None => None
  end.

(** Every visited node carries the keys the code subscripts, whatever the
    type values are. *)
Section Keyed.
Variable keyed : schema -> bool.

Fixpoint keyed_properties (items : list (string * schema)) : bool :=
  match items with
  | [] => true
  | (_, prop_info) :: rest =>
      match s_title prop_info, s_type prop_info with
      | Some _, Some ty =>
          (if String.eqb ty "object" then keyed prop_info else true)
          && keyed_properties rest
      | _, _ => false
      end
  end.
End Keyed.

Fixpoint keyed (s : schema) : bool :=
  match s_title s, s_properties s with
  | Some _, Some properties => keyed_properties keyed properties
  | _, _ => false
  end.

(** No model that synthesis makes has a field with a private name: the
    property names of the node, and of every object below it, do not start
    with an underscore. *)
Section Accepted.
Variable accepted : schema -> bool.

Fixpoint accepted_properties (items : list (string * schema)) : bool :=
  match items with
  | [] => true
  | (prop_name, prop_info) :: rest =>
      negb (private_name prop_name)
      && match s_type prop_info with
         | Some ty => if String.eqb ty "object" then accepted prop_info else true
         | None => true
         end
      && accepted_properties rest
  end.
End Accepted.

Fixpoint accepted (s : schema) : bool :=
  match s_properties s with
  | Some properties => accepted_properties accepted properties
  | None => true
  end.

(** On a tree that carries every key the code subscripts and has no private
    property name, synthesis succeeds when no leaf is unsupported and
    otherwise raises the [KeyError] of the first unsupported type value. *)
Definition keyed_outcome (s : schema) : Prop :=
  keyed s = true ->
  accepted s = true ->
  (first_unsupported s = None ->
   is_ok (pydantic_model_from_param_schema s) = true)
  /\ (forall bad, first_unsupported s = Some bad ->
      pydantic_model_from_param_schema s = Raise (KeyError bad)).

(** *** Accessors used by further statements *)


Definition field_title (f : field_info) : string :=
  match f with Field _ title _ => title end.

Definition field_description (f : field_info) : option string :=
  match f with Field _ _ description => description end.

(** [prop_info.get('description', prop_info.get('desc', prop_title))] with
    the title stripped of its spaces. *)
Definition described (prop_info : schema) : string :=
  get (s_description prop_info)
    (get (s_desc prop_info) (remove " " (get (s_title prop_info) ""))).

(** The names that [inspect.Parameter] takes as they are: identifiers
    that are no keywords (here the ASCII identifiers; on any other name
    the constructor raises or renames the parameter, which
    [signature_param] does not model). *)
Definition is_identifier_start (c : ascii) : bool :=
  let n := nat_of_ascii c in
  ((65 <=? n)%nat && (n <=? 90)%nat) || ((97 <=? n)%nat && (n <=? 122)%nat)
  || (n =? 95)%nat.

Definition is_identifier_char (c : ascii) : bool :=
  is_identifier_start c
  || ((48 <=? nat_of_ascii c)%nat && (nat_of_ascii c <=? 57)%nat).

Definition is_identifier (s : string) : bool :=
  match chars s with
  | [] => false
  | c :: rest => is_identifier_start c && forallb is_identifier_char rest
  end.



(** The public attributes of [BaseModel] whose names do not start with
    [model_], of pydantic 1 and 2. *)
Definition BaseModel_attributes : list string :=
  ["dict"; "json"; "copy"; "construct"; "parse_obj"; "parse_raw";
   "parse_file"; "from_orm"; "schema"; "schema_json"; "validate";
   "update_forward_refs"; "fields"; "Config"].

(** A name that pydantic takes as a field name without refusal or
    warning: an ASCII identifier that is not private, does not start with
    [model_] and is no attribute of [BaseModel]. *)
Definition plain_name (name : string) : bool :=
  is_identifier name
  && negb (private_name name)
  && negb (is_prefix (chars "model_") (chars name))
  && negb (mem name BaseModel_attributes).

(** Every property name of the node, and of every object below it, is a
    plain field name. *)
Section PlainNames.
Variable plain_names : schema -> bool.

Fixpoint plain_properties (items : list (string * schema)) : bool :=
  match items with
  | [] => true
  | (prop_name, prop_info) :: rest =>
      plain_name prop_name
      && match s_type prop_info with
         | Some ty =>
             if String.eqb ty "object" then plain_names prop_info else true
         | None => true
         end
      && plain_properties rest
  end.
End PlainNames.

Fixpoint plain_names (s : schema) : bool :=
  match s_properties s with
  | Some properties => plain_properties plain_names properties
  | None => true
  end.


(** *** Sample schemas *)

Definition leaf (title ty : string) (description : option string)
  (default : option json) : schema :=
  Schema (Some title) (Some ty) None None default description None.

(** The [Goto] parameters: one required number. *)
Definition goto_schema : schema :=
  Schema (Some "Goto") (Some "object")
    (Some [("line_number",
            leaf "LineNumber" "number" (Some "target line") None)])
    (Some ["line_number"]) None None None.

(** A required string, an optional flag with a default, an optional list,
    and an optional nested object with one string. *)
Definition issue_schema : schema :=
  Schema (Some "Create Issue") (Some "object")
    (Some [("title", leaf "Title" "string" None None);
           ("draft", leaf "Draft" "boolean" None (Some (JBool true)));
           ("labels", leaf "Labels" "array" None None);
           ("owner",
            Schema (Some "Owner Info") (Some "object")
              (Some [("login", leaf "Login" "string" None None)])
              None None None None)])
    (Some ["title"]) None None None.

(** A property of JSON-Schema type [integer], which is not among the
    supported primitives. *)
Definition page_schema : schema :=
  Schema (Some "List") (Some "object")
    (Some [("query", leaf "Query" "string" None None);
           ("page", leaf "Page" "integer" None None)])
    None None None None.


End Autogen.

(** ** Registration with autogen: [ComposioAutogenToolset] in
    [autogen_toolspec.py] *)

Module Toolset.
Import Autogen.

(** An action schema of the catalog, restricted to the keys the code
    subscripts. *)
Record action_schema := mkActionSchema {
  as_name : option string;
  as_appName : option string;
  as_description : option string;
  as_parameters : option schema
}.

(** [inspect.Signature(parameters=parameters)], after the standard
    library, for parameters that are all [POSITIONAL_OR_KEYWORD] (the only
    kind the code makes, so the check on the order of kinds never fires):
    a parameter without a default may not follow one with a default, and
    two parameters may not share a name. *)
Fixpoint validate_parameters (parameters : list InspectParameter)
  (kind_defaults : bool) (params : list (string * InspectParameter))
  : result (list (string * InspectParameter)) :=
  match parameters with
  | [] => Ok params
  | param :: rest =>
      kind_defaults <-
        match p_default param with
        | Required =>
            if kind_defaults then
              Raise (ValueError "non-default argument follows default argument")
            else Ok kind_defaults
        | Default _ => Ok true
        end ;;
      if mem (p_name param) (keys params) then
        Raise (ValueError
                 ("duplicate parameter name: '" +:+ p_name param +:+ "'"))
      else
        validate_parameters rest kind_defaults
          (params ++ [(p_name param, param)])
  end.

Definition Signature (parameters : list InspectParameter)
  : result (list (string * InspectParameter)) :=
  validate_parameters parameters false [].

(** What [autogen.agentchat.register_function] receives: the function made
    for the action (its name, its docstring, its signature, and the action
    and app names its body passes to the client), the two agents, and the
    name and description. *)
Record registered_function := mkRegistered {
  rf_name : string;
  rf_app : string;
  rf_description : string;
  rf_signature : list (string * InspectParameter);
  rf_caller : option nat;
  rf_executor : option nat
}.

(** The function [_register_schema_to_autogen] makes and registers, for
    property names that [inspect.Parameter] accepts
    ([valid_parameter_name]). *)
Definition action_function (schema : action_schema)
  (caller executor : option nat) : result registered_function :=
  name <- subscript "name" (as_name schema) ;;
  appName <- subscript "appName" (as_appName schema) ;;
  description <- subscript "description" (as_description schema) ;;
  parameters_schema <- subscript "parameters" (as_parameters schema) ;;
  parameters <- get_signature_format_from_schema_params parameters_schema ;;
  action_signature <- Signature parameters ;;
  Ok (mkRegistered name appName description action_signature caller executor).

(** [_register_schema_to_autogen]; [registered] holds the functions that
    were passed to [register_function], which is taken to accept them. *)
Definition _register_schema_to_autogen (schema : action_schema)
  (caller executor : option nat) (registered : list registered_function)
  : result (list registered_function) :=
  f <- action_function schema caller executor ;;
  Ok (registered ++ [f]).

(** The loop [for schema in action_schemas]: an exception leaves what was
    registered before it. *)
Fixpoint register_schemas (schemas : list action_schema)
  (caller executor : option nat) (registered : list registered_function)
  : result unit * list registered_function :=
  match schemas with
  | [] => (Ok tt, registered)
  | schema :: rest =>
      match _register_schema_to_autogen schema caller executor registered with
      | Ok registered => register_schemas rest caller executor registered
      | Raise e => (Raise e, registered)
      end
  end.

(** [tools: Union[App, List[App]]] *)
Inductive one_or_many (A : Type) :=
| One (a : A)
| Many (l : list A).
Arguments One {A} a.
Arguments Many {A} l.

Definition as_list {A} (x : one_or_many A) : list A :=
  match x with
  | One a => [a]
  | Many l => l
  end.

Definition AssertionError (msg : string) : exn :=
  mkExn "AssertionError" msg true.

(** [x if x else y] for an agent that is given or [None]. *)
Definition if_else (x y : option nat) : option nat :=
  match x with
  | Some _ => x
  | None => y
  end.

Definition is_given (x : option nat) : bool :=
  match x with Some _ => true | None => false end.

(** What the catalog is asked for. *)
Inductive catalog_query :=
| ByApps (apps : list string)
| ByActions (actions : list string).

Section Client.
(** [self.client.sdk.get_list_of_actions] *)
Variable get_list_of_actions : catalog_query -> result (list action_schema).

(** The attributes [caller] and [executor] set by [__init__]. *)
Record toolset := mkToolset {
  ts_caller : option nat;
  ts_executor : option nat
}.

Definition register_with (self : toolset) (query : catalog_query)
  (caller executor : option nat) (registered : list registered_function)
  : result unit * list registered_function :=
  if negb (is_given (if_else caller (ts_caller self))) then
    (Raise (AssertionError
              "If caller hasn't been specified during initialization, has to be specified during registration"),
     registered)
  else if negb (is_given (if_else executor (ts_executor self))) then
    (Raise (AssertionError
              "If executor hasn't been specified during initialization, has to be specified during registration"),
     registered)
  else
    match get_list_of_actions query with
    | Raise e => (Raise e, registered)
    | Ok action_schemas =>
        register_schemas action_schemas
          (if_else caller (ts_caller self))
          (if_else executor (ts_executor self)) registered
    end.

(** [register_tools] and [register_actions]; the final [print] is not
    modelled. *)
Definition register_tools (self : toolset) (tools : one_or_many string)
  (caller executor : option nat) (registered : list registered_function)
  : result unit * list registered_function :=
  register_with self (ByApps (as_list tools)) caller executor registered.

Definition register_actions (self : toolset) (actions : one_or_many string)
  (caller executor : option nat) (registered : list registered_function)
  : result unit * list registered_function :=
  register_with self (ByActions (as_list actions)) caller executor registered.
End Client.

(** *** Predicates used by the statements *)




(** *** Sample action schemas *)

Definition star_action : action_schema :=
  mkActionSchema (Some "github_star_repo") (Some "github")
    (Some "Star a repository.") (Some goto_schema).

(** Its optional [branch] comes before its required [path]. *)
Definition read_schema : schema :=
  Schema (Some "Read File") (Some "object")
    (Some [("branch", leaf "Branch" "string" None None);
           ("path", leaf "Path" "string" None None)])
    (Some ["path"]) None None None.

Definition read_action : action_schema :=
  mkActionSchema (Some "github_read_file") (Some "github")
    (Some "Read a file.") (Some read_schema).

Definition issue_action : action_schema :=
  mkActionSchema (Some "github_create_issue") (Some "github")
    (Some "Create an issue.") (Some issue_schema).

Definition github_catalog (query : catalog_query)
  : result (list action_schema) :=
  Ok [star_action; read_action; issue_action].

End Toolset.

(** ** The signature compiler and the runtime registry: [runtime.py] *)

Module Runtime.

(** *** Annotations and callables *)

(** An element of the metadata of [typing.Annotated[type, ...]]: an
    [ArgSpec(description=..., default=...)], a string, or anything else. *)
Inductive meta_item :=
| MArgSpec (description : string) (default : pyval)
| MStr (s : string)
| MOther (v : pyval).

Definition meta_value (m : meta_item) : pyval :=
  match m with
  | MArgSpec description default =>
      VInstance "ArgSpec" [("description", VStr description);
                           ("default", default)]
  | MStr s => VStr s
  | MOther v => v
  end.

(** An annotation object.  [Shell] is the class
    [composio.tools.env.host.shell.Shell]; [Class] is any other class, with
    its identity, its [__name__] and whether it is a subclass of
    [pydantic.BaseModel]; [Annotated] is an alias made by
    [typing.Annotated]; [NotAClass] is any other object ([None], a
    [typing] generic), with the [__name__] it reports, if any. *)
Inductive annotation :=
| Shell
| Class (ident : nat) (name : string) (is_model : bool)
| Annotated (origin : annotation) (metadata : list meta_item)
| NotAClass (name : option string).

Definition is_Shell (annot : annotation) : bool :=
  match annot with Shell => true | _ => false end.

(** [getattr(annot, "__name__", "")]; an [Annotated] alias reports
    ["Annotated"], as in CPython 3.11. *)
Definition annotation_name (annot : annotation) : string :=
  match annot with
  | Shell => "Shell"
  | Class _ name _ => name
  | Annotated _ _ => "Annotated"
  | NotAClass (Some name) => name
  | NotAClass None => ""
  end.

(** [issubclass(annot, BaseModel)] *)
Definition issubclass_BaseModel (annot : annotation) : result bool :=
  match annot with
  | Shell => Ok false
  | Class _ _ is_model => Ok is_model
  | Annotated _ _ | NotAClass _ =>
      Raise (TypeError "issubclass() arg 1 must be a class")
  end.

(** [typing.get_args(annot)]: the origin and the metadata of an
    [Annotated] alias; the arguments of other generics are not modelled. *)
Definition get_args (annot : annotation)
  : option (annotation * list meta_item) :=
  match annot with
  | Annotated origin metadata => Some (origin, metadata)
  | _ => None
  end.

Inductive kind :=
| POSITIONAL_ONLY
| POSITIONAL_OR_KEYWORD
| VAR_POSITIONAL
| KEYWORD_ONLY
| VAR_KEYWORD.

Definition is_positional (k : kind) : bool :=
  match k with
  | POSITIONAL_ONLY | POSITIONAL_OR_KEYWORD => true
  | _ => false
  end.

(** A parameter of a signature, as [inspect.signature] reports it. *)
Record parameter := mkParam {
  p_name : string;
  p_kind : kind;
  p_annotation : option annotation;
  p_default : option pyval
}.

(** A Python function: its identity, [__name__], [__doc__], the file
    [inspect.getfile] reports, its signature, and what calling it with
    keyword arguments returns or raises. *)
Record callable := mkCallable {
  f_ident : nat;
  f_name : string;
  f_doc : option string;
  f_file : string;
  f_parameters : list parameter;
  f_return : option annotation;
  f_call : list (string * pyval) -> result pyval
}.

(** The fields of [inspect.FullArgSpec] that the code reads. *)
Record FullArgSpec := mkArgSpec {
  args : list string;
  defaults : option (list pyval);
  annotations : list (string * annotation)
}.

Definition param_annotation (p : parameter) : list (string * annotation) :=
  match p_annotation p with
  | Some annot => [(p_name p, annot)]
  | None => []
  end.

Definition param_default (p : parameter) : list pyval :=
  match p_default p with
  | Some v => [v]
  | None => []
  end.

(** [inspect.getfullargspec], after the standard library: [args] are the
    positional parameters, [defaults] the defaults of the positional
    parameters that have one ([None] when there is none), and
    [annotations] receives the key ["return"] first, when the function has a
    return annotation, and then every annotated parameter of any kind in
    signature order. *)
Definition getfullargspec (f : callable) : FullArgSpec :=
  let positional := List.filter (fun p => is_positional (p_kind p)) (f_parameters f) in
  let ds := flat_map param_default positional in
  mkArgSpec
    (map p_name positional)
    (match ds with [] => None | _ => Some ds end)
    (match f_return f with Some r => [("return", r)] | None => [] end
     ++ flat_map param_annotation (f_parameters f)).

(** *** The two compilers *)

Definition _is_simple_action (argspec : FullArgSpec) : result bool :=
  if negb (mem "request_data" (args argspec))
     && negb (mem "metadata" (args argspec))
  then Ok false
  else
    request_data <- getitem (annotations argspec) "request_data" ;;
    is_model <- issubclass_BaseModel request_data ;;
    if negb is_model then
      Raise (ValueError
               "`request_data` needs to be a `pydantic.BaseModel` object")
    else
      ret <- getitem (annotations argspec) "return" ;;
      is_model <- issubclass_BaseModel ret ;;
      if negb is_model then
        Raise (ValueError
                 "Return type needs to be a `pydantic.BaseModel` object")
      else Ok true.

Definition _parse_raw_type (argument : string) (annot : annotation)
  : annotation * string :=
  (annot, title (join " " (split "_" argument))).

(** The message of the final [ValueError] also prints the annotation. *)
Definition _parse_annotated_type (argument : string) (annot : annotation)
  : result (annotation * string * pyval) :=
  match get_args annot with
  | None =>
      Raise (ValueError
               "not enough values to unpack (expected at least 1, got 0)")
  | Some (annottype, annotspec) =>
      match annotspec with
      | [MArgSpec description default] =>
          Ok (annottype, description, default)
      | [MStr description] => Ok (annottype, description, VNone)
      | [MStr description; default] =>
          Ok (annottype, description, meta_value default)
      | _ =>
          Raise (ValueError
                   ("Invalid type annotation for argument " +:+ argument))
      end
  end.

(** [param, description = parts] *)
Definition unpack_pair (parts : list string) : result (string * string) :=
  match parts with
  | [a; b] => Ok (a, b)
  | [] | [_] =>
      Raise (ValueError "not enough values to unpack (expected 2, got 1)")
  | _ => Raise (ValueError "too many values to unpack (expected 2)")
  end.

(** The body of the loop over the lines after the header.  In the
    [:param] branch the name [description] is rebound to the text after
    the colon before the [:return] test reads it. *)
Definition parse_line (description : string)
  (acc : list (string * string) * option (string * string))
  : result (list (string * string) * option (string * string)) :=
  let '(params, returns) := acc in
  if String.eqb description "" then Ok (params, returns)
  else
    step <-
      (if contains ":param" description then
         pd <- unpack_pair (split ":" (remove ":param " description)) ;;
         Ok (dict_set params (rstrip (lstrip (fst pd)))
               (rstrip (lstrip (snd pd))), snd pd)
       else Ok (params, description)) ;;
    let '(params, description) := step in
    if contains ":return" description then
      pd <- unpack_pair (split ":" (remove ":return " description)) ;;
      Ok (params, Some (strip (lstrip (fst pd)), rstrip (lstrip (snd pd))))
    else Ok (params, returns).

Fixpoint parse_lines (descriptions : list string)
  (acc : list (string * string) * option (string * string))
  : result (list (string * string) * option (string * string)) :=
  match descriptions with
  | [] => Ok acc
  | description :: rest =>
      acc <- parse_line description acc ;;
      parse_lines rest acc
  end.

Definition newline : ascii := ascii_of_nat 10.

Definition _parse_docstring (docstr : option string)
  : result (string * list (string * string) * option (string * string)) :=
  match docstr with
  | None =>
      Raise (AttributeError "'NoneType' object has no attribute 'lstrip'")
  | Some docstr =>
      match split newline (rstrip (lstrip docstr)) with
      | [] => Raise (ValueError
                       "not enough values to unpack (expected at least 1, got 0)")
      | header :: descriptions =>
          acc <- parse_lines descriptions ([], None) ;;
          Ok (header, fst acc, snd acc)
      end
  end.

(** [pydantic.Field(default=..., description=...)]; the default [...] is
    [VEllipsis] and marks the field as required. *)
Record FieldInfo := Field {
  default : pyval;
  description : string
}.

Definition field_required (fi : FieldInfo) : bool :=
  match default fi with VEllipsis => true | _ => false end.

(** The dictionary a model class is created from: the entry
    [__annotations__] and one entry per field, in one name space. *)
Record namespace := mkNamespace {
  ns_fields : list (string * FieldInfo);
  ns_annotations : list (string * annotation)
}.

(** [schema[arg] = field; schema["__annotations__"][arg] = annottype].  For
    the key [__annotations__] itself the first assignment replaces the
    annotations by the field and the second one fails on it. *)
Definition namespace_set (ns : namespace) (arg : string) (field : FieldInfo)
  (annottype : annotation) : result namespace :=
  if String.eqb arg "__annotations__" then
    Raise (TypeError "'FieldInfo' object does not support item assignment")
  else
    Ok (mkNamespace (dict_set (ns_fields ns) arg field)
          (dict_set (ns_annotations ns) arg annottype)).

(** A request or response model: a class the callable declares in its
    annotations, or one made by [type(name, (BaseModel,), namespace)]. *)
Inductive model_class :=
| Declared (annot : annotation)
| Synthesized (name : string) (ns : namespace).


Definition model_fields (m : model_class) : list string :=
  match m with
  | Declared _ => []
  | Synthesized _ ns => keys (ns_fields ns)
  end.

(** [type(name, (BaseModel,), namespace)].  Pydantic refuses a name space
    in which a field has a name that starts with an underscore.  What else
    it may refuse (a field type it makes no schema for, a name that shadows
    an attribute of [BaseModel]) is not modelled: the statements about a
    compiled callable are about a compilation that returned. *)
Definition type_BaseModel (name : string) (ns : namespace)
  : result model_class :=
  match List.find private_name (keys (ns_fields ns)) with
  | Some bad => Raise (PydanticUserError bad)
  | None => Ok (Synthesized name ns)
  end.

(** What [_parse_schemas] returns as the callable to wrap: the function it
    was given, or the closure [execute] of [_build_executable_from_args]
    with the variables it captures. *)
Inductive entry_point :=
| Original (f : callable)
| Execute (f : callable) (shell_argument : option string)
    (returns : option (string * string)) (ResponseSchema : model_class)
    (header : string).

Definition entry_name (ep : entry_point) : string :=
  match ep with
  | Original f => f_name f
  | Execute f _ _ _ _ => f_name f
  end.

Definition entry_doc (ep : entry_point) : option string :=
  match ep with
  | Original f => f_doc f
  | Execute _ _ _ _ header => Some header
  end.


(** The variables the loop over the annotations assigns. *)
Record build_state := mkBuild {
  shell_argument : option string;
  request_schema : namespace;
  response_schema : namespace
}.

(** The body of [for arg, annot in argspec.annotations.items()]. *)
Definition build_step (paramdesc : list (string * string))
  (defaults : list (string * pyval)) (returns : option (string * string))
  (st : build_state) (entry : string * annotation) : result build_state :=
  let '(arg, annot) := entry in
  if is_Shell annot then
    Ok (mkBuild (Some arg) (request_schema st) (response_schema st))
  else
    parsed <-
      (if String.eqb (annotation_name annot) "Annotated" then
         _parse_annotated_type arg annot
       else
         let '(annottype, description) := _parse_raw_type arg annot in
         let description := get_default paramdesc arg description in
         let default := get_default defaults arg VEllipsis in
         let description :=
           match returns with
           | Some (_, rdescription) =>
               if String.eqb arg "return" then rdescription else description
           | None => description
           end in
         Ok (annottype, description, default)) ;;
    let '(annottype, description, default) := parsed in
    if String.eqb arg "return" then
      let arg := match returns with Some (rname, _) => rname | None => arg end in
      response <- namespace_set (response_schema st) arg
                    (Field default description) annottype ;;
      Ok (mkBuild (shell_argument st) (request_schema st) response)
    else
      request <- namespace_set (request_schema st) arg
                   (Field default description) annottype ;;
      Ok (mkBuild (shell_argument st) request (response_schema st)).

Fixpoint build_loop (paramdesc : list (string * string))
  (defaults : list (string * pyval)) (returns : option (string * string))
  (entries : list (string * annotation)) (st : build_state)
  : result build_state :=
  match entries with
  | [] => Ok st
  | entry :: rest =>
      st <- build_step paramdesc defaults returns st entry ;;
      build_loop paramdesc defaults returns rest st
  end.

Definition empty_namespace : namespace := mkNamespace [] [].

(** [dict(zip(reversed(argspec.annotations), reversed(argspec.defaults or [])))] *)
Definition signature_defaults (argspec : FullArgSpec)
  : list (string * pyval) :=
  dict_of_pairs
    (combine (rev (keys (annotations argspec)))
       (rev (or_else (defaults argspec) []))).

Section Inflection.
(** [inflection.camelize], which names the synthesized models. *)
Variable camelize : string -> string.

Definition _build_executable_from_args (f : callable)
  : result (entry_point * model_class * model_class * bool) :=
  let argspec := getfullargspec f in
  let defaults := signature_defaults argspec in
  parsed <- _parse_docstring (f_doc f) ;;
  let '(header, paramdesc, returns) := parsed in
  st <- build_loop paramdesc defaults returns (annotations argspec)
          (mkBuild None empty_namespace empty_namespace) ;;
  RequestSchema <-
    type_BaseModel (camelize (f_name f) +:+ "Request") (request_schema st) ;;
  ResponseSchema <-
    type_BaseModel (camelize (f_name f) +:+ "Response") (response_schema st) ;;
  Ok (Execute f (shell_argument st) returns ResponseSchema header,
      RequestSchema, ResponseSchema,
      match shell_argument st with Some _ => true | None => false end).

Definition _parse_schemas (f : callable) (runs_on_shell : bool)
  : result (entry_point * model_class * model_class * bool) :=
  let argspec := getfullargspec f in
  simple <- _is_simple_action argspec ;;
  if simple then
    request_data <- getitem (annotations argspec) "request_data" ;;
    ret <- getitem (annotations argspec) "return" ;;
    Ok (Original f, Declared request_data, Declared ret, runs_on_shell)
  else _build_executable_from_args f.
End Inflection.

(** *** Invoking an entry point *)

(** What [model_dump] makes of a value: a model instance becomes the
    dictionary of its fields, also inside a list or a dictionary; any other
    value is kept. *)
Fixpoint dump (v : pyval) : pyval :=
  match v with
  | VList l => VList (map dump l)
  | VDict d => VDict (map (fun '(k, x) => (k, dump x)) d)
  | VInstance _ fields => VDict (map (fun '(k, x) => (k, dump x)) fields)
  | _ => v
  end.

(** [request.model_dump()]: the fields of a model instance, dumped. *)
Definition model_dump (request : pyval) : result (list (string * pyval)) :=
  match request with
  | VInstance _ fields => Ok (map (fun '(k, x) => (k, dump x)) fields)
  | _ => Raise (AttributeError "object has no attribute 'model_dump'")
  end.

(** [metadata["workspace"].shells.recent] *)
Definition recent_shell (metadata : list (string * pyval)) : result pyval :=
  workspace <- getitem metadata "workspace" ;;
  match workspace with
  | VWorkspace recent => Ok recent
  | _ => Raise (AttributeError "object has no attribute 'shells'")
  end.

(** The keyword arguments that the closure [execute] passes to [f]. *)
Definition execute_kwargs (shell_argument : option string) (request : pyval)
  (metadata : list (string * pyval)) : result (list (string * pyval)) :=
  kwargs <- model_dump request ;;
  match shell_argument with
  | Some arg =>
      recent <- recent_shell metadata ;;
      Ok (dict_set kwargs arg recent)
  | None => Ok kwargs
  end.

(** [isinstance(response, BaseModel)] *)
Definition is_model_instance (v : pyval) : bool :=
  match v with VInstance _ _ => true | _ => false end.

Section Pydantic.
(** The call of [ResponseSchema] with keyword arguments: pydantic
    validates them against the fields of the class and returns an
    instance, or raises [ValidationError]; a keyword that names no field
    is ignored.  The validation is pydantic's and is a parameter here. *)
Variable construct : model_class -> list (string * pyval) -> result pyval.

(** What [execute] does with the value [f] returned. *)
Definition execute_response (returns : option (string * string))
  (ResponseSchema : model_class) (response : pyval) : result pyval :=
  if is_model_instance response then Ok response
  else
    let rname := match returns with Some (rname, _) => rname | None => "return" end in
    construct ResponseSchema [(rname, response)].

(** Calling an entry point as [WrappedAction.execute] does,
    [f(request, metadata)]: the original function receives the two values
    as its first two positional parameters. *)
Definition invoke (ep : entry_point) (request : pyval)
  (metadata : list (string * pyval)) : result pyval :=
  match ep with
  | Original f =>
      match List.filter (fun p => is_positional (p_kind p)) (f_parameters f) with
      | p1 :: p2 :: _ =>
          f_call f [(p_name p1, request); (p_name p2, VDict metadata)]
      | _ => Raise (TypeError "takes fewer than 2 positional arguments")
      end
  | Execute f shell_argument returns ResponseSchema _ =>
      kwargs <- execute_kwargs shell_argument request metadata ;;
      response <- f_call f kwargs ;;
      execute_response returns ResponseSchema response
  end.
End Pydantic.

(** *** Wrapped actions, tool classes and the registry *)

Record ActionData := mkActionData {
  ad_name : string;
  ad_app : string;
  ad_tags : list string;
  ad_no_auth : bool;
  ad_is_local : bool;
  ad_is_runtime : bool;
  ad_shell : bool
}.

(** The class [cls] that [_wrap] makes; it is a mutable object, and a tool
    class assigns to its [tool] and [enum] attributes after it was made. *)
Record action_class := mkAction {
  a_class_name : string;
  a_doc : option string;
  a_tags : list string;
  a_tool : string;
  a_name : string;
  a_enum : string;
  a_display_name : string;
  a_file : string;
  a_requires : option (list string);
  a_run_on_shell : bool;
  a_data : ActionData;
  a_request_schema : model_class;
  a_response_schema : model_class;
  a_execute : entry_point
}.

Definition set_tool_enum (tool enum : string) (a : action_class)
  : action_class :=
  mkAction (a_class_name a) (a_doc a) (a_tags a) tool (a_name a) enum
    (a_display_name a) (a_file a) (a_requires a) (a_run_on_shell a)
    (a_data a) (a_request_schema a) (a_response_schema a) (a_execute a).

(** What [RuntimeToolMeta.__init__] sets on a tool class. *)
Record tool_attributes := mkToolAttributes {
  t_description : string;
  t_name : string;
  t_enum : string;
  t_display_name : string;
  t__actions : list (string * nat)
}.

(** A tool class made by [_create_tool_class]: its [__name__], its
    [__doc__], the list its [actions()] returns (references to action
    classes), and the attributes the metaclass set, if it set any. *)
Record tool_class := mkTool {
  tc_class_name : string;
  tc_doc : string;
  tc_actions : list nat;
  tc_attributes : option tool_attributes
}.

(** The process-wide state: the action classes by reference,
    [registry["runtime"]], and the calls of [add_runtime_action] so far. *)
Record state := mkState {
  heap : list action_class;
  registry_runtime : gmap string tool_class;
  runtime_actions : list (string * ActionData)
}.

Definition initial_state : state := mkState [] ∅ [].

(** [registry["runtime"][toolname].actions()], or the empty list when the
    tool is not registered. *)
Definition registered_actions (st : state) (toolname : string) : list nat :=
  match registry_runtime st !! toolname with
  | Some tool => tc_actions tool
  | None => []
  end.

(** One iteration of [for action in cls.actions()]:
    [action.tool = cls.name], [action.enum = f"{cls.enum}_{action.enum}"],
    [cls._actions[action.enum] = action]. *)
Definition attach_action (tool_name tool_enum : string)
  (acc : list action_class * list (string * nat)) (action : nat)
  : list action_class * list (string * nat) :=
  let '(h, _actions) := acc in
  match (h : list action_class) !! action with
  | Some a =>
      let enum := tool_enum +:+ "_" +:+ a_enum a in
      (<[action := set_tool_enum tool_name enum a]> h,
       dict_set _actions enum action)
  | None => acc
  end.

(** What attaching to a tool does to one action class. *)
Definition attached (tool_name tool_enum : string) (a : action_class)
  : action_class :=
  set_tool_enum tool_name (tool_enum +:+ "_" +:+ a_enum a) a.

(** The enum an action class has after one more tool class was made
    over it; the metaclass sets no enum on a class named [RuntimeTool]. *)
Definition namespaced (prefix : option string) (enum : string) : string :=
  match prefix with
  | Some tool_enum => tool_enum +:+ "_" +:+ enum
  | None => enum
  end.

(** The arguments of one call of [_wrap] other than the tool name. *)
Record registration := mkRegistration {
  r_entry : entry_point;
  r_tags : list string;
  r_file : string;
  r_request : model_class;
  r_response : model_class;
  r_runs_on_shell : bool;
  r_requires : option (list string)
}.

Section Registry.
(** The functions of the [inflection] package the module calls. *)
Variable camelize : string -> string.
Variable underscore : string -> string.
Variable humanize : string -> string.

(** The class attributes that the bases defined outside this module
    ([LocalToolMixin]) contribute to a tool class, by name; the metaclass
    reads ["mame"], ["enum"] and ["display_name"] with [getattr]. *)
Variable inherited : string -> option string.

(** [RuntimeToolMeta.__init__] for a class named [name] whose [actions]
    returns [actions], with [autoload] left [False].  The two checks on
    the [actions] method pass for the class [_create_tool_class] makes;
    [cls.file] is not modelled.  The attribute read as ["mame"] is spelled
    so in the source. *)
Definition RuntimeToolMeta_init (name doc : string) (actions : list nat)
  (h : list action_class) : list action_class * tool_class :=
  if String.eqb name "RuntimeTool" then (h, mkTool name doc actions None)
  else
    let description := rstrip (lstrip doc) in
    let tool_name := or_else (inherited "mame") (underscore name) in
    let tool_enum := upper (or_else (inherited "enum") tool_name) in
    let display_name :=
      or_else (inherited "display_name") (humanize name) in
    let '(h, _actions) :=
      fold_left (attach_action tool_name tool_enum) actions (h, []) in
    (h, mkTool name doc actions
          (Some (mkToolAttributes description tool_name tool_enum
                   display_name _actions))).

(** The enum of the tool class made for [toolname], when the metaclass
    sets one. *)
Definition tool_enum (toolname : string) : option string :=
  if String.eqb (camelize toolname) "RuntimeTool" then None
  else Some (upper (or_else (inherited "enum")
                      (or_else (inherited "mame")
                         (underscore (camelize toolname))))).

Definition _create_tool_class (name : string) (actions : list nat)
  (h : list action_class) : list action_class * tool_class :=
  RuntimeToolMeta_init (camelize name) (title name +:+ " tool.") actions h.

Definition _wrap (f : entry_point) (toolname : string) (tags : list string)
  (file : string) (request_schema response_schema : model_class)
  (runs_on_shell : bool) (requires : option (list string)) (st : state)
  : state * nat :=
  let cls :=
    mkAction (camelize (entry_name f)) (entry_doc f) tags toolname
      (entry_name f) (upper (entry_name f)) (entry_name f) file requires
      runs_on_shell
      (mkActionData (entry_name f) toolname tags true true true
         runs_on_shell)
      request_schema response_schema f in
  let ref := length (heap st) in
  let h := heap st ++ [cls] in
  let existing_actions := registered_actions st toolname in
  let '(h, tool) := _create_tool_class toolname (ref :: existing_actions) h in
  let registry := <[toolname := tool]> (registry_runtime st) in
  let added :=
    match h !! ref with
    | Some cls => [(a_enum cls, a_data cls)]
    | None => []
    end in
  (mkState h registry (runtime_actions st ++ added), ref).

(** The decorator [action(toolname, runs_on_shell, tags, requires)]
    applied to [f]. *)
Definition action (toolname : string) (runs_on_shell : bool)
  (tags : option (list string)) (requires : option (list string))
  (f : callable) (st : state) : result (state * nat) :=
  let file := f_file f in
  parsed <- _parse_schemas camelize f runs_on_shell ;;
  let '(f, RequestSchema, ResponseSchema, _runs_on_shell) := parsed in
  Ok (_wrap f toolname (or_else tags []) file RequestSchema
        ResponseSchema _runs_on_shell requires st).

(** [_wrap] with the arguments of one registration. *)
Definition register (toolname : string) (r : registration) (st : state)
  : state * nat :=
  _wrap (r_entry r) toolname (r_tags r) (r_file r) (r_request r)
    (r_response r) (r_runs_on_shell r) (r_requires r) st.

(** A sequence of registrations under one tool name, with the references
    of the classes made, in registration order. *)
Fixpoint register_all (toolname : string) (rs : list registration)
  (st : state) : state * list nat :=
  match rs with
  | [] => (st, [])
  | r :: rest =>
      let '(st, ref) := register toolname r st in
      let '(st, refs) := register_all toolname rest st in
      (st, ref :: refs)
  end.
End Registry.

(** *** Predicates on states used by the statements *)

(** The references the registry holds point into the heap, and no class
    is listed twice, under one tool or under two. *)
Definition wf_state (st : state) : Prop :=
  (forall t, NoDup (registered_actions st t))
  /\ (forall t r, r ∈ registered_actions st t -> r < length (heap st))
  /\ (forall t t' r,
        r ∈ registered_actions st t -> r ∈ registered_actions st t' ->
        t = t').

(** An enum that was namespaced [n] times. *)
Fixpoint prefixed (n : nat) (prefix : option string) (enum : string)
  : string :=
  match n with
  | O => enum
  | S n => namespaced prefix (prefixed n prefix enum)
  end.

(** *** Predicates on callables used by the statements *)

(** The parameters annotated with [Shell], in signature order. *)
Definition is_shell_parameter (p : parameter) : bool :=
  match p_annotation p with
  | Some annot => is_Shell annot
  | None => false
  end.

Definition shell_parameters (f : callable) : list string :=
  map p_name (List.filter is_shell_parameter (f_parameters f)).

(** What Python's grammar guarantees of a signature: the parameter names
    are pairwise distinct and none is the keyword [return]. *)
Definition wf_signature (f : callable) : bool :=
  distinct (map p_name (f_parameters f))
  && negb (mem "return" (map p_name (f_parameters f))).

(** A parameter that is positional and carries an annotation that is
    neither [Shell] nor [Annotated] metadata. *)
Definition has_default (p : parameter) : bool :=
  match p_default p with Some _ => true | None => false end.

Definition plainly_annotated (p : parameter) : bool :=
  is_positional (p_kind p)
  && match p_annotation p with
     | Some annot =>
         negb (is_Shell annot)
         && negb (String.eqb (annotation_name annot) "Annotated")
     | None => false
     end.

(** The default a parameter declares, as an entry of a dictionary. *)
Definition default_pair (p : parameter) : list (string * pyval) :=
  match p_default p with
  | Some v => [(p_name p, v)]
  | None => []
  end.

(** Python's grammar for positional parameters: read from the end of the
    signature, those with a default come first. *)
Fixpoint defaults_lead (reversed : list parameter) : bool :=
  match reversed with
  | [] => true
  | p :: rest =>
      if has_default p then defaults_lead rest
      else forallb (fun q => negb (has_default q)) rest
  end.

Definition defaults_trail (ps : list parameter) : bool :=
  defaults_lead (rev ps).

(** The last entry annotated with [Shell], starting from [init]. *)
Definition last_shell (entries : list (string * annotation))
  (init : option string) : option string :=
  fold_left (fun acc entry => if is_Shell (snd entry) then Some (fst entry) else acc)
    entries init.

(** The last of a list of names, starting from [init]. *)
Definition last_name (names : list string) (init : option string)
  : option string :=
  fold_left (fun _ name => Some name) names init.

(** An entry that is not annotated with [Shell] compiles when its
    [Annotated] metadata, if it has any, has one of the accepted shapes
    and the key it is stored under is not [__annotations__]. *)
Definition entry_compiles (returns : option (string * string))
  (entry : string * annotation) : bool :=
  let '(arg, annot) := entry in
  (if String.eqb (annotation_name annot) "Annotated"
   then is_ok (_parse_annotated_type arg annot) else true)
  && negb (String.eqb
             (if String.eqb arg "return"
              then match returns with Some (rname, _) => rname | None => arg end
              else arg)
             "__annotations__").

(** [issubclass(annot, BaseModel)] holds. *)
Definition is_validated_model (annot : annotation) : bool :=
  match annot with
  | Class _ _ is_model => is_model
  | _ => false
  end.

(** *** [inflection.camelize] on ASCII text

    [re.sub(r"(?:^|_)(.)", lambda m: m.group(1).upper(), string)]: the
    first character, and every character that follows an underscore
    (which is dropped), is upper-cased; [.] does not match a newline.  It
    instantiates the parameter [camelize] in the examples. *)
Definition is_newline (c : ascii) : bool := ascii_eqb c newline.
Definition is_underscore (c : ascii) : bool := ascii_eqb c "_"%char.

Fixpoint camelize_chars (at_start : bool) (l : list ascii) : list ascii :=
  match l with
  | [] => []
  | c :: rest =>
      if at_start then
        (if is_newline c then c else upper_char c)
          :: camelize_chars false rest
      else if is_underscore c then
        match rest with
        | d :: rest' =>
            if is_newline d then c :: camelize_chars false rest
            else upper_char d :: camelize_chars false rest'
        | [] => [c]
        end
      else c :: camelize_chars false rest
  end.

Definition inflection_camelize (s : string) : string :=
  str (camelize_chars true (chars s)).

(** *** Sample callables *)

Definition nl : string := String newline "".
Definition int_class : annotation := Class 1 "int" false.
Definition str_class : annotation := Class 2 "str" false.
Definition dict_class : annotation := Class 3 "dict" false.

(** A body that returns the keyword arguments it was called with. *)
Definition echo (kwargs : list (string * pyval)) : result pyval :=
  Ok (VDict kwargs).

(** [def goto(shell: Shell, line_number: int) -> str] *)
Definition goto : callable :=
  mkCallable 100 "goto"
    (Some ("Move view." +:+ nl +:+ ":param line_number: target line" +:+ nl
           +:+ ":return output: command output"))
    "goto.py"
    [mkParam "shell" POSITIONAL_OR_KEYWORD (Some Shell) None;
     mkParam "line_number" POSITIONAL_OR_KEYWORD (Some int_class) None]
    (Some str_class) echo.

(** [def listing(query: str, limit: int = 10) -> str] *)
Definition listing : callable :=
  mkCallable 101 "listing" (Some "List entries.") "listing.py"
    [mkParam "query" POSITIONAL_OR_KEYWORD (Some str_class) None;
     mkParam "limit" POSITIONAL_OR_KEYWORD (Some int_class) (Some (VInt 10))]
    (Some str_class) echo.

(** [def paginate(page: int = 1, *, size: int) -> str] *)
Definition paginate : callable :=
  mkCallable 102 "paginate" (Some "Page through entries.") "paginate.py"
    [mkParam "page" POSITIONAL_OR_KEYWORD (Some int_class) (Some (VInt 1));
     mkParam "size" KEYWORD_ONLY (Some int_class) None]
    (Some str_class) echo.

(** [def scale(width: int, factor=2) -> str] *)
Definition scale : callable :=
  mkCallable 103 "scale" (Some "Scale a view.") "scale.py"
    [mkParam "width" POSITIONAL_OR_KEYWORD (Some int_class) None;
     mkParam "factor" POSITIONAL_OR_KEYWORD None (Some (VInt 2))]
    (Some str_class) echo.

Definition RunRequest : annotation := Class 10 "RunRequest" true.
Definition RunResponse : annotation := Class 11 "RunResponse" true.

(** [def run(request_data: RunRequest, metadata: dict) -> RunResponse] *)
Definition run : callable :=
  mkCallable 104 "run" (Some "Run a command.") "run.py"
    [mkParam "request_data" POSITIONAL_OR_KEYWORD (Some RunRequest) None;
     mkParam "metadata" POSITIONAL_OR_KEYWORD (Some dict_class) None]
    (Some RunResponse) echo.


(** [def fetch(url: str) -> str] and [def store(url: str) -> str] *)
Definition fetch : callable :=
  mkCallable 106 "fetch" (Some "Fetch a page.") "web.py"
    [mkParam "url" POSITIONAL_OR_KEYWORD (Some str_class) None]
    (Some str_class) echo.

Definition store : callable :=
  mkCallable 107 "store" (Some "Store a page.") "web.py"
    [mkParam "url" POSITIONAL_OR_KEYWORD (Some str_class) None]
    (Some str_class) echo.

(** The number of occurrences of a character in a string. *)
Definition count_char (c : ascii) (s : string) : nat :=
  length (List.filter (fun x => ascii_eqb x c) (chars s)).

(** [def download(url: str) -> str], documented with a description that
    holds a colon. *)
Definition download : callable :=
  mkCallable 108 "download"
    (Some ("Download a page." +:+ nl
           +:+ ":param url: address, e.g. http://host"))
    "web.py"
    [mkParam "url" POSITIONAL_OR_KEYWORD (Some str_class) None]
    (Some str_class) echo.

(** [def search(query: Annotated[str, "Text to look for"] = "*",
               limit: Annotated[int, ArgSpec(description="Most results",
                                             default=5)] = 10) -> str] *)
Definition search : callable :=
  mkCallable 109 "search" (Some "Search the index.") "search.py"
    [mkParam "query" POSITIONAL_OR_KEYWORD
       (Some (Annotated str_class [MStr "Text to look for"]))
       (Some (VStr "*"));
     mkParam "limit" POSITIONAL_OR_KEYWORD
       (Some (Annotated int_class [MArgSpec "Most results" (VInt 5)]))
       (Some (VInt 10))]
    (Some str_class) echo.

(** [def notify(text: str, metadata: dict) -> str] *)
Definition notify : callable :=
  mkCallable 110 "notify" (Some "Send a notification.") "notify.py"
    [mkParam "text" POSITIONAL_OR_KEYWORD (Some str_class) None;
     mkParam "metadata" POSITIONAL_OR_KEYWORD (Some dict_class) None]
    (Some str_class) echo.

(** Whether [_is_simple_action] takes the callable for one that is
    defined with [request_data] and [metadata]. *)
Definition on_simple_path (f : callable) : bool :=
  mem "request_data" (args (getfullargspec f))
  || mem "metadata" (args (getfullargspec f)).

(** Whether the callable has a parameter annotated with [Shell]. *)
Definition has_shell_parameter (f : callable) : bool :=
  match shell_parameters f with [] => false | _ :: _ => true end.

(** Whether some annotation of the callable, of a parameter or of the
    return value, is [Shell]. *)
Definition has_shell_annotation (f : callable) : bool :=
  has_shell_parameter f
  || match f_return f with Some annot => is_Shell annot | None => false end.

(** [def tail(shell: Shell, path: str) -> str] *)
Definition tail : callable :=
  mkCallable 111 "tail" (Some "Show the end of a file.") "tail.py"
    [mkParam "shell" POSITIONAL_OR_KEYWORD (Some Shell) None;
     mkParam "path" POSITIONAL_OR_KEYWORD (Some str_class) None]
    (Some str_class) echo.

(** [def pwd(shell: Shell) -> str], whose body returns a path. *)
Definition pwd : callable :=
  mkCallable 112 "pwd"
    (Some ("Print the working directory." +:+ nl
           +:+ ":return path: the directory"))
    "pwd.py"
    [mkParam "shell" POSITIONAL_OR_KEYWORD (Some Shell) None]
    (Some str_class) (fun _ => Ok (VStr "/home/user")).


(** [def current(name: str) -> Shell]: no argument is a [Shell], the
    return value is. *)
Definition current : callable :=
  mkCallable 114 "current" (Some "Select a shell.") "current.py"
    [mkParam "name" POSITIONAL_OR_KEYWORD (Some str_class) None]
    (Some Shell) echo.

(** The registration of a callable on the simple path, without tags. *)
Definition simple_registration (f : callable) : registration :=
  mkRegistration (Original f) [] (f_file f) (Declared RunRequest)
    (Declared RunResponse) false None.

End Runtime.

(** ** The repository-map action: [get_repomap.py] *)

Module RepoMap.

Record GetRepoMapRequest := mkRequest {
  code_directory : string;
  files_of_interest : list string;
  primary_file_paths : list string;
  mentioned_idents : list string
}.

(** [set(l)].  A set is carried as the list it was made from: the order in
    which a Python set is iterated is not determined by its elements, so
    what a callee does with the set may depend on more than on them. *)
Definition set_of (l : list string) : list string := l.

(** What the action calls outside this module: [pathlib] on the file
    system, [get_files_excluding_gitignore], and [RepoMap].  Each call
    returns or raises.  Paths are carried as their [str]. *)
Record environment := mkEnvironment {
  (** [Path(code_directory).resolve()] *)
  resolve : string -> result string;
  (** [repo_root.exists()] *)
  path_exists : string -> result bool;
  get_files_excluding_gitignore : string -> result (list string);
  (** [str(Path(file).relative_to(repo_root))] *)
  relative_to : string -> string -> result string;
  (** [RepoMap(root=repo_root).get_repo_map(chat_files=...,
      other_files=..., mentioned_fnames=..., mentioned_idents=...)] *)
  get_repo_map :
    string -> list string -> list string -> list string -> list string ->
    result pyval
}.

(** [try: body except Exception as e: handler(e)] *)
Definition try_except {A} (body : result A) (handler : exn -> result A)
  : result A :=
  match body with
  | Ok a => Ok a
  | Raise e => if exc_is_Exception e then handler e else Raise e
  end.

(** [[f(x) for x in l]] for an [f] that may raise. *)
Fixpoint comprehension {A B} (f : A -> result B) (l : list A)
  : result (list B) :=
  match l with
  | [] => Ok []
  | x :: rest =>
      y <- f x ;;
      ys <- comprehension f rest ;;
      Ok (y :: ys)
  end.

Definition missing_message (repo_root : string) : string :=
  "Repository root path '" +:+ repo_root
  +:+ "' does not exist or is inaccessible.".

Definition failure_message (e : exn) : string :=
  "An error occurred while generating the repository map: " +:+ exc_text e
  +:+ ". Please ensure all paths are correct and you have necessary permissions.".

Section Execute.
Variable env : environment.

(** The body of the [try] block. *)
Definition generate (request_data : GetRepoMapRequest) (repo_root : string)
  : result (list (string * pyval)) :=
  all_repository_files <- get_files_excluding_gitignore env repo_root ;;
  relative_file_paths <-
    comprehension (fun file => relative_to env file repo_root)
      (List.filter (fun file => endswith file ".py") all_repository_files) ;;
  generated_map <-
    get_repo_map env repo_root
      (set_of (primary_file_paths request_data))
      relative_file_paths
      (set_of (files_of_interest request_data))
      (set_of (mentioned_idents request_data)) ;;
  Ok [("status", VStr "success");
      ("repository_map", generated_map);
      ("error_message", VNone)].

(** [GetRepoMap.execute]; [authorisation_data] is not read. *)
Definition execute (request_data : GetRepoMapRequest)
  : result (list (string * pyval)) :=
  repo_root <- resolve env (code_directory request_data) ;;
  found <- path_exists env repo_root ;;
  if negb found then
    Ok [("error_message", VStr (missing_message repo_root))]
  else
    try_except (generate request_data repo_root)
      (fun e =>
         Ok [("repository_map", VNone);
             ("error_message", VStr (failure_message e))]).
End Execute.

(** *** Sample environments *)

Definition RuntimeError (msg : string) : exn := mkExn "RuntimeError" msg true.

(** A file system on which [/srv/repo] is a symbolic link to itself:
    [Path.resolve] raises [RuntimeError] on a symlink loop (CPython before
    3.13), also in non-strict mode. *)
Definition looping_fs : environment :=
  mkEnvironment
    (fun path => if String.eqb path "/srv/repo"
                 then Raise (RuntimeError "Symlink loop from '/srv/repo'")
                 else Ok path)
    (fun _ => Ok true)
    (fun _ => Ok [])
    (fun file _ => Ok file)
    (fun _ _ _ _ _ => Ok (VStr "")).

(** A file system with the repository [/project] holding [main.py] and
    [README.md], and nothing else; the map of any other directory fails. *)
Definition project_fs : environment :=
  mkEnvironment
    (fun path => Ok path)
    (fun path => Ok (String.eqb path "/project" || String.eqb path "/broken"))
    (fun root =>
       if String.eqb root "/project"
       then Ok ["/project/main.py"; "/project/README.md"]
       else Raise (mkExn "PermissionError" "[Errno 13] Permission denied" true))
    (fun file _ => Ok (remove "/project/" file))
    (fun _ _ other_files _ _ => Ok (VStr (join ", " other_files))).

Definition request_for (directory : string) : GetRepoMapRequest :=
  mkRequest directory [] [] [].

End RepoMap.
(** ** The workspace commands: [cmds.py] and [base_class.py] *)

Module Cmds.

(** [BaseCmdResponse], what [Workspace.communicate] returns. *)
Record BaseCmdResponse := mkCmdResponse {
  cmd_output : pyval;
  cmd_return_code : Z
}.

(** [BaseResponse] and its subclasses, told apart by the class name. *)
Record BaseResponse := mkResponse {
  response_class : string;
  output : pyval;
  return_code : Z
}.

Record CreateFileRequest := mkCreateFileRequest {
  request_workspace_id : string;
  file_name : option string
}.

Record GoToRequest := mkGoToRequest {
  goto_workspace_id : string;
  goto_line_number : Z
}.

(** [line_number] is [0] when the request does not give it. *)
Record OpenCmdRequest := mkOpenCmdRequest {
  open_workspace_id : string;
  open_file_name : string;
  open_line_number : Z
}.

Section Actions.
(** The workspace and the helper the actions call: the state of a
    workspace, what [communicate] returns or raises for a command and
    the state it leaves, and [process_output]. *)
Variable Workspace : Type.
Variable communicate :
  Workspace -> string -> result BaseCmdResponse * Workspace.
Variable process_output : pyval -> Z -> result (pyval * Z).

(** The attributes of a [BaseAction] instance; [workspace] is the
    workspace it refers to, if one was attached. *)
Record action_state := mkActionState {
  workspace : option Workspace;
  workspace_id : string;
  command : string;
  self_return_code : option Z
}.

(** What a call leaves behind: the value returned or the exception
    raised, the instance, and the commands sent to the workspace. *)
Record outcome := mkOutcome {
  returned : result BaseResponse;
  self_after : action_state;
  issued : list string
}.

(** [BaseAction._setup]; the call of [logger.error] is not modelled. *)
Definition _setup (self : action_state) (args_workspace_id : string)
  : result unit * action_state :=
  let self := mkActionState (workspace self) args_workspace_id
                (command self) (self_return_code self) in
  match workspace self with
  | None => (Raise (ValueError "workspace_factory is not set"), self)
  | Some _ => (Ok tt, self)
  end.

Definition validate_file_name (file_name : option string) : bool :=
  match file_name with
  | None => false
  | Some name => negb (String.eqb (strip name) "")
  end.

(** [str(request_data.file_name)] *)
Definition str_file_name (file_name : option string) : string :=
  match file_name with
  | None => "None"
  | Some name => name
  end.

(** The body of [CreateFileCmd.execute], under its decorator
    [history_recorder()], which is defined outside these sources. *)
Definition CreateFileCmd_execute (self : action_state)
  (request_data : CreateFileRequest) : outcome :=
  let '(ready, self) := _setup self (request_workspace_id request_data) in
  match ready with
  | Raise e => mkOutcome (Raise e) self []
  | Ok _ =>
      if negb (validate_file_name (file_name request_data)) then
        mkOutcome
          (Ok (mkResponse "CreateFileResponse"
                 (VStr "Exception: file-name can not be empty") 1))
          self []
      else
        match workspace self with
        | None =>
            mkOutcome (Raise (ValueError "Workspace is not initialized."))
              self []
        | Some ws =>
            let cmd := "create " +:+ str_file_name (file_name request_data) in
            let '(cmd_response, ws) := communicate ws cmd in
            let self := mkActionState (Some ws) (workspace_id self)
                          (command self) (self_return_code self) in
            mkOutcome
              (cmd_response <- cmd_response ;;
               processed <- process_output (cmd_output cmd_response)
                              (cmd_return_code cmd_response) ;;
               Ok (mkResponse "BaseResponse" (fst processed) (snd processed)))
              self [cmd]
        end
  end.

(** The body of [GoToLineNumInOpenFile.execute]. *)
Definition GoToLineNumInOpenFile_execute (self : action_state)
  (request_data : GoToRequest) : outcome :=
  let '(ready, self) := _setup self (goto_workspace_id request_data) in
  match ready with
  | Raise e => mkOutcome (Raise e) self []
  | Ok _ =>
      match workspace self with
      | None =>
          mkOutcome (Raise (ValueError "Workspace is not initialized."))
            self []
      | Some ws =>
          let cmd := "goto " +:+ str_int (goto_line_number request_data) in
          let '(cmd_response, ws) := communicate ws cmd in
          let self := mkActionState (Some ws) (workspace_id self)
                        (command self) (self_return_code self) in
          mkOutcome
            (cmd_response <- cmd_response ;;
             processed <- process_output (cmd_output cmd_response)
                            (cmd_return_code cmd_response) ;;
             Ok (mkResponse "BaseResponse" (fst processed) (snd processed)))
            self [cmd]
      end
  end.

(** The command [OpenFile.execute] builds, its local variable [command]. *)
Definition open_command (request_data : OpenCmdRequest) : string :=
  let cmd := "open " +:+ open_file_name request_data in
  if negb (Z.eqb (open_line_number request_data) 0)
  then cmd +:+ " " +:+ str_int (open_line_number request_data)
  else cmd.

(** The body of [OpenFile.execute]. *)
Definition OpenFile_execute (self : action_state)
  (request_data : OpenCmdRequest) : outcome :=
  let '(ready, self) := _setup self (open_workspace_id request_data) in
  match ready with
  | Raise e => mkOutcome (Raise e) self []
  | Ok _ =>
      let cmd := open_command request_data in
      match workspace self with
      | None =>
          mkOutcome (Raise (ValueError "Workspace is not initialized."))
            self []
      | Some ws =>
          let '(cmd_response, ws) := communicate ws cmd in
          let self := mkActionState (Some ws) (workspace_id self)
                        (command self) (self_return_code self) in
          mkOutcome
            (cmd_response <- cmd_response ;;
             processed <- process_output (cmd_output cmd_response)
                            (cmd_return_code cmd_response) ;;
             Ok (mkResponse "BaseResponse" (fst processed) (snd processed)))
            self [cmd]
      end
  end.

(** [BaseAction.__init__] *)
Definition BaseAction_init : action_state :=
  mkActionState None "" "" None.

(** [BaseAction.set_workspace], for a factory whose
    [get_registered_manager] returns a workspace or [None], or raises. *)
Definition set_workspace (self : action_state)
  (get_registered_manager : string -> result (option Workspace))
  : result unit * action_state :=
  match get_registered_manager (workspace_id self) with
  | Raise e => (Raise e, self)
  | Ok manager =>
      (Ok tt, mkActionState manager (workspace_id self) (command self)
                (self_return_code self))
  end.

(** A request to one of the three actions, and its [execute]. *)
Inductive request :=
| GoTo (request_data : GoToRequest)
| CreateFile (request_data : CreateFileRequest)
| Open (request_data : OpenCmdRequest).

Definition requested_workspace_id (r : request) : string :=
  match r with
  | GoTo request_data => goto_workspace_id request_data
  | CreateFile request_data => request_workspace_id request_data
  | Open request_data => open_workspace_id request_data
  end.

Definition execute (self : action_state) (r : request) : outcome :=
  match r with
  | GoTo request_data => GoToLineNumInOpenFile_execute self request_data
  | CreateFile request_data => CreateFileCmd_execute self request_data
  | Open request_data => OpenFile_execute self request_data
  end.
End Actions.

Arguments mkActionState {Workspace}.
Arguments workspace {Workspace}.
Arguments workspace_id {Workspace}.
Arguments command {Workspace}.
Arguments self_return_code {Workspace}.
Arguments mkOutcome {Workspace}.
Arguments returned {Workspace}.
Arguments self_after {Workspace}.
Arguments issued {Workspace}.
Arguments _setup {Workspace}.
Arguments CreateFileCmd_execute {Workspace}.
Arguments GoToLineNumInOpenFile_execute {Workspace}.
Arguments OpenFile_execute {Workspace}.
Arguments BaseAction_init {Workspace}.
Arguments set_workspace {Workspace}.
Arguments execute {Workspace}.

(** The command a request makes its action send, when it sends one. *)
Definition command_of (r : request) : option string :=
  match r with
  | GoTo request_data =>
      Some ("goto " +:+ str_int (goto_line_number request_data))
  | CreateFile request_data =>
      if validate_file_name (file_name request_data)
      then Some ("create " +:+ str_file_name (file_name request_data))
      else None
  | Open request_data => Some (open_command request_data)
  end.

(** A file name that is [None], empty, or made of white space only. *)
Definition blank (file_name : option string) : bool :=
  match file_name with
  | None => true
  | Some name => forallb isspace (chars name)
  end.

(** *** A sample workspace

    Its state is the list of the commands it received; every command
    succeeds with an empty output. *)
Definition logging_communicate (ws : list string) (cmd : string)
  : result BaseCmdResponse * list string :=
  (Ok (mkCmdResponse (VStr "") 0), ws ++ [cmd]).

Definition plain_output (output : pyval) (return_code : Z)
  : result (pyval * Z) :=
  Ok (output, return_code).

Definition attached_action : action_state (list string) :=
  mkActionState (Some ([] : list string)) "" "" None.

Definition detached_action : action_state (list string) :=
  mkActionState (None : option (list string)) "" "" None.

Definition tab : string := String (ascii_of_nat 9) "".

(** A factory that holds one workspace, registered under the empty id. *)
Definition default_factory (workspace_id : string)
  : result (option (list string)) :=
  Ok (if String.eqb workspace_id "" then Some ["cd /"] else None).

End Cmds.

(** ** The E2B workspace: [e2b_workspace.py] *)

Module E2B.
Import Cmds.

(** The attributes that [__init__] sets; a sandbox object, if there is
    one, by reference. *)
Record E2BWorkspace := mkE2BWorkspace {
  sandbox_id : option string;
  sandbox : option nat
}.

(** [E2BWorkspace.__init__]; neither [args] nor [client] is read. *)
Definition E2BWorkspace_init : E2BWorkspace := mkE2BWorkspace None None.

Section Sandbox.
(** What running the command-line client gives: for [communicate], the
    response made of the result of [e2b-sandbox-cli exec]; for
    [get_state], the standard output of [e2b-sandbox-cli state]. *)
Variable exec_in_sandbox : option string -> string -> result BaseCmdResponse.
Variable state_of_sandbox : option string -> result string.

Definition setup (self : E2BWorkspace) : E2BWorkspace := self.
Definition reset (self : E2BWorkspace) : E2BWorkspace := self.
Definition close (self : E2BWorkspace) : E2BWorkspace := self.

Definition communicate (self : E2BWorkspace) (cmd : string)
  : result BaseCmdResponse :=
  match sandbox self with
  | None => Raise (ValueError "Sandbox is None")
  | Some _ => exec_in_sandbox (sandbox_id self) cmd
  end.

Definition get_state (self : E2BWorkspace) : result (list (string * pyval)) :=
  state <- state_of_sandbox (sandbox_id self) ;;
  Ok [("sandbox_id",
       match sandbox_id self with Some id => VStr id | None => VNone end);
      ("state", VStr state)].

(** A call of one of the methods, and what it returns or raises. *)
Inductive call :=
| Setup
| Reset
| Communicate (cmd : string)
| GetState
| Close.

Inductive answer :=
| Done
| Response (r : result BaseCmdResponse)
| State (r : result (list (string * pyval))).

Definition perform (self : E2BWorkspace) (c : call)
  : answer * E2BWorkspace :=
  match c with
  | Setup => (Done, setup self)
  | Reset => (Done, reset self)
  | Communicate cmd => (Response (communicate self cmd), self)
  | GetState => (State (get_state self), self)
  | Close => (Done, close self)
  end.

(** A sequence of calls on one workspace, with the answers in order. *)
Fixpoint run (self : E2BWorkspace) (calls : list call)
  : list answer * E2BWorkspace :=
  match calls with
  | [] => ([], self)
  | c :: rest =>
      let '(a, self) := perform self c in
      let '(answers, self) := run self rest in
      (a :: answers, self)
  end.

(** [communicate] as the actions of [cmds.py] call it on a workspace. *)
Definition workspace_communicate (self : E2BWorkspace) (cmd : string)
  : result BaseCmdResponse * E2BWorkspace :=
  (communicate self cmd, self).
End Sandbox.

(** A command-line client that always succeeds. *)
Definition obliging_exec (id : option string) (cmd : string)
  : result BaseCmdResponse :=
  Ok (mkCmdResponse (VStr "") 0).

Definition obliging_state (id : option string) : result string := Ok "running".

End E2B.

(** ** The Slack agent: [slack_agent_autogen.py] *)

Module SlackAgent.

(** [type(v).__name__] *)
Definition type_name (v : pyval) : string :=
  match v with
  | VNone => "NoneType"
  | VEllipsis => "ellipsis"
  | VBool _ => "bool"
  | VInt _ => "int"
  | VFloat _ => "float"
  | VStr _ => "str"
  | VList _ => "list"
  | VDict _ => "dict"
  | VShell _ => "Shell"
  | VWorkspace _ => "Workspace"
  | VInstance cls _ => cls
  end.

(** [v.get(key, default)]: only a dictionary has the method. *)
Definition get_method (v : pyval) (key : string) (dflt : pyval)
  : result pyval :=
  match v with
  | VDict d => Ok (get_default d key dflt)
  | _ =>
      Raise (AttributeError
               ("'" +:+ type_name v +:+ "' object has no attribute 'get'"))
  end.

(** [v == s] for a string [s]. *)
Definition eq_str (v : pyval) (s : string) : bool :=
  match v with
  | VStr s' => String.eqb s' s
  | _ => false
  end.

(** [s in v] for a string [s]: a substring of a string, an element of a
    list, a key of a dictionary; other values are not iterable. *)
Definition is_in (s : string) (v : pyval) : result bool :=
  match v with
  | VStr text => Ok (contains s text)
  | VList l => Ok (existsb (fun x => eq_str x s) l)
  | VDict d => Ok (mem s (keys d))
  | _ =>
      Raise (TypeError
               ("argument of type '" +:+ type_name v +:+ "' is not iterable"))
  end.

(** What a call of the callback leaves behind: what it returned or
    raised, the messages it started a chat with, and the parameters of
    the messages it posted. *)
Record outcome := mkOutcome {
  returned : result unit;
  chats : list pyval;
  posts : list (list (string * pyval))
}.

Section Callback.
(** [os.environ['SLACK_BOT_ID']] *)
Variable BOT_USER_ID : string.
(** [user_proxy.initiate_chat(chatbot, message=task).summary] *)
Variable initiate_chat : pyval -> result pyval.
(** [composio_toolset.execute_action(action=SLACKBOT_CHAT_POST_MESSAGE,
    params=...)] *)
Variable execute_action : list (string * pyval) -> result unit.

Definition RESPOND_ONLY_IF_TAGGED : bool := true.

(** The callback up to its first effect: the message to answer with the
    channel and the thread to answer in, or [None] where it returns
    early.  The calls of [print] are not modelled. *)
Definition message_to_answer (payload : list (string * pyval))
  : result (option (pyval * pyval * pyval)) :=
  let event := get_default payload "event" (VDict []) in
  user_id <- get_method event "user" (VStr "") ;;
  if eq_str user_id BOT_USER_ID then Ok None
  else
    message <- get_method event "text" (VStr "") ;;
    ignored <-
      (if RESPOND_ONLY_IF_TAGGED then
         tagged <- is_in ("<@" +:+ BOT_USER_ID +:+ ">") message ;;
         Ok (negb tagged)
       else Ok false) ;;
    if (ignored : bool) then Ok None
    else
      channel_id <- get_method event "channel" (VStr "") ;;
      ts <- get_method event "ts" (VStr "") ;;
      thread_ts <- get_method event "thread_ts" ts ;;
      Ok (Some (message, channel_id, thread_ts)).

Definition callback_new_message (payload : list (string * pyval))
  : outcome :=
  match message_to_answer payload with
  | Raise e => mkOutcome (Raise e) [] []
  | Ok None => mkOutcome (Ok tt) [] []
  | Ok (Some (message, channel_id, thread_ts)) =>
      match initiate_chat message with
      | Raise e => mkOutcome (Raise e) [message] []
      | Ok summary =>
          let params := [("channel", channel_id); ("text", summary);
                         ("thread_ts", thread_ts)] in
          mkOutcome (execute_action params) [message] [params]
      end
  end.
End Callback.

(** *** A sample event *)

Definition echo_chat (message : pyval) : result pyval := Ok message.
Definition accept_post (params : list (string * pyval)) : result unit := Ok tt.

Definition mention (user text : string) : list (string * pyval) :=
  [("event", VDict [("user", VStr user); ("text", VStr text);
                    ("channel", VStr "C42"); ("ts", VStr "1700000000.1")])].

End SlackAgent.

(** * Properties of the Python prelude *)

Module PyProofs.

(** *** Dictionaries and membership *)

Lemma mem_In (k : string) (l : list string) : mem k l = true <-> In k l.
Proof.
  unfold mem. rewrite existsb_exists. split.
  - intros [x [Hin Heq]]. apply String.eqb_eq in Heq. now subst.
  - intros Hin. exists k. split; [exact Hin | apply String.eqb_refl].
Qed.

Lemma mem_false_In (k : string) (l : list string) :
  mem k l = false <-> ~ In k l.
Proof.
  rewrite <- mem_In. destruct (mem k l); split; intros; congruence.
Qed.

Lemma dict_set_fresh {V} (d : list (string * V)) (k : string) (v : V) :
  dict_get d k = None -> dict_set d k v = d ++ [(k, v)].
Proof.
  induction d as [|[k' v'] d IH]; simpl; [reflexivity|].
  destruct (String.eqb k' k); [discriminate|].
  intros H. now rewrite IH.
Qed.

Lemma dict_get_app_fresh {V} (d : list (string * V)) (k k' : string) (v : V) :
  dict_get d k' = None -> k <> k' -> dict_get (d ++ [(k, v)]) k' = None.
Proof.
  induction d as [|[k0 v0] d IH]; simpl; intros Hd Hne.
  - destruct (String.eqb k k') eqn:E; [|reflexivity].
    apply String.eqb_eq in E. contradiction.
  - destruct (String.eqb k0 k'); [discriminate|]. now apply IH.
Qed.

Lemma keys_dict_set {V} (d : list (string * V)) (k : string) (v : V) (a : string) :
  In a (keys (dict_set d k v)) <-> a = k \/ In a (keys d).
Proof.
  unfold keys. induction d as [|[k' v'] d IH]; simpl.
  - intuition.
  - destruct (String.eqb k' k) eqn:E; simpl.
    + apply String.eqb_eq in E. subst. intuition.
    + rewrite IH. intuition.
Qed.

Lemma dict_get_set_eq {V} (d : list (string * V)) (k : string) (v : V) :
  dict_get (dict_set d k v) k = Some v.
Proof.
  induction d as [|[k' v'] d IH]; simpl.
  - now rewrite String.eqb_refl.
  - destruct (String.eqb k' k) eqn:E; simpl; now rewrite E.
Qed.

Lemma dict_get_set_ne {V} (d : list (string * V)) (k a : string) (v : V) :
  a <> k -> dict_get (dict_set d k v) a = dict_get d a.
Proof.
  intros Hne. induction d as [|[k' v'] d IH]; simpl.
  - destruct (String.eqb k a) eqn:E; [|reflexivity].
    apply String.eqb_eq in E. congruence.
  - destruct (String.eqb k' k) eqn:E; simpl.
    + apply String.eqb_eq in E. subst k'.
      destruct (String.eqb k a) eqn:E'; [|reflexivity].
      apply String.eqb_eq in E'. congruence.
    + now rewrite IH.
Qed.

Lemma getitem_Some {V} (d : list (string * V)) (k : string) (v : V) :
  dict_get d k = Some v -> getitem d k = Ok v.
Proof. unfold getitem. now intros ->. Qed.

(** *** Strings *)

Lemma string_length_append (s1 s2 : string) :
  String.length (s1 +:+ s2) = String.length s1 + String.length s2.
Proof.
  induction s1 as [|c s1 IH]; simpl; [reflexivity | f_equal; exact IH].
Qed.

Lemma chars_append (s1 s2 : string) :
  chars (s1 +:+ s2) = chars s1 ++ chars s2.
Proof.
  unfold chars. induction s1 as [|c s1 IH]; simpl; [reflexivity|].
  now rewrite IH.
Qed.

Lemma is_prefix_app (p l : list ascii) : is_prefix p (p ++ l) = true.
Proof.
  induction p as [|c p IH]; simpl; [reflexivity|].
  unfold ascii_eqb. now rewrite Ascii.eqb_refl.
Qed.

Lemma contains_chars_middle (p l1 l2 : list ascii) :
  contains_chars p (l1 ++ p ++ l2) = true.
Proof.
  induction l1 as [|c l1 IH].
  - destruct p; simpl; [now destruct l2|].
    unfold ascii_eqb. now rewrite Ascii.eqb_refl, is_prefix_app.
  - cbn [app contains_chars]. rewrite IH. apply orb_true_r.
Qed.

Lemma lstrip_chars_blank (l : list ascii) :
  forallb isspace l = true -> lstrip_chars l = [].
Proof.
  induction l as [|c l IH]; cbn [forallb lstrip_chars]; [reflexivity|].
  intros H. apply andb_true_iff in H. destruct H as [-> H]. now apply IH.
Qed.

Lemma strip_blank (s : string) :
  forallb isspace (chars s) = true -> strip s = "".
Proof.
  intros H. unfold strip, lstrip. rewrite (lstrip_chars_blank _ H).
  reflexivity.
Qed.

Lemma chars_str (l : list ascii) : chars (str l) = l.
Proof. apply list_ascii_of_string_of_list_ascii. Qed.

(** [s.replace(" ", "")] leaves no space. *)
Lemma remove_space_chars (l : list ascii) :
  remove_chars [" "%char] 0 l
  = List.filter (fun c => negb (ascii_eqb " "%char c)) l.
Proof.
  induction l as [|c l IH]; [reflexivity|].
  cbn [remove_chars is_prefix List.filter length Nat.sub andb].
  destruct (ascii_eqb " "%char c); cbn [negb andb]; now rewrite IH.
Qed.

Lemma contains_space_filter (l : list ascii) :
  contains_chars [" "%char]
    (List.filter (fun c => negb (ascii_eqb " "%char c)) l) = false.
Proof.
  induction l as [|c l IH]; [reflexivity|].
  cbn [List.filter]. destruct (ascii_eqb " "%char c) eqn:E; cbn [negb];
    [exact IH|].
  cbn [contains_chars is_prefix]. rewrite E, IH. reflexivity.
Qed.

Lemma remove_space_contains (s : string) :
  contains " " (remove " " s) = false.
Proof.
  unfold contains, remove. rewrite chars_str.
  change (chars " ") with [" "%char].
  rewrite remove_space_chars. apply contains_space_filter.
Qed.

Lemma str_chars (s : string) : str (chars s) = s.
Proof. apply string_of_list_ascii_of_string. Qed.

(** *** Removing and splitting *)

Lemma remove_chars_skip (old l1 l2 : list ascii) :
  remove_chars old (length l1) (l1 ++ l2) = remove_chars old 0 l2.
Proof.
  induction l1 as [|c l1 IH]; cbn [length app remove_chars];
    [reflexivity | exact IH].
Qed.

Lemma remove_chars_prefix (c : ascii) (old rest : list ascii) :
  remove_chars (c :: old) 0 ((c :: old) ++ rest)
  = remove_chars (c :: old) 0 rest.
Proof.
  cbn [app remove_chars].
  change (is_prefix (c :: old) (c :: old ++ rest))
    with (is_prefix (c :: old) ((c :: old) ++ rest)).
  rewrite is_prefix_app.
  replace (length (c :: old) - 1) with (length old) by (cbn [length]; lia).
  apply remove_chars_skip.
Qed.

Lemma remove_chars_absent (old l : list ascii) :
  contains_chars old l = false -> remove_chars old 0 l = l.
Proof.
  induction l as [|c l IH]; cbn [contains_chars remove_chars];
    [reflexivity|].
  intros H. apply orb_false_iff in H. destruct H as [-> H].
  now rewrite (IH H).
Qed.

Lemma split_chars_free (sep : ascii) (l : list ascii) :
  List.filter (fun x => ascii_eqb x sep) l = [] ->
  forall cur, split_chars sep cur l = [rev cur ++ l].
Proof.
  induction l as [|c l IH]; cbn [List.filter split_chars]; intros H cur.
  - now rewrite app_nil_r.
  - destruct (ascii_eqb c sep); [discriminate|].
    rewrite (IH H). cbn [rev]. now rewrite <- app_assoc.
Qed.

Lemma split_chars_at (sep : ascii) (a b : list ascii) :
  List.filter (fun x => ascii_eqb x sep) a = [] ->
  forall cur,
    split_chars sep cur (a ++ sep :: b)
    = (rev cur ++ a) :: split_chars sep [] b.
Proof.
  induction a as [|c a IH]; cbn [List.filter app split_chars]; intros H cur.
  - unfold ascii_eqb at 1. rewrite Ascii.eqb_refl. now rewrite app_nil_r.
  - destruct (ascii_eqb c sep); [discriminate|].
    rewrite (IH H). cbn [rev]. now rewrite <- app_assoc.
Qed.

(** A text that contains [c :: p] contains the character [c]. *)
Lemma contains_chars_head (c : ascii) (p l : list ascii) :
  List.filter (fun x => ascii_eqb x c) l = [] ->
  contains_chars (c :: p) l = false.
Proof.
  induction l as [|x l IH]; cbn [List.filter contains_chars is_prefix];
    [reflexivity|].
  assert (ascii_eqb c x = ascii_eqb x c) as -> by apply Ascii.eqb_sym.
  destruct (ascii_eqb x c); [discriminate|]. cbn [andb orb]. exact IH.
Qed.

(** *** Blank strings *)

Lemma lstrip_chars_nil (l : list ascii) :
  lstrip_chars l = [] -> forallb isspace l = true.
Proof.
  induction l as [|c l IH]; cbn [lstrip_chars forallb]; [reflexivity|].
  destruct (isspace c); [exact IH | discriminate].
Qed.

Lemma lstrip_chars_head (l : list ascii) (c : ascii) (rest : list ascii) :
  lstrip_chars l = c :: rest -> isspace c = false.
Proof.
  induction l as [|x l IH]; cbn [lstrip_chars]; [discriminate|].
  destruct (isspace x) eqn:E; [exact IH|].
  now intros [= <- _].
Qed.

Lemma forallb_rev {A} (f : A -> bool) (l : list A) :
  forallb f (rev l) = forallb f l.
Proof.
  induction l as [|x l IH]; [reflexivity|].
  cbn [rev forallb]. rewrite forallb_app, IH. cbn [forallb].
  rewrite andb_true_r. apply andb_comm.
Qed.

(** [s.strip() == ""] exactly when [s] holds white space only. *)
Lemma strip_empty (s : string) :
  String.eqb (strip s) "" = forallb isspace (chars s).
Proof.
  destruct (forallb isspace (chars s)) eqn:Hs.
  - now rewrite (strip_blank _ Hs).
  - apply String.eqb_neq. intros Hstrip.
    apply (f_equal chars) in Hstrip. unfold strip, rstrip, lstrip in Hstrip.
    rewrite !chars_str in Hstrip. change (chars "") with (@nil ascii) in Hstrip.
    apply (f_equal (@rev ascii)) in Hstrip. rewrite rev_involutive in Hstrip.
    cbn [rev] in Hstrip. apply lstrip_chars_nil in Hstrip.
    rewrite forallb_rev in Hstrip.
    destruct (lstrip_chars (chars s)) as [|c rest] eqn:Hl.
    + apply lstrip_chars_nil in Hl. congruence.
    + apply lstrip_chars_head in Hl. cbn [forallb] in Hstrip.
      rewrite Hl in Hstrip. discriminate.
Qed.

End PyProofs.

Import PyProofs.

(** * Properties of the schema synthesizer *)

Module AutogenProofs.
Import Autogen.

(** Induction over a schema tree: the property holds of a node as soon as
    it holds of every property below it. *)
Section SchemaInduction.
Variable P : schema -> Prop.
Hypothesis step : forall s,
  (forall items, s_properties s = Some items ->
     Forall (fun np => P (snd np)) items) -> P s.

Lemma schema_induction : forall s, P s.
Proof.
  fix IH 1. intros s. apply step.
  destruct s as [t ty props req d de ds]; simpl.
  intros items Heq. destruct props as [ps|]; [|discriminate].
  injection Heq as <-.
  induction ps as [|[n p] ps IHps]; constructor; [apply IH | exact IHps].
Qed.
End SchemaInduction.

Example goto_model :
  pydantic_model_from_param_schema goto_schema
  = Ok (PyModel "Goto"
          [("line_number",
            (PyFloat, Field Required "LineNumber" (Some "target line")))]).
Proof. reflexivity. Qed.

Example issue_model :
  pydantic_model_from_param_schema issue_schema
  = Ok (PyModel "CreateIssue"
          [("title", (PyStr, Field Required "Title" (Some "Title")));
           ("draft", (PyBool, Field (Default (JBool true)) "Draft" None));
           ("labels", (PyList, Field (Default (JArr [])) "Labels" None));
           ("owner",
            (PyModel "OwnerInfo"
               [("login", (PyStr, Field (Default (JStr "")) "Login" None))],
             Field (Default (JObj [])) "OwnerInfo" None))]).
Proof. reflexivity. Qed.

Example page_model :
  pydantic_model_from_param_schema page_schema = Raise (KeyError "integer").
Proof. reflexivity. Qed.

(** *** [create_model] *)

#[local] Arguments create_model : simpl never.

Lemma create_model_ok (name : string)
  (fields : list (string * (pytype * field_info))) :
  (forall k, In k (keys fields) -> private_name k = false) ->
  create_model name fields = Ok (PyModel name fields).
Proof.
  intros H. unfold create_model.
  destruct (List.find private_name (keys fields)) as [bad|] eqn:Hf;
    [|reflexivity].
  apply find_some in Hf. destruct Hf as [Hin Hp].
  rewrite (H bad Hin) in Hp. discriminate.
Qed.

Lemma create_model_inv (name : string)
  (fields : list (string * (pytype * field_info))) (m : pytype) :
  create_model name fields = Ok m ->
  m = PyModel name fields
  /\ (forall k, In k (keys fields) -> private_name k = false).
Proof.
  unfold create_model.
  destruct (List.find private_name (keys fields)) as [bad|] eqn:Hf;
    [discriminate|].
  intros [= <-]. split; [reflexivity|]. intros k Hk.
  pose proof (find_none _ _ Hf k Hk) as Hn. exact Hn.
Qed.

Lemma accepted_properties_names (A : schema -> bool)
  (items : list (string * schema)) :
  accepted_properties A items = true ->
  forall k, In k (map fst items) -> private_name k = false.
Proof.
  induction items as [|[n info] items IH]; cbn [accepted_properties map fst];
    intros Ha k; [intros []|].
  apply andb_true_iff in Ha. destruct Ha as [Ha Har].
  apply andb_true_iff in Ha. destruct Ha as [Hn _].
  apply negb_true_iff in Hn.
  intros [<- | Hk]; [exact Hn | now apply IH].
Qed.




(** The keys of the dictionary that the loop fills are the keys it starts
    with and the property names. *)
Lemma synth_fields_keys (synth : schema -> result pytype)
  (required : list string) (items : list (string * schema)) :
  forall acc res,
    synth_fields synth required items acc = Ok res ->
    forall k, In k (keys res) <-> In k (keys acc) \/ In k (map fst items).
Proof.
  induction items as [|[n info] items IH]; cbn [synth_fields map fst];
    intros acc res.
  - intros [= <-] k. cbn [In]. tauto.
  - destruct (synth_field synth required n info) as [field|e]; cbn [bind];
      [|discriminate].
    intros Hs k. rewrite (IH _ _ Hs k), keys_dict_set. cbn [In].
    intuition congruence.
Qed.

(** *** Synthesis of a well-formed tree *)

Lemma primitive_cases (ty : string) :
  mem ty primitive_types = true ->
  ty = "string" \/ ty = "number" \/ ty = "boolean" \/ ty = "array".
Proof.
  intros H. apply mem_In in H. simpl in H. intuition.
Qed.








(** *** Unsupported leaf types *)

Lemma unsupported_no_fallback (ty : string) :
  mem ty primitive_types = false -> String.eqb ty "object" = false ->
  dict_get fallback_values ty = None
  /\ dict_get schema_type_python_type_dict ty = None.
Proof.
  unfold mem, primitive_types, fallback_values, schema_type_python_type_dict.
  cbn [existsb dict_get]. intros Hp Ho.
  repeat (apply orb_false_iff in Hp; destruct Hp as [? Hp]).
  rewrite !(String.eqb_sym _ ty).
  repeat match goal with
  | H : String.eqb ty _ = false |- _ => rewrite H; clear H
  end.
  split; reflexivity.
Qed.

Lemma primitive_lookup (ty : string) :
  mem ty primitive_types = true ->
  exists v p, dict_get fallback_values ty = Some v
              /\ dict_get schema_type_python_type_dict ty = Some p.
Proof.
  intros H. apply primitive_cases in H.
  destruct H as [-> | [-> | [-> | ->]]]; eexists _, _; split; reflexivity.
Qed.

Lemma object_lookup :
  dict_get fallback_values "object" = Some (JObj [])
  /\ dict_get schema_type_python_type_dict "object" = None.
Proof. split; reflexivity. Qed.

Ltac case_type ty :=
  let Hp := fresh "Hprim" in
  let Ho := fresh "Hobj" in
  destruct (mem ty primitive_types) eqn:Hp;
  [ destruct (primitive_lookup ty Hp) as (? & ? & ? & ?)
  | destruct (String.eqb ty "object") eqn:Ho;
    [ apply String.eqb_eq in Ho; subst ty;
      destruct object_lookup
    | destruct (unsupported_no_fallback ty Hp Ho) ] ].





Lemma synth_fields_keyed (required : list string)
  (items : list (string * schema)) :
  Forall (fun np => keyed_outcome (snd np)) items ->
  keyed_properties keyed items = true ->
  accepted_properties accepted items = true ->
  forall acc,
    (first_unsupported_in first_unsupported items = None ->
     is_ok (synth_fields pydantic_model_from_param_schema required items acc)
     = true)
    /\ (forall bad,
        first_unsupported_in first_unsupported items = Some bad ->
        synth_fields pydantic_model_from_param_schema required items acc
        = Raise (KeyError bad)).
Proof.
  induction 1 as [|[name info] items Hhd Htl IH];
    cbn [synth_fields first_unsupported_in keyed_properties
         accepted_properties];
    intros Hk Ha acc; [split; [reflexivity | discriminate]|].
  unfold synth_field, subscript, getitem.
  destruct (s_title info) as [t|]; [|discriminate].
  destruct (s_type info) as [ty|]; [|discriminate].
  apply andb_true_iff in Hk. destruct Hk as [Hki Hkr].
  apply andb_true_iff in Ha. destruct Ha as [Ha Har].
  apply andb_true_iff in Ha. destruct Ha as [_ Hai].
  cbn [bind]. case_type ty;
    repeat match goal with H : dict_get _ _ = _ |- _ => rewrite H; clear H end;
    cbn [bind].
  - destruct (mem name required); cbn [bind]; now apply IH.
  - cbn [snd] in Hhd.
    destruct (Hhd Hki Hai) as [Hnone Hsome].
    destruct (first_unsupported info) as [b|].
    + rewrite (Hsome b eq_refl). cbn [bind].
      split; [discriminate | now intros bad [= ->]].
    + specialize (Hnone eq_refl).
      destruct (pydantic_model_from_param_schema info); [|discriminate].
      cbn [bind]. destruct (mem name required); cbn [bind]; now apply IH.
  - split; [discriminate | now intros bad [= ->]].
Qed.

Lemma keyed_synthesis (s : schema) : keyed_outcome s.
Proof.
  induction s as [s IH] using schema_induction. unfold keyed_outcome.
  destruct s as [t ty props req d de ds]; simpl in *.
  destruct t as [t|]; [|discriminate].
  destruct props as [items|]; [|discriminate].
  intros Hk Ha.
  destruct (synth_fields_keyed (get req []) items (IH items eq_refl) Hk Ha [])
    as [Hnone Hsome].
  cbn [bind subscript]. split.
  - intros Hn. specialize (Hnone Hn).
    destruct (synth_fields _ _ items []) as [res|e] eqn:Hs; [|discriminate].
    cbn [bind]. rewrite create_model_ok; [reflexivity|].
    intros k Hk'. apply (synth_fields_keys _ _ _ _ _ Hs) in Hk'.
    destruct Hk' as [[]|Hk'].
    now apply (accepted_properties_names accepted items).
  - intros bad Hb. now rewrite (Hsome bad Hb).
Qed.





(** *** Further properties of synthesis *)

(** Success of the loop gives the keys the code subscripts and rules out
    unsupported types. *)
Lemma synth_fields_ok_keyed (required : list string)
  (items : list (string * schema)) :
  Forall (fun np =>
    is_ok (pydantic_model_from_param_schema (snd np)) = true ->
    keyed (snd np) = true /\ first_unsupported (snd np) = None
    /\ accepted (snd np) = true) items ->
  (forall k, In k (map fst items) -> private_name k = false) ->
  forall acc,
    is_ok (synth_fields pydantic_model_from_param_schema required items acc)
    = true ->
    keyed_properties keyed items = true
    /\ first_unsupported_in first_unsupported items = None
    /\ accepted_properties accepted items = true.
Proof.
  induction 1 as [|[name info] items Hhd Htl IH];
    cbn [synth_fields keyed_properties first_unsupported_in
         accepted_properties map fst];
    intros Hnames acc; [now repeat split|].
  rewrite (Hnames name (or_introl eq_refl)). cbn [negb andb].
  assert (Hrest : forall k, In k (map fst items) -> private_name k = false)
    by (intros k Hk; apply Hnames; now right).
  unfold synth_field, subscript, getitem.
  destruct (s_type info) as [ty|]; cbn [bind is_ok]; [|discriminate].
  destruct (s_title info) as [t|]; cbn [bind is_ok]; [|discriminate].
  case_type ty;
    repeat match goal with H : dict_get _ _ = _ |- _ => rewrite H; clear H end;
    cbn [bind is_ok].
  - assert (String.eqb ty "object" = false) as ->
      by (apply primitive_cases in Hprim;
          destruct Hprim as [-> | [-> | [-> | ->]]]; reflexivity).
    destruct (mem name required); cbn [bind]; intros Hok;
      destruct (IH Hrest _ Hok) as (-> & -> & ->); now repeat split.
  - cbn [snd] in Hhd.
    destruct (pydantic_model_from_param_schema info) as [m|e];
      cbn [bind is_ok]; [|discriminate].
    destruct (Hhd eq_refl) as (-> & -> & ->).
    destruct (mem name required); cbn [bind]; intros Hok;
      destruct (IH Hrest _ Hok) as (-> & -> & ->); now repeat split.
  - discriminate.
Qed.

Lemma synthesis_ok_keyed (s : schema) :
  is_ok (pydantic_model_from_param_schema s) = true ->
  keyed s = true /\ first_unsupported s = None /\ accepted s = true.
Proof.
  induction s as [s IH] using schema_induction.
  destruct s as [t ty props req d de ds];
    cbn [pydantic_model_from_param_schema keyed first_unsupported accepted
         s_title s_properties s_required] in *.
  destruct t as [t|]; cbn [bind is_ok subscript]; [|discriminate].
  destruct props as [items|]; [|discriminate].
  destruct (synth_fields _ _ items []) as [res|e] eqn:Hs;
    cbn [bind is_ok]; [|discriminate].
  destruct (create_model (remove " " t) res) as [m|e] eqn:Hc;
    cbn [is_ok]; [|discriminate].
  intros _. apply create_model_inv in Hc. destruct Hc as [_ Hpub].
  apply (synth_fields_ok_keyed (get req []) items (IH items eq_refl)) with (acc := []).
  - intros k Hk. apply Hpub, (synth_fields_keys _ _ _ _ _ Hs). now right.
  - now rewrite Hs.
Qed.

(** X1. With [create_model] taken to refuse a field name exactly when it
    starts with an underscore, [pydantic_model_from_param_schema] returns
    a model exactly on the schemas in which every node it visits carries
    the keys it subscripts ([title]; [type] for a property; [properties]
    for an object), no property has a type other than string, number,
    boolean, array or object, and no property of a visited node has a name
    that starts with an underscore.  On every other schema it raises. *)
Theorem X1_synthesis_succeeds_iff_keyed_and_supported (s : schema) :
  is_ok (pydantic_model_from_param_schema s) = true
  <-> keyed s = true /\ first_unsupported s = None /\ accepted s = true.
Proof.
  split; [apply synthesis_ok_keyed|].
  intros (Hk & Hn & Ha). now apply (keyed_synthesis s Hk Ha).
Qed.

(** What a synthesized field holds, read back from the property. *)
Lemma synth_field_inv (synth : schema -> result pytype)
  (required : list string) (name : string) (info : schema)
  (ty : pytype) (f : field_info) :
  synth_field synth required name info = Ok (ty, f) ->
  field_title f = remove " " (get (s_title info) "")
  /\ field_description f
     = (if mem name required then Some (described info) else None)
  /\ (is_required f = mem name required).
Proof.
  unfold synth_field, subscript, getitem, described.
  destruct (s_type info) as [pty|]; cbn [bind]; [|discriminate].
  destruct (s_title info) as [t|]; cbn [bind get]; [|discriminate].
  destruct (dict_get fallback_values pty); cbn [bind]; [|discriminate].
  destruct (match dict_get schema_type_python_type_dict pty with
            | Some ty0 => Ok ty0
            | None => synth info
            end); cbn [bind]; [|discriminate].
  destruct (mem name required); intros [= <- <-]; repeat split.
Qed.





Lemma synth_fields_titles (synth : schema -> result pytype)
  (required : list string) (items : list (string * schema)) :
  forall acc res,
    Forall (fun fld => contains " " (field_title (snd (snd fld))) = false)
      acc ->
    synth_fields synth required items acc = Ok res ->
    Forall (fun fld => contains " " (field_title (snd (snd fld))) = false)
      res.
Proof.
  induction items as [|[n info] items IH]; cbn [synth_fields];
    intros acc res Hacc.
  - now intros [= <-].
  - destruct (synth_field synth required n info) as [[fty f]|e] eqn:Hf;
      cbn [bind]; [|discriminate].
    apply IH. destruct (synth_field_inv _ _ _ _ _ _ Hf) as (Ht & _).
    clear -Hacc Ht. induction Hacc as [|[k v] acc Hk Hacc IHacc];
      cbn [dict_set].
    + constructor; [|constructor]. cbn [snd]. rewrite Ht.
      apply remove_space_contains.
    + destruct (String.eqb k n); constructor; try assumption.
      cbn [snd]. rewrite Ht. apply remove_space_contains.
Qed.

(** X3. The name of a synthesized model and the title of each of its
    fields contain no space character. *)
Theorem X3_names_have_no_space (s : schema) (name : string)
  (fields : list (string * (pytype * field_info))) :
  pydantic_model_from_param_schema s = Ok (PyModel name fields) ->
  contains " " name = false
  /\ Forall (fun fld => contains " " (field_title (snd (snd fld))) = false)
       fields.
Proof.
  destruct s as [t ty props req d de ds];
    cbn [pydantic_model_from_param_schema s_title s_properties s_required].
  destruct t as [t|]; cbn [bind subscript]; [|discriminate].
  destruct props as [items|]; [|discriminate].
  destruct (synth_fields _ _ items []) as [res|e] eqn:Hs; cbn [bind];
    [|discriminate].
  intros Hc. apply create_model_inv in Hc. destruct Hc as [[= -> ->] _].
  split; [apply remove_space_contains|].
  apply (synth_fields_titles pydantic_model_from_param_schema (get req [])
           items [] res); [constructor | exact Hs].
Qed.

Lemma X3_witness :
  exists fields,
    pydantic_model_from_param_schema issue_schema
    = Ok (PyModel "CreateIssue" fields)
    /\ contains " " "CreateIssue" = false.
Proof.
  destruct (pydantic_model_from_param_schema issue_schema)
    as [[| | | |name fields]|e] eqn:Hs; try discriminate.
  destruct (X3_names_have_no_space issue_schema name fields Hs) as [Hn _].
  injection Hs as <- <-. eexists. split; [reflexivity | exact Hn].
Defined.

(** *** The signature builder and the model builder agree *)





End AutogenProofs.

(** * Properties of the registration with autogen *)

Module ToolsetProofs.
Import Autogen AutogenProofs Toolset.

Example star_registers :
  action_function star_action (Some 1) (Some 2)
  = Ok (mkRegistered "github_star_repo" "github" "Star a repository."
          [("line_number",
            mkParameter "line_number" (PyFloat, "target line") Required)]
          (Some 1) (Some 2)).
Proof. reflexivity. Qed.

Example read_is_refused :
  action_function read_action (Some 1) (Some 2)
  = Raise (ValueError "non-default argument follows default argument").
Proof. reflexivity. Qed.

(** *** The order of required and optional parameters *)








(** *** The registration loop *)

Lemma register_schemas_all (caller executor : option nat)
  (schemas : list action_schema) (fs : list registered_function) :
  Forall2 (fun s f => action_function s caller executor = Ok f) schemas fs ->
  forall registered,
    register_schemas schemas caller executor registered
    = (Ok tt, registered ++ fs).
Proof.
  induction 1 as [|s f schemas fs Hf Hall IH]; intros registered;
    cbn [register_schemas].
  - now rewrite app_nil_r.
  - unfold _register_schema_to_autogen. rewrite Hf. cbn [bind].
    rewrite IH, <- app_assoc. reflexivity.
Qed.

Lemma register_schemas_stop (caller executor : option nat)
  (before after : list action_schema) (bad : action_schema)
  (fs : list registered_function) (e : exn) :
  Forall2 (fun s f => action_function s caller executor = Ok f) before fs ->
  action_function bad caller executor = Raise e ->
  forall registered,
    register_schemas (before ++ bad :: after) caller executor registered
    = (Raise e, registered ++ fs).
Proof.
  induction 1 as [|s f schemas fs Hf Hall IH]; intros Hbad registered;
    cbn [register_schemas app].
  - unfold _register_schema_to_autogen. rewrite Hbad. cbn [bind].
    now rewrite app_nil_r.
  - unfold _register_schema_to_autogen at 1. rewrite Hf. cbn [bind].
    rewrite (IH Hbad), <- app_assoc. reflexivity.
Qed.

(** X6. [register_tools] and [register_actions] are one procedure, run
    on the catalog's answer to a query by apps or by actions, with the
    agents they end up with (the argument when given, else the one of the
    constructor).  When either agent is missing it raises
    [AssertionError], for the caller first, whatever the catalog holds,
    and registers nothing; when every schema makes a function, all are
    passed to [register_function], in catalog order, after what was
    registered; and when one does not, its exception comes out while the
    functions of the schemas before it stay registered and the schemas
    after it are not tried. *)
Theorem X6_registration_stops_at_first_failure
  (get_list_of_actions : catalog_query -> result (list action_schema))
  (self : toolset) (query : catalog_query)
  (caller executor : option nat) (registered : list registered_function) :
  let chosen_caller := if_else caller (ts_caller self) in
  let chosen_executor := if_else executor (ts_executor self) in
  (forall tools,
     register_tools get_list_of_actions self tools caller executor registered
     = register_with get_list_of_actions self (ByApps (as_list tools))
         caller executor registered)
  /\ (forall actions,
        register_actions get_list_of_actions self actions caller executor
          registered
        = register_with get_list_of_actions self (ByActions (as_list actions))
            caller executor registered)
  /\ (chosen_caller = None ->
      exists msg,
        register_with get_list_of_actions self query caller executor
          registered
        = (Raise (AssertionError msg), registered)
        /\ contains "caller" msg = true)
  /\ (chosen_caller <> None -> chosen_executor = None ->
      exists msg,
        register_with get_list_of_actions self query caller executor
          registered
        = (Raise (AssertionError msg), registered)
        /\ contains "executor" msg = true)
  /\ (forall schemas fs,
        chosen_caller <> None -> chosen_executor <> None ->
        get_list_of_actions query = Ok schemas ->
        Forall2 (fun s f =>
                   action_function s chosen_caller chosen_executor = Ok f)
          schemas fs ->
        register_with get_list_of_actions self query caller executor
          registered
        = (Ok tt, registered ++ fs))
  /\ (forall before bad after fs e,
        chosen_caller <> None -> chosen_executor <> None ->
        get_list_of_actions query = Ok (before ++ bad :: after) ->
        Forall2 (fun s f =>
                   action_function s chosen_caller chosen_executor = Ok f)
          before fs ->
        action_function bad chosen_caller chosen_executor = Raise e ->
        register_with get_list_of_actions self query caller executor
          registered
        = (Raise e, registered ++ fs)).
Proof.
  intros chosen_caller chosen_executor.
  split; [reflexivity|]. split; [reflexivity|].
  unfold register_with.
  fold chosen_caller chosen_executor.
  split; [|split; [|split]].
  - intros ->. cbn [is_given negb]. eexists. split; reflexivity.
  - intros Hc ->. destruct chosen_caller; [|congruence].
    cbn [is_given negb]. eexists. split; reflexivity.
  - intros schemas fs Hc He Hq Hall.
    destruct chosen_caller; [|congruence].
    destruct chosen_executor; [|congruence].
    cbn [is_given negb]. rewrite Hq. now apply register_schemas_all.
  - intros before bad after fs e Hc He Hq Hall Hbad.
    destruct chosen_caller; [|congruence].
    destruct chosen_executor; [|congruence].
    cbn [is_given negb]. rewrite Hq. now apply register_schemas_stop.
Qed.

(** The catalog returns three actions, the second of which has an
    optional property before a required one. *)
Lemma X6_witness :
  exists star,
    action_function star_action (Some 1) (Some 2) = Ok star
    /\ register_tools github_catalog (mkToolset (Some 1) None) (One "github")
         None (Some 2) []
       = (Raise (ValueError "non-default argument follows default argument"),
          [star]).
Proof.
  eexists. split; [reflexivity|].
  destruct (X6_registration_stops_at_first_failure github_catalog
              (mkToolset (Some 1) None) (ByApps ["github"]) None (Some 2) [])
    as (Htools & _ & _ & _ & _ & Hstop).
  rewrite Htools.
  apply (Hstop [star_action] read_action [issue_action]);
    try discriminate; try reflexivity.
  constructor; [reflexivity | constructor].
Defined.

End ToolsetProofs.

(** * Properties of the signature compiler and of the registry *)

Module RuntimeProofs.
Import Runtime.

Example camelize_goto : inflection_camelize "goto" = "Goto".
Proof. reflexivity. Qed.

Example camelize_words : inflection_camelize "device_type" = "DeviceType".
Proof. reflexivity. Qed.

Example goto_docstring :
  _parse_docstring (f_doc goto)
  = Ok ("Move view.", [("line_number", "target line")],
        Some ("output", "command output")).
Proof. reflexivity. Qed.

(** The callable [goto] of the specification: the request model has the
    single required field [line_number], the response model the single
    field [output], and the action runs on a shell. *)
Example goto_compiles :
  _build_executable_from_args inflection_camelize goto
  = Ok (Execute goto (Some "shell") (Some ("output", "command output"))
          (Synthesized "GotoResponse"
             (mkNamespace [("output", Field VEllipsis "command output")]
                [("output", str_class)]))
          "Move view.",
        Synthesized "GotoRequest"
          (mkNamespace [("line_number", Field VEllipsis "target line")]
             [("line_number", int_class)]),
        Synthesized "GotoResponse"
          (mkNamespace [("output", Field VEllipsis "command output")]
             [("output", str_class)]),
        true).
Proof. reflexivity. Qed.

(** With every parameter positional and annotated, the defaults line up,
    with or without a return annotation. *)
Example listing_compiles :
  exists ep Resp,
    _build_executable_from_args inflection_camelize listing
    = Ok (ep,
          Synthesized "ListingRequest"
            (mkNamespace [("query", Field VEllipsis "Query");
                          ("limit", Field (VInt 10) "Limit")]
               [("query", str_class); ("limit", int_class)]),
          Resp, false).
Proof. eexists _, _. reflexivity. Qed.

(** C3, evaluated on [def paginate(page: int = 1, *, size: int) -> str]
    and on [def scale(width: int, factor=2) -> str].  The defaults are
    zipped from the end against the annotated names rather than against
    the positional parameters: [page], which declares the default [1],
    becomes a required field and [size], which declares none, becomes
    optional with the default [1]; likewise [width], which declares no
    default, becomes optional with the default of the unannotated
    [factor]. *)
Theorem C3_defaults_follow_annotation_order (camelize : string -> string) :
  (map (fun p => (p_name p, p_default p)) (f_parameters paginate)
   = [("page", Some (VInt 1)); ("size", None)]
   /\ exists ep Resp,
       _parse_schemas camelize paginate false
       = Ok (ep,
             Synthesized (camelize "paginate" +:+ "Request")
               (mkNamespace [("page", Field VEllipsis "Page");
                             ("size", Field (VInt 1) "Size")]
                  [("page", int_class); ("size", int_class)]),
             Resp, false))
  /\ (map (fun p => (p_name p, p_default p)) (f_parameters scale)
      = [("width", None); ("factor", Some (VInt 2))]
      /\ exists ep Resp,
          _parse_schemas camelize scale false
          = Ok (ep,
                Synthesized (camelize "scale" +:+ "Request")
                  (mkNamespace [("width", Field (VInt 2) "Width")]
                     [("width", int_class)]),
                Resp, false)).
Proof.
  repeat split; try reflexivity; eexists _, _; reflexivity.
Qed.

(** *** The simple path *)

(** C4. When the callable has an argument [request_data] and both its
    annotation [req] and the return annotation [ret] are declared:
    if both are subclasses of [BaseModel], [_parse_schemas] returns the
    callable itself together with the very annotation objects [req] and
    [ret] (and the [runs_on_shell] it was given); otherwise it raises, at
    compile time, a [ValueError] (the annotation is a class that is not a
    model) or the [TypeError] of [issubclass] (it is not a class). *)
Theorem C4_simple_path_is_identity (camelize : string -> string)
  (f : callable) (runs_on_shell : bool) (req ret : annotation) :
  mem "request_data" (args (getfullargspec f)) = true ->
  dict_get (annotations (getfullargspec f)) "request_data" = Some req ->
  dict_get (annotations (getfullargspec f)) "return" = Some ret ->
  if is_validated_model req && is_validated_model ret then
    _parse_schemas camelize f runs_on_shell
    = Ok (Original f, Declared req, Declared ret, runs_on_shell)
  else
    exists e,
      _parse_schemas camelize f runs_on_shell = Raise e
      /\ (exc_class e = "ValueError" \/ exc_class e = "TypeError").
Proof.
  intros Hargs Hreq Hret.
  unfold _parse_schemas, _is_simple_action.
  rewrite Hargs. cbn [negb andb].
  rewrite !(getitem_Some _ _ _ Hreq), !(getitem_Some _ _ _ Hret).
  cbn [bind].
  destruct req as [|i n [|]|o md|n]; cbn [issubclass_BaseModel
    is_validated_model bind negb andb];
    try (eexists; split; [reflexivity | simpl; tauto]).
  destruct ret as [|i' n' [|]|o md|n']; cbn [issubclass_BaseModel
    is_validated_model bind negb andb];
    try (eexists; split; [reflexivity | simpl; tauto]).
  reflexivity.
Qed.

Lemma C4_witness :
  mem "request_data" (args (getfullargspec run)) = true
  /\ dict_get (annotations (getfullargspec run)) "request_data"
     = Some RunRequest
  /\ dict_get (annotations (getfullargspec run)) "return" = Some RunResponse
  /\ _parse_schemas inflection_camelize run false
     = Ok (Original run, Declared RunRequest, Declared RunResponse, false).
Proof.
  split; [reflexivity | split; [reflexivity | split; [reflexivity|]]].
  apply (C4_simple_path_is_identity inflection_camelize run false
           RunRequest RunResponse); reflexivity.
Defined.

(** *** The loop over the annotations *)

Section Loop.
Variable paramdesc : list (string * string).
Variable defaults : list (string * pyval).
Variable returns : option (string * string).

Let step := build_step paramdesc defaults returns.
Let loop := build_loop paramdesc defaults returns.

(** An argument annotated with [Shell] is only recorded. *)
Lemma build_step_shell (st : build_state) (arg : string) :
  step st (arg, Shell)
  = Ok (mkBuild (Some arg) (request_schema st) (response_schema st)).
Proof. reflexivity. Qed.

(** What one iteration does to the recorded argument and to the request
    name space. *)
Lemma build_step_effect (st st1 : build_state) (arg : string)
  (annot : annotation) :
  step st (arg, annot) = Ok st1 ->
  shell_argument st1
  = (if is_Shell annot then Some arg else shell_argument st)
  /\ (if is_Shell annot || String.eqb arg "return"
      then request_schema st1 = request_schema st
      else exists field,
             ns_fields (request_schema st1)
             = dict_set (ns_fields (request_schema st)) arg field).
Proof.
  unfold step, build_step.
  destruct (is_Shell annot); cbn [orb].
  - intros [= <-]. split; reflexivity.
  - match goal with |- context [bind ?m _] =>
      destruct m as [[[annottype description] default]|e] end;
      cbn [bind]; [|discriminate].
    unfold namespace_set.
    destruct (String.eqb arg "return").
    + destruct (String.eqb _ "__annotations__"); cbn [bind];
        [discriminate|].
      intros [= <-]. split; reflexivity.
    + destruct (String.eqb arg "__annotations__"); cbn [bind];
        [discriminate|].
      intros [= <-]. split; [reflexivity|]. eexists. reflexivity.
Qed.

Lemma build_step_ok (st : build_state) (entry : string * annotation) :
  is_ok (step st entry)
  = is_Shell (snd entry) || entry_compiles returns entry.
Proof.
  destruct entry as [arg annot]. unfold step, build_step, entry_compiles.
  cbn [snd]. destruct (is_Shell annot); cbn [orb]; [reflexivity|].
  destruct (String.eqb (annotation_name annot) "Annotated").
  - destruct (_parse_annotated_type arg annot)
      as [[[annottype description] default]|e]; cbn [bind is_ok andb];
      [|reflexivity].
    unfold namespace_set.
    destruct (String.eqb arg "return");
      destruct (String.eqb _ "__annotations__"); reflexivity.
  - unfold _parse_raw_type. cbn [bind andb]. unfold namespace_set.
    destruct (String.eqb arg "return");
      destruct (String.eqb _ "__annotations__"); reflexivity.
Qed.

Lemma build_loop_ok (entries : list (string * annotation)) :
  forallb (fun entry => is_Shell (snd entry) || entry_compiles returns entry)
    entries = true ->
  forall st, exists st', loop entries st = Ok st'.
Proof.
  induction entries as [|entry entries IH]; cbn [forallb]; intros H st.
  - now exists st.
  - apply andb_true_iff in H. destruct H as [Hhd Htl].
    unfold loop. cbn [build_loop]. fold step.
    pose proof (build_step_ok st entry) as Hok. rewrite Hhd in Hok.
    destruct (step st entry) as [st1|e]; [|discriminate]. cbn [bind].
    apply (IH Htl).
Qed.

Lemma build_loop_shell_argument (entries : list (string * annotation)) :
  forall st st',
    loop entries st = Ok st' ->
    shell_argument st' = last_shell entries (shell_argument st).
Proof.
  unfold last_shell.
  induction entries as [|[arg annot] entries IH];
    cbn [fold_left]; intros st st'.
  - now intros [= <-].
  - unfold loop. cbn [build_loop]. fold step.
    destruct (step st (arg, annot)) as [st1|e] eqn:Hs; [|discriminate].
    cbn [bind]. intros Hl. apply IH in Hl. rewrite Hl.
    apply build_step_effect in Hs. destruct Hs as [-> _].
    reflexivity.
Qed.

(** An entry with a plain annotation stores the default that [defaults]
    holds for the argument, or [...]. *)
Lemma build_step_raw_field (st st1 : build_state) (arg : string)
  (annot : annotation) :
  is_Shell annot = false ->
  String.eqb (annotation_name annot) "Annotated" = false ->
  String.eqb arg "return" = false ->
  step st (arg, annot) = Ok st1 ->
  exists description,
    ns_fields (request_schema st1)
    = dict_set (ns_fields (request_schema st)) arg
        (Field (get_default defaults arg VEllipsis) description).
Proof.
  unfold step, build_step. intros -> -> Hret.
  unfold _parse_raw_type. cbn [bind]. rewrite Hret.
  unfold namespace_set.
  destruct (String.eqb arg "__annotations__"); cbn [bind]; [discriminate|].
  intros [= <-]. eexists. reflexivity.
Qed.

Lemma build_step_other_field (st st1 : build_state) (arg a : string)
  (annot : annotation) :
  step st (arg, annot) = Ok st1 -> a <> arg ->
  dict_get (ns_fields (request_schema st1)) a
  = dict_get (ns_fields (request_schema st)) a.
Proof.
  intros Hs Hne. apply build_step_effect in Hs. destruct Hs as [_ Hreq].
  destruct (is_Shell annot || String.eqb arg "return").
  - now rewrite Hreq.
  - destruct Hreq as [field ->]. now apply dict_get_set_ne.
Qed.

Lemma build_loop_other_field (entries : list (string * annotation))
  (a : string) :
  ~ In a (keys entries) ->
  forall st st',
    loop entries st = Ok st' ->
    dict_get (ns_fields (request_schema st')) a
    = dict_get (ns_fields (request_schema st)) a.
Proof.
  unfold keys.
  induction entries as [|[arg annot] entries IH]; cbn [map fst];
    intros Hnot st st'.
  - now intros [= <-].
  - unfold loop. cbn [build_loop]. fold step.
    destruct (step st (arg, annot)) as [st1|e] eqn:Hs; [|discriminate].
    cbn [bind]. intros Hl.
    rewrite (IH (fun H => Hnot (or_intror H)) _ _ Hl).
    apply (build_step_other_field _ _ _ _ _ Hs).
    intros ->. apply Hnot. now left.
Qed.

Lemma build_loop_raw_field (entries : list (string * annotation))
  (a : string) (annot : annotation) :
  distinct (keys entries) = true ->
  In (a, annot) entries ->
  is_Shell annot = false ->
  String.eqb (annotation_name annot) "Annotated" = false ->
  String.eqb a "return" = false ->
  forall st st',
    loop entries st = Ok st' ->
    exists description,
      dict_get (ns_fields (request_schema st')) a
      = Some (Field (get_default defaults a VEllipsis) description).
Proof.
  unfold keys.
  induction entries as [|[arg annot0] entries IH]; cbn [map fst distinct];
    [contradiction|].
  intros Hd Hin Hsh Hann Hret st st'.
  apply andb_true_iff in Hd. destruct Hd as [Hfresh Hd].
  apply negb_true_iff, mem_false_In in Hfresh.
  unfold loop. cbn [build_loop]. fold step.
  destruct (step st (arg, annot0)) as [st1|e] eqn:Hs; [|discriminate].
  cbn [bind]. intros Hl. destruct Hin as [[= -> ->]|Hin].
  - destruct (build_step_raw_field _ _ _ _ Hsh Hann Hret Hs) as [d Hd1].
    exists d. rewrite (build_loop_other_field _ _ Hfresh _ _ Hl), Hd1.
    apply dict_get_set_eq.
  - now apply (IH Hd Hin Hsh Hann Hret st1 st').
Qed.
End Loop.

(** *** Creating the model classes *)

Lemma type_BaseModel_inv (name : string) (ns : namespace) (m : model_class) :
  type_BaseModel name ns = Ok m -> m = Synthesized name ns.
Proof.
  unfold type_BaseModel.
  destruct (List.find private_name (keys (ns_fields ns))); [discriminate|].
  now intros [= <-].
Qed.


(** What a compilation that returned went through. *)
Lemma build_executable_inv (camelize : string -> string) (f : callable)
  (ep : entry_point) (Req Resp : model_class) (ros : bool) :
  _build_executable_from_args camelize f = Ok (ep, Req, Resp, ros) ->
  exists header paramdesc returns st,
    _parse_docstring (f_doc f) = Ok (header, paramdesc, returns)
    /\ build_loop paramdesc (signature_defaults (getfullargspec f)) returns
         (annotations (getfullargspec f))
         (mkBuild None empty_namespace empty_namespace) = Ok st
    /\ Req = Synthesized (camelize (f_name f) +:+ "Request")
               (request_schema st)
    /\ Resp = Synthesized (camelize (f_name f) +:+ "Response")
                (response_schema st)
    /\ ep = Execute f (shell_argument st) returns Resp header
    /\ ros = match shell_argument st with Some _ => true | None => false end.
Proof.
  unfold _build_executable_from_args.
  destruct (_parse_docstring (f_doc f)) as [[[header paramdesc] returns]|e];
    cbn [bind]; [|discriminate].
  destruct (build_loop _ _ _ _ _) as [st|e] eqn:Hloop; cbn [bind];
    [|discriminate].
  destruct (type_BaseModel _ (request_schema st)) as [Request|e] eqn:Hreq;
    cbn [bind]; [|discriminate].
  destruct (type_BaseModel _ (response_schema st)) as [Response|e] eqn:Hresp;
    cbn [bind]; [|discriminate].
  apply type_BaseModel_inv in Hreq, Hresp. subst Request Response.
  intros [= <- <- <- <-].
  exists header, paramdesc, returns, st. repeat split. exact Hloop.
Qed.

(** *** Signatures *)

Lemma in_param_annotations (ps : list parameter) (a : string)
  (annot : annotation) :
  In (a, annot) (flat_map param_annotation ps)
  <-> exists p, In p ps /\ p_name p = a /\ p_annotation p = Some annot.
Proof.
  rewrite in_flat_map. unfold param_annotation. split.
  - intros [p [Hin Hp]]. exists p. split; [exact Hin|].
    destruct (p_annotation p); simpl in Hp; [|contradiction].
    destruct Hp as [[= <- <-]|[]]. now split.
  - intros [p [Hin [<- Hp]]]. exists p. split; [exact Hin|].
    rewrite Hp. now left.
Qed.


Lemma in_shell_parameters (f : callable) (s : string) :
  In s (shell_parameters f)
  <-> exists p, In p (f_parameters f) /\ p_name p = s
                /\ p_annotation p = Some Shell.
Proof.
  unfold shell_parameters. rewrite in_map_iff. split.
  - intros [p [Hn Hin]]. apply filter_In in Hin. destruct Hin as [Hin Hs].
    exists p. repeat split; try assumption.
    unfold is_shell_parameter in Hs.
    destruct (p_annotation p) as [[]|]; try discriminate. reflexivity.
  - intros [p [Hin [Hn Ha]]]. exists p. split; [exact Hn|].
    apply filter_In. split; [exact Hin|].
    unfold is_shell_parameter. now rewrite Ha.
Qed.


Lemma shell_parameter_not_return (f : callable) (s : string) :
  wf_signature f = true -> In s (shell_parameters f) -> s <> "return".
Proof.
  unfold wf_signature. intros Hwf Hs ->.
  apply andb_true_iff in Hwf. destruct Hwf as [_ Hr].
  apply negb_true_iff, mem_false_In in Hr. apply Hr.
  apply in_shell_parameters in Hs. destruct Hs as [p [Hp [Hn _]]].
  rewrite <- Hn. now apply in_map.
Qed.

Lemma last_shell_parameters (ps : list parameter) (init : option string) :
  last_shell (flat_map param_annotation ps) init
  = last_name (map p_name (List.filter is_shell_parameter ps)) init.
Proof.
  unfold last_shell, last_name. revert init.
  induction ps as [|p ps IH]; intros init; [reflexivity|].
  cbn [flat_map List.filter]. rewrite fold_left_app.
  destruct (p_annotation p) as [annot|] eqn:Ha.
  - assert (param_annotation p = [(p_name p, annot)]) as ->
      by (unfold param_annotation; now rewrite Ha).
    assert (is_shell_parameter p = is_Shell annot) as ->
      by (unfold is_shell_parameter; now rewrite Ha).
    cbn [fold_left snd fst].
    destruct (is_Shell annot); cbn [map fold_left]; apply IH.
  - assert (param_annotation p = []) as ->
      by (unfold param_annotation; now rewrite Ha).
    assert (is_shell_parameter p = false) as ->
      by (unfold is_shell_parameter; now rewrite Ha).
    apply IH.
Qed.

Lemma last_name_nonempty (names : list string) (init : option string) :
  names <> [] -> last_name names init = last names.
Proof.
  unfold last_name. revert init.
  induction names as [|n names IH]; intros init Hne; [congruence|].
  cbn [fold_left]. destruct names as [|m names]; [reflexivity|].
  rewrite IH by discriminate. reflexivity.
Qed.


(** *** Defaults of plainly annotated positional parameters *)

Lemma combine_nil_r {A B} (l : list A) : combine l ([] : list B) = [].
Proof. now destruct l. Qed.

Lemma no_defaults (ps : list parameter) :
  forallb (fun q => negb (has_default q)) ps = true ->
  flat_map param_default ps = [] /\ flat_map default_pair ps = [].
Proof.
  induction ps as [|p ps IH]; cbn [forallb flat_map]; [now split|].
  intros H. apply andb_true_iff in H. destruct H as [Hp H].
  destruct (IH H) as [-> ->]. unfold param_default, default_pair, has_default in *.
  destruct (p_default p); [discriminate | now split].
Qed.

(** Zipping the names with the defaults from the end pairs every parameter
    that has a default with it. *)
Lemma combine_defaults (reversed : list parameter) (tail : list string) :
  defaults_lead reversed = true ->
  combine (map p_name reversed ++ tail) (flat_map param_default reversed)
  = flat_map default_pair reversed.
Proof.
  induction reversed as [|p ps IH]; cbn [defaults_lead map flat_map app].
  - intros _. apply combine_nil_r.
  - unfold has_default, param_default at 1, default_pair at 1.
    destruct (p_default p) as [v|]; intros H.
    + cbn. f_equal. now apply IH.
    + destruct (no_defaults ps H) as [-> ->]. cbn.
      first [reflexivity | apply combine_nil_r].
Qed.

Lemma dict_of_pairs_distinct {V} (l : list (string * V)) :
  distinct (map fst l) = true -> dict_of_pairs l = l.
Proof.
  unfold dict_of_pairs.
  enough (forall acc,
            (forall k, In k (map fst l) -> dict_get acc k = None) ->
            distinct (map fst l) = true ->
            fold_left (fun d kv => dict_set d (fst kv) (snd kv)) l acc
            = acc ++ l) as H by (intros Hd; now apply (H [])).
  induction l as [|[k v] l IH]; cbn [fold_left map fst snd distinct];
    intros acc Hacc Hd.
  - now rewrite app_nil_r.
  - apply andb_true_iff in Hd. destruct Hd as [Hfresh Hd].
    apply negb_true_iff, mem_false_In in Hfresh.
    rewrite dict_set_fresh by (apply Hacc; now left).
    rewrite IH; [now rewrite <- app_assoc | | exact Hd].
    intros k' Hk'. apply dict_get_app_fresh.
    + apply Hacc. now right.
    + intros ->. contradiction.
Qed.

Lemma default_pair_keys (ps : list parameter) (k : string) :
  In k (map fst (flat_map default_pair ps)) -> In k (map p_name ps).
Proof.
  induction ps as [|p ps IH]; cbn [flat_map map]; [tauto|].
  rewrite map_app, in_app_iff. unfold default_pair at 1.
  destruct (p_default p); cbn; tauto.
Qed.

Lemma default_pair_distinct (ps : list parameter) :
  distinct (map p_name ps) = true ->
  distinct (map fst (flat_map default_pair ps)) = true.
Proof.
  induction ps as [|p ps IH]; cbn [flat_map map distinct]; [reflexivity|].
  intros H. apply andb_true_iff in H. destruct H as [Hfresh H].
  unfold default_pair at 1. destruct (p_default p); cbn [app map fst distinct];
    [|now apply IH].
  rewrite (IH H), andb_true_r. apply negb_true_iff, mem_false_In.
  apply negb_true_iff, mem_false_In in Hfresh.
  intros Hin. apply Hfresh. now apply default_pair_keys.
Qed.

Lemma default_pair_lookup (ps : list parameter) (p : parameter) :
  distinct (map p_name ps) = true -> In p ps ->
  dict_get (flat_map default_pair ps) (p_name p) = p_default p.
Proof.
  induction ps as [|q ps IH]; cbn [flat_map map distinct]; [contradiction|].
  intros H Hin. apply andb_true_iff in H. destruct H as [Hfresh H].
  apply negb_true_iff, mem_false_In in Hfresh.
  destruct Hin as [->|Hin].
  - unfold default_pair at 1. destruct (p_default p) as [v|] eqn:Hv.
    + cbn. now rewrite String.eqb_refl.
    + cbn. destruct (dict_get _ _) eqn:Hg; [|reflexivity].
      exfalso. apply Hfresh. apply default_pair_keys.
      clear -Hg. induction (flat_map default_pair ps) as [|[k w] l IHl];
        [discriminate|].
      cbn in Hg |- *. destruct (String.eqb k (p_name p)) eqn:E.
      * left. now apply String.eqb_eq.
      * right. now apply IHl.
  - assert (Hne : p_name q <> p_name p).
    { intros Heq. apply Hfresh. rewrite Heq. now apply in_map. }
    unfold default_pair at 1. destruct (p_default q); cbn.
    + apply String.eqb_neq in Hne. rewrite Hne. now apply IH.
    + now apply IH.
Qed.

Lemma rev_flat_map_param_default (ps : list parameter) :
  rev (flat_map param_default ps) = flat_map param_default (rev ps).
Proof.
  induction ps as [|p ps IH]; [reflexivity|].
  cbn [flat_map rev]. rewrite rev_app_distr, IH, flat_map_app.
  cbn [flat_map]. rewrite app_nil_r. f_equal.
  unfold param_default. now destruct (p_default p).
Qed.

Lemma distinct_snoc (l : list string) (k : string) :
  distinct l = true -> ~ In k l -> distinct (l ++ [k]) = true.
Proof.
  induction l as [|x l IH]; cbn [app distinct]; [reflexivity|].
  intros Hd Hk. apply andb_true_iff in Hd. destruct Hd as [Hx Hd].
  rewrite IH; [|exact Hd | intros Hin; apply Hk; now right].
  rewrite andb_true_r. apply negb_true_iff, mem_false_In.
  apply negb_true_iff, mem_false_In in Hx.
  rewrite in_app_iff. intros [Hin|[Heq|[]]]; [contradiction|].
  apply Hk. now left.
Qed.

Lemma distinct_rev_names (ps : list parameter) :
  distinct (map p_name ps) = true -> distinct (map p_name (rev ps)) = true.
Proof.
  induction ps as [|p ps IH]; [reflexivity|].
  cbn [map distinct rev]. intros H.
  apply andb_true_iff in H. destruct H as [Hfresh H].
  apply negb_true_iff, mem_false_In in Hfresh.
  rewrite map_app. cbn [map]. apply distinct_snoc; [now apply IH|].
  intros Hin. apply Hfresh. rewrite map_rev in Hin. now apply in_rev in Hin.
Qed.

(** When every parameter is positional and annotated, the dictionary
    [defaults] maps each parameter to the default it declares, with or
    without a return annotation. *)
Lemma signature_defaults_own (f : callable) (p : parameter) :
  wf_signature f = true ->
  forallb plainly_annotated (f_parameters f) = true ->
  defaults_trail (f_parameters f) = true ->
  In p (f_parameters f) ->
  dict_get (signature_defaults (getfullargspec f)) (p_name p) = p_default p.
Proof.
  unfold wf_signature, defaults_trail. intros Hwf Hplain Htrail Hin.
  apply andb_true_iff in Hwf. destruct Hwf as [Hd _].
  assert (Hpos : List.filter (fun q => is_positional (p_kind q))
                   (f_parameters f) = f_parameters f).
  { clear -Hplain. induction (f_parameters f) as [|q ps IH]; [reflexivity|].
    cbn [forallb List.filter] in *.
    apply andb_true_iff in Hplain. destruct Hplain as [Hq Hps].
    unfold plainly_annotated in Hq. apply andb_true_iff in Hq.
    destruct Hq as [-> _]. now rewrite IH. }
  assert (Hkeys : keys (flat_map param_annotation (f_parameters f))
                  = map p_name (f_parameters f)).
  { clear -Hplain. unfold keys.
    induction (f_parameters f) as [|q ps IH]; [reflexivity|].
    cbn [forallb flat_map map] in *.
    apply andb_true_iff in Hplain. destruct Hplain as [Hq Hps].
    unfold plainly_annotated in Hq. apply andb_true_iff in Hq.
    destruct Hq as [_ Hq]. rewrite map_app, (IH Hps).
    unfold param_annotation. now destruct (p_annotation q). }
  unfold signature_defaults, getfullargspec.
  cbn [annotations defaults]. rewrite Hpos.
  assert (Hds : or_else
                  (match flat_map param_default (f_parameters f) with
                   | [] => None
                   | _ :: _ => Some (flat_map param_default (f_parameters f))
                   end) []
                = flat_map param_default (f_parameters f))
    by now destruct (flat_map param_default (f_parameters f)).
  rewrite Hds. unfold keys in *. rewrite map_app, Hkeys, rev_app_distr.
  rewrite <- map_rev, rev_flat_map_param_default.
  rewrite (combine_defaults _ _ Htrail).
  rewrite dict_of_pairs_distinct
    by (apply default_pair_distinct; now apply distinct_rev_names).
  rewrite <- (default_pair_lookup (rev (f_parameters f)) p).
  - reflexivity.
  - now apply distinct_rev_names.
  - now apply in_rev in Hin.
Qed.

Example listing_defaults :
  signature_defaults (getfullargspec listing) = [("limit", VInt 10)].
Proof. reflexivity. Qed.

Lemma annotation_keys_distinct (f : callable) :
  wf_signature f = true ->
  forallb plainly_annotated (f_parameters f) = true ->
  distinct (keys (annotations (getfullargspec f))) = true.
Proof.
  unfold wf_signature. intros Hwf Hplain.
  apply andb_true_iff in Hwf. destruct Hwf as [Hd Hret].
  assert (Hkeys : keys (flat_map param_annotation (f_parameters f))
                  = map p_name (f_parameters f)).
  { clear -Hplain. unfold keys.
    induction (f_parameters f) as [|q ps IH]; [reflexivity|].
    cbn [forallb flat_map map] in *.
    apply andb_true_iff in Hplain. destruct Hplain as [Hq Hps].
    unfold plainly_annotated in Hq. apply andb_true_iff in Hq.
    destruct Hq as [_ Hq]. rewrite map_app, (IH Hps).
    unfold param_annotation. now destruct (p_annotation q). }
  cbn [getfullargspec annotations]. unfold keys in *.
  rewrite map_app, Hkeys.
  destruct (f_return f); cbn [map app fst distinct]; [|exact Hd].
  now rewrite Hret, Hd.
Qed.

(** The signatures on which the defaults are the parameters' own: when
    every parameter is positional and plainly annotated, each parameter is
    a request field whose default is the one the parameter declares, or
    [...] (required) when it declares none. *)
Lemma plain_signature_defaults (camelize : string -> string) (f : callable)
  (ep : entry_point) (Req Resp : model_class) (ros : bool) (p : parameter) :
  wf_signature f = true ->
  forallb plainly_annotated (f_parameters f) = true ->
  defaults_trail (f_parameters f) = true ->
  _build_executable_from_args camelize f = Ok (ep, Req, Resp, ros) ->
  In p (f_parameters f) ->
  exists name ns description,
    Req = Synthesized name ns
    /\ dict_get (ns_fields ns) (p_name p)
       = Some (Field (or_else (p_default p) VEllipsis) description).
Proof.
  intros Hwf Hplain Htrail Hb Hin.
  pose proof (signature_defaults_own f p Hwf Hplain Htrail Hin) as Hown.
  pose proof (annotation_keys_distinct f Hwf Hplain) as Hd.
  destruct (build_executable_inv _ _ _ _ _ _ Hb)
    as (header & paramdesc & returns & st & _ & Hloop & -> & _).
  assert (Hp : plainly_annotated p = true)
    by (rewrite forallb_forall in Hplain; now apply Hplain).
  unfold plainly_annotated in Hp. apply andb_true_iff in Hp.
  destruct Hp as [_ Hp].
  destruct (p_annotation p) as [annot|] eqn:Ha; [|discriminate].
  apply andb_true_iff in Hp. destruct Hp as [Hsh Hann].
  apply negb_true_iff in Hsh, Hann.
  assert (Hret : String.eqb (p_name p) "return" = false).
  { apply String.eqb_neq. intros Heq. unfold wf_signature in Hwf.
    apply andb_true_iff in Hwf. destruct Hwf as [_ Hr].
    apply negb_true_iff, mem_false_In in Hr. apply Hr.
    rewrite <- Heq. now apply in_map. }
  assert (Hentry : In (p_name p, annot) (annotations (getfullargspec f))).
  { cbn [getfullargspec annotations]. apply in_or_app. right.
    apply in_param_annotations. now exists p. }
  destruct (build_loop_raw_field paramdesc
              (signature_defaults (getfullargspec f)) returns
              (annotations (getfullargspec f)) (p_name p) annot
              Hd Hentry Hsh Hann Hret _ _ Hloop)
    as [description Hfield].
  eexists _, _, description. split; [reflexivity|].
  rewrite Hfield. unfold get_default. rewrite Hown.
  now destruct (p_default p).
Qed.

(** *** The registry *)

Lemma attach_action_heap (tool_name tool_enum : string)
  (h : list action_class) (d : list (string * nat)) (action r : nat) :
  fst (attach_action tool_name tool_enum (h, d) action) !! r
  = (fun a => if decide (r = action) then attached tool_name tool_enum a else a)
      <$> h !! r.
Proof.
  unfold attach_action.
  destruct (h !! action) as [a|] eqn:Ha; cbn [fst].
  - destruct (decide (r = action)) as [->|Hne].
    + rewrite list_lookup_insert_eq by (now apply lookup_lt_Some in Ha).
      now rewrite Ha.
    + rewrite list_lookup_insert_ne by congruence.
      now destruct (h !! r).
  - destruct (decide (r = action)) as [->|Hne].
    + now rewrite Ha.
    + now destruct (h !! r).
Qed.

(** The loop [for action in cls.actions()] changes nothing but the [tool]
    and [enum] of the classes it visits: once for each occurrence. *)
Lemma attach_actions_names (tool_name tool_enum : string)
  (actions : list nat) :
  forall h d r,
    a_name <$> fst (fold_left (attach_action tool_name tool_enum) actions (h, d)) !! r
    = a_name <$> h !! r.
Proof.
  induction actions as [|action actions IH]; intros h d r; [reflexivity|].
  cbn [fold_left].
  destruct (attach_action tool_name tool_enum (h, d) action) as [h1 d1] eqn:E.
  rewrite IH.
  replace h1 with (fst (attach_action tool_name tool_enum (h, d) action))
    by now rewrite E.
  rewrite attach_action_heap.
  destruct (h !! r) as [a|]; [|reflexivity]. cbn.
  now destruct (decide (r = action)).
Qed.

Lemma attach_actions_heap (tool_name tool_enum : string)
  (actions : list nat) :
  NoDup actions ->
  forall h d r,
    fst (fold_left (attach_action tool_name tool_enum) actions (h, d)) !! r
    = (fun a => if decide (r ∈ actions) then attached tool_name tool_enum a else a)
        <$> h !! r.
Proof.
  induction 1 as [|action actions Hfresh Hnd IH]; intros h d r.
  - cbn [fold_left fst]. destruct (h !! r); [|reflexivity].
    cbn. destruct (decide (r ∈ [])) as [Hin|_]; [|reflexivity].
    now apply not_elem_of_nil in Hin.
  - cbn [fold_left].
    destruct (attach_action tool_name tool_enum (h, d) action) as [h1 d1] eqn:E.
    rewrite IH.
    replace h1 with (fst (attach_action tool_name tool_enum (h, d) action))
      by now rewrite E.
    rewrite attach_action_heap.
    destruct (h !! r) as [a|]; [|reflexivity]. cbn. f_equal.
    destruct (decide (r = action)) as [->|Hne].
    + destruct (decide (action ∈ actions)); [contradiction|].
      destruct (decide (action ∈ action :: actions)) as [_|Hn];
        [reflexivity|].
      exfalso. apply Hn. now left.
    + destruct (decide (r ∈ actions)) as [Hin|Hnin];
        destruct (decide (r ∈ action :: actions)) as [Hin'|Hnin'];
        try reflexivity.
      * exfalso. apply Hnin'. now right.
      * exfalso. apply elem_of_cons in Hin'. tauto.
Qed.

Section RegistryFacts.
Variable camelize : string -> string.
Variable underscore : string -> string.
Variable humanize : string -> string.
Variable inherited : string -> option string.

Let create := _create_tool_class camelize underscore humanize inherited.
Let wrap := _wrap camelize underscore humanize inherited.

Lemma create_actions (name : string) (actions : list nat)
  (h : list action_class) :
  tc_actions (snd (create name actions h)) = actions.
Proof.
  unfold create, _create_tool_class, RuntimeToolMeta_init.
  destruct (String.eqb (camelize name) "RuntimeTool"); [reflexivity|].
  now destruct (fold_left _ actions (h, [])).
Qed.

Lemma create_names (name : string) (actions : list nat)
  (h : list action_class) (r : nat) :
  a_name <$> fst (create name actions h) !! r = a_name <$> h !! r.
Proof.
  unfold create, _create_tool_class, RuntimeToolMeta_init.
  destruct (String.eqb (camelize name) "RuntimeTool"); [reflexivity|].
  destruct (fold_left _ actions (h, [])) as [h' d'] eqn:E. cbn [fst].
  replace h' with (fst (fold_left
    (attach_action
       (or_else (inherited "mame") (underscore (camelize name)))
       (upper (or_else (inherited "enum")
                 (or_else (inherited "mame")
                    (underscore (camelize name))))))
    actions (h, []))) by now rewrite E.
  apply attach_actions_names.
Qed.

Lemma create_enums (name : string) (actions : list nat)
  (h : list action_class) (r : nat) :
  NoDup actions ->
  a_enum <$> fst (create name actions h) !! r
  = (fun a => if decide (r ∈ actions)
              then namespaced (tool_enum camelize underscore inherited name) (a_enum a) else a_enum a)
      <$> h !! r.
Proof.
  intros Hnd. unfold create, _create_tool_class, RuntimeToolMeta_init,
    tool_enum.
  destruct (String.eqb (camelize name) "RuntimeTool"); cbn [fst namespaced].
  - destruct (h !! r); [|reflexivity]. cbn. now destruct (decide _).
  - destruct (fold_left _ actions (h, [])) as [h' d'] eqn:E. cbn [fst].
    replace h' with (fst (fold_left
      (attach_action
         (or_else (inherited "mame") (underscore (camelize name)))
         (upper (or_else (inherited "enum")
                   (or_else (inherited "mame")
                      (underscore (camelize name))))))
      actions (h, []))) by now rewrite E.
    rewrite (attach_actions_heap _ _ _ Hnd).
    destruct (h !! r); [|reflexivity]. cbn. now destruct (decide _).
Qed.

(** The state after [_wrap], in terms of the tool class it makes. *)
Lemma wrap_unfold (f : entry_point) (toolname : string)
  (tags : list string) (file : string) (Req Resp : model_class)
  (ros : bool) (requires : option (list string)) (st : state) :
  exists cls,
    a_name cls = entry_name f
    /\ a_enum cls = upper (entry_name f)
    /\ snd (wrap f toolname tags file Req Resp ros requires st)
       = length (heap st)
    /\ heap (fst (wrap f toolname tags file Req Resp ros requires st))
       = fst (create toolname
                (length (heap st) :: registered_actions st toolname)
                (heap st ++ [cls]))
    /\ registry_runtime
         (fst (wrap f toolname tags file Req Resp ros requires st))
       = <[toolname :=
             snd (create toolname
                    (length (heap st) :: registered_actions st toolname)
                    (heap st ++ [cls]))]> (registry_runtime st).
Proof.
  unfold wrap, _wrap. fold create.
  exists (mkAction (camelize (entry_name f)) (entry_doc f) tags toolname
            (entry_name f) (upper (entry_name f)) (entry_name f) file
            requires ros
            (mkActionData (entry_name f) toolname tags true true true ros)
            Req Resp f).
  split; [reflexivity|]. split; [reflexivity|].
  destruct (create toolname _ _) as [h tool].
  repeat split.
Qed.

Lemma wrap_registered (f : entry_point) (toolname : string)
  (tags : list string) (file : string) (Req Resp : model_class)
  (ros : bool) (requires : option (list string)) (st : state) :
  registered_actions
    (fst (wrap f toolname tags file Req Resp ros requires st)) toolname
  = length (heap st) :: registered_actions st toolname.
Proof.
  destruct (wrap_unfold f toolname tags file Req Resp ros requires st)
    as (cls & _ & _ & _ & _ & Hreg).
  unfold registered_actions at 1. rewrite Hreg, lookup_insert_eq.
  apply create_actions.
Qed.

Lemma wrap_registered_other (f : entry_point) (toolname other : string)
  (tags : list string) (file : string) (Req Resp : model_class)
  (ros : bool) (requires : option (list string)) (st : state) :
  other <> toolname ->
  registered_actions
    (fst (wrap f toolname tags file Req Resp ros requires st)) other
  = registered_actions st other.
Proof.
  intros Hne.
  destruct (wrap_unfold f toolname tags file Req Resp ros requires st)
    as (cls & _ & _ & _ & _ & Hreg).
  unfold registered_actions. rewrite Hreg, lookup_insert_ne by congruence.
  reflexivity.
Qed.

Lemma wrap_names (f : entry_point) (toolname : string)
  (tags : list string) (file : string) (Req Resp : model_class)
  (ros : bool) (requires : option (list string)) (st : state) (r : nat) :
  a_name <$> heap (fst (wrap f toolname tags file Req Resp ros requires st)) !! r
  = if decide (r = length (heap st)) then Some (entry_name f)
    else a_name <$> heap st !! r.
Proof.
  destruct (wrap_unfold f toolname tags file Req Resp ros requires st)
    as (cls & Hname & _ & _ & Hheap & _).
  rewrite Hheap, create_names.
  destruct (decide (r = length (heap st))) as [->|Hne].
  - rewrite list_lookup_middle by reflexivity. cbn. now rewrite Hname.
  - destruct (decide (r < length (heap st))) as [Hlt|Hge].
    + now rewrite lookup_app_l.
    + rewrite !lookup_ge_None_2; [reflexivity | lia |].
      rewrite length_app. cbn. lia.
Qed.
Lemma wrap_length (f : entry_point) (toolname : string)
  (tags : list string) (file : string) (Req Resp : model_class)
  (ros : bool) (requires : option (list string)) (st : state) :
  length (heap (fst (wrap f toolname tags file Req Resp ros requires st)))
  = S (length (heap st)).
Proof.
  pose proof (wrap_names f toolname tags file Req Resp ros requires st) as Hn.
  set (h := heap (fst (wrap f toolname tags file Req Resp ros requires st)))
    in *.
  assert (Hlt : length (heap st) < length h).
  { apply lookup_lt_is_Some. specialize (Hn (length (heap st))).
    rewrite decide_True in Hn by reflexivity.
    destruct (h !! length (heap st)); [eauto | discriminate]. }
  assert (Hge : length h <= S (length (heap st))).
  { apply lookup_ge_None. specialize (Hn (S (length (heap st)))).
    rewrite decide_False in Hn by lia.
    rewrite (lookup_ge_None_2 (heap st)) in Hn by lia.
    destruct (h !! S (length (heap st))); [discriminate | reflexivity]. }
  lia.
Qed.

(** Every class the new tool class is made over gets the tool's enum
    in front of the enum it had: the new class, and each class that was
    registered under the tool before. *)
Lemma wrap_enums (f : entry_point) (toolname : string)
  (tags : list string) (file : string) (Req Resp : model_class)
  (ros : bool) (requires : option (list string)) (st : state) (r : nat) :
  NoDup (registered_actions st toolname) ->
  (forall old, old ∈ registered_actions st toolname ->
               old < length (heap st)) ->
  a_enum <$> heap (fst (wrap f toolname tags file Req Resp ros requires st)) !! r
  = if decide (r = length (heap st)) then
      Some (namespaced (tool_enum camelize underscore inherited toolname)
              (upper (entry_name f)))
    else
      (fun a => if decide (r ∈ registered_actions st toolname)
                then namespaced
                       (tool_enum camelize underscore inherited toolname)
                       (a_enum a)
                else a_enum a) <$> heap st !! r.
Proof.
  intros Hnd Hvalid.
  destruct (wrap_unfold f toolname tags file Req Resp ros requires st)
    as (cls & _ & Henum & _ & Hheap & _).
  rewrite Hheap. unfold create. rewrite create_enums.
  2:{ constructor; [|exact Hnd]. intros Hin. apply Hvalid in Hin. lia. }
  destruct (decide (r = length (heap st))) as [->|Hne].
  - rewrite list_lookup_middle by reflexivity. cbn.
    rewrite decide_True by now left. now rewrite Henum.
  - destruct (decide (r < length (heap st))) as [Hlt|Hge].
    + rewrite lookup_app_l by exact Hlt.
      destruct (heap st !! r); [|reflexivity]. cbn. f_equal.
      destruct (decide (r ∈ registered_actions st toolname)) as [Hin|Hnin].
      * rewrite decide_True by now right. reflexivity.
      * rewrite decide_False; [reflexivity|].
        intros Hin. apply elem_of_cons in Hin. tauto.
    + rewrite !lookup_ge_None_2; [reflexivity | lia |].
      rewrite length_app. cbn. lia.
Qed.

Lemma register_all_registered (toolname : string) (rs : list registration) :
  forall st,
    registered_actions
      (fst (register_all camelize underscore humanize inherited toolname rs st))
      toolname
    = rev (snd (register_all camelize underscore humanize inherited
                  toolname rs st))
      ++ registered_actions st toolname.
Proof.
  induction rs as [|r rs IH]; intros st; [reflexivity|].
  cbn [register_all].
  destruct (register camelize underscore humanize inherited toolname r st)
    as [st1 ref] eqn:E1.
  specialize (IH st1).
  destruct (register_all camelize underscore humanize inherited toolname
              rs st1) as [st2 refs].
  cbn [fst snd] in *. rewrite IH. cbn [rev]. rewrite <- app_assoc. cbn.
  do 2 f_equal.
  pose proof (wrap_registered (r_entry r) toolname (r_tags r) (r_file r)
                (r_request r) (r_response r) (r_runs_on_shell r)
                (r_requires r) st) as Hw.
  pose proof (wrap_unfold (r_entry r) toolname (r_tags r) (r_file r)
                (r_request r) (r_response r) (r_runs_on_shell r)
                (r_requires r) st) as (_ & _ & _ & Href & _).
  unfold wrap in Hw, Href. unfold register in E1. rewrite E1 in Hw, Href.
  cbn [fst snd] in Hw, Href. rewrite Hw. now subst ref.
Qed.
End RegistryFacts.

(** C8. Registering an action under a tool name with [_wrap] makes the list
    [registry["runtime"][toolname].actions()] the new class followed by
    the list it was before, in the same order; the new class is a new
    object, which carries the name of the callable, and every class that
    existed keeps its name; the lists of the other tools are untouched.
    For a sequence of registrations under one name the list is therefore
    the classes made, most recent first, followed by what was there. *)
Theorem C8_registration_prepends (camelize underscore humanize : string -> string)
  (inherited : string -> option string) (toolname : string) :
  (forall (r : registration) (st : state),
     let st' := fst (register camelize underscore humanize inherited
                       toolname r st) in
     let ref := snd (register camelize underscore humanize inherited
                       toolname r st) in
     registered_actions st' toolname = ref :: registered_actions st toolname
     /\ ref = length (heap st)
     /\ length (heap st') = S (length (heap st))
     /\ (forall old,
           a_name <$> heap st' !! old
           = if decide (old = ref) then Some (entry_name (r_entry r))
             else a_name <$> heap st !! old)
     /\ (forall other,
           registered_actions st' other
           = if decide (other = toolname)
             then ref :: registered_actions st toolname
             else registered_actions st other))
  /\ (forall (rs : list registration) (st : state),
       registered_actions
         (fst (register_all camelize underscore humanize inherited
                 toolname rs st)) toolname
       = rev (snd (register_all camelize underscore humanize inherited
                     toolname rs st))
         ++ registered_actions st toolname).
Proof.
  split; [|apply register_all_registered].
  intros r st st' ref. subst st' ref. unfold register.
  destruct (wrap_unfold camelize underscore humanize inherited (r_entry r)
              toolname (r_tags r) (r_file r) (r_request r) (r_response r)
              (r_runs_on_shell r) (r_requires r) st)
    as (_ & _ & _ & -> & _).
  split; [apply wrap_registered|]. split; [reflexivity|].
  split; [apply wrap_length|]. split; [apply wrap_names|].
  intros other. destruct (decide (other = toolname)) as [->|Hne].
  - apply wrap_registered.
  - now apply wrap_registered_other.
Qed.

Lemma parse_entry_name (camelize : string -> string) (f : callable)
  (runs_on_shell : bool) (ep : entry_point) (Req Resp : model_class)
  (ros : bool) :
  _parse_schemas camelize f runs_on_shell = Ok (ep, Req, Resp, ros) ->
  entry_name ep = f_name f.
Proof.
  unfold _parse_schemas.
  destruct (_is_simple_action (getfullargspec f)) as [[|]|e]; cbn [bind];
    [| |discriminate].
  - destruct (getitem _ "request_data"); cbn [bind]; [|discriminate].
    destruct (getitem _ "return"); cbn [bind]; [|discriminate].
    now intros [= <- _ _ _].
  - intros Hb. destruct (build_executable_inv _ _ _ _ _ _ Hb)
      as (header & paramdesc & returns & st & _ & _ & _ & _ & -> & _).
    reflexivity.
Qed.

(** C2, evaluated on two registrations under the tool name [tool]:
    [fetch], then [store].  Both compile and both classes are reachable
    from the registry, [store] at the head.  The tool class made for the
    second registration is made over both classes and puts the tool's
    enum in front of the enum each of them has, so the enum of [fetch],
    already namespaced by the first registration, is namespaced twice; it
    is not [TOOL_FETCH], whatever [inflection] computes. *)
Theorem C2_enum_is_namespaced_again (camelize underscore humanize : string -> string)
  (inherited : string -> option string) :
  exists st1 st2 fetch_ref store_ref,
    action camelize underscore humanize inherited "tool" false None None
      fetch initial_state = Ok (st1, fetch_ref)
    /\ action camelize underscore humanize inherited "tool" false None None
         store st1 = Ok (st2, store_ref)
    /\ registered_actions st2 "tool" = [store_ref; fetch_ref]
    /\ a_name <$> heap st2 !! fetch_ref = Some "fetch"
    /\ a_enum <$> heap st1 !! fetch_ref
       = Some (namespaced (tool_enum camelize underscore inherited "tool")
                 "FETCH")
    /\ a_enum <$> heap st2 !! fetch_ref
       = Some (namespaced (tool_enum camelize underscore inherited "tool")
                 (namespaced (tool_enum camelize underscore inherited "tool")
                    "FETCH"))
    /\ a_enum <$> heap st2 !! fetch_ref <> Some "TOOL_FETCH".
Proof.
  unfold action.
  destruct (_parse_schemas camelize fetch false)
    as [[[[ep1 Req1] Resp1] ros1]|e] eqn:Hp1; [|discriminate Hp1].
  destruct (_parse_schemas camelize store false)
    as [[[[ep2 Req2] Resp2] ros2]|e] eqn:Hp2; [|discriminate Hp2].
  apply parse_entry_name in Hp1, Hp2. cbn [f_name fetch store] in Hp1, Hp2.
  cbn [bind or_else f_file fetch store].
  set (w1 := _wrap camelize underscore humanize inherited ep1 "tool" []
               "web.py" Req1 Resp1 ros1 None initial_state).
  set (w2 := _wrap camelize underscore humanize inherited ep2 "tool" []
               "web.py" Req2 Resp2 ros2 None (fst w1)).
  exists (fst w1), (fst w2), (snd w1), (snd w2).
  assert (Hr1 : snd w1 = 0).
  { destruct (wrap_unfold camelize underscore humanize inherited ep1 "tool" []
                "web.py" Req1 Resp1 ros1 None initial_state)
      as (_ & _ & _ & H & _). exact H. }
  assert (Hl1 : length (heap (fst w1)) = 1) by apply wrap_length.
  assert (Hreg1 : registered_actions (fst w1) "tool" = [0])
    by apply wrap_registered.
  assert (Hr2 : snd w2 = 1).
  { destruct (wrap_unfold camelize underscore humanize inherited ep2 "tool" []
                "web.py" Req2 Resp2 ros2 None (fst w1))
      as (_ & _ & _ & H & _). unfold w2. now rewrite H. }
  assert (He1 : a_enum <$> heap (fst w1) !! 0
                = Some (namespaced
                          (tool_enum camelize underscore inherited "tool")
                          "FETCH")).
  { unfold w1. rewrite wrap_enums.
    - cbn [initial_state heap length]. rewrite decide_True by reflexivity.
      now rewrite Hp1.
    - constructor.
    - intros old Hin. now apply not_elem_of_nil in Hin. }
  assert (He2 : a_enum <$> heap (fst w2) !! 0
                = Some (namespaced
                          (tool_enum camelize underscore inherited "tool")
                          (namespaced
                             (tool_enum camelize underscore inherited "tool")
                             "FETCH"))).
  { unfold w2. rewrite wrap_enums.
    - rewrite Hl1, Hreg1. rewrite decide_False by lia.
      destruct (heap (fst w1) !! 0) as [a|]; [|discriminate He1].
      cbn in *. rewrite decide_True by now left.
      injection He1 as ->. reflexivity.
    - rewrite Hreg1. apply NoDup_singleton.
    - rewrite Hreg1, Hl1. intros old Hin.
      apply list_elem_of_singleton in Hin. lia. }
  split; [f_equal; apply surjective_pairing|].
  split; [f_equal; apply surjective_pairing|].
  rewrite Hr1, Hr2.
  split; [unfold w2; now rewrite wrap_registered, Hl1, Hreg1|].
  split.
  { unfold w2. rewrite wrap_names, Hl1. rewrite decide_False by lia.
    unfold w1. rewrite wrap_names. cbn [initial_state heap length].
    rewrite decide_True by reflexivity. now rewrite Hp1. }
  split; [exact He1|]. split; [exact He2|].
  rewrite He2. intros [= Heq].
  destruct (tool_enum camelize underscore inherited "tool") as [prefix|];
    cbn [namespaced] in Heq; [|discriminate].
  apply (f_equal String.length) in Heq.
  rewrite !string_length_append in Heq. cbn in Heq. lia.
Qed.

(** *** The docstring *)

Lemma split_chars_length (sep : ascii) (l : list ascii) :
  forall cur,
    length (split_chars sep cur l)
    = S (length (List.filter (fun x => ascii_eqb x sep) l)).
Proof.
  induction l as [|c l IH]; intros cur; cbn [split_chars List.filter];
    [reflexivity|].
  destruct (ascii_eqb c sep); cbn [length]; now rewrite IH.
Qed.

Lemma split_length (sep : ascii) (s : string) :
  length (split sep s) = S (count_char sep s).
Proof.
  unfold split, count_char. rewrite length_map. apply split_chars_length.
Qed.

Lemma unpack_pair_length (parts : list string) :
  length parts <> 2 -> exists msg, unpack_pair parts = Raise (ValueError msg).
Proof.
  destruct parts as [|a [|b [|c parts]]]; cbn [length unpack_pair];
    intros H; try (eexists; reflexivity).
  congruence.
Qed.

Lemma unpack_pair_raises (parts : list string) (e : exn) :
  unpack_pair parts = Raise e -> exists msg, e = ValueError msg.
Proof.
  destruct parts as [|a [|b [|c parts]]]; cbn [unpack_pair];
    intros [= <-]; eexists; reflexivity.
Qed.

(** Whatever [parse_line] raises is a [ValueError]. *)
Lemma parse_line_raises (d : string)
  (acc : list (string * string) * option (string * string)) (e : exn) :
  parse_line d acc = Raise e -> exists msg, e = ValueError msg.
Proof.
  unfold parse_line. destruct acc as [params returns].
  destruct (String.eqb d ""); [discriminate|].
  destruct (contains ":param" d).
  - destruct (unpack_pair (split ":" (remove ":param " d))) as [pd|e1] eqn:E1;
      cbn [bind].
    + destruct (contains ":return" (snd pd)); [|discriminate].
      destruct (unpack_pair (split ":" (remove ":return " _)))
        as [pd2|e2] eqn:E2; cbn [bind]; [discriminate|].
      intros [= <-]. now apply unpack_pair_raises in E2.
    + intros [= <-]. now apply unpack_pair_raises in E1.
  - cbn [bind]. destruct (contains ":return" d); [|discriminate].
    destruct (unpack_pair (split ":" (remove ":return " _)))
      as [pd2|e2] eqn:E2; cbn [bind]; [discriminate|].
    intros [= <-]. now apply unpack_pair_raises in E2.
Qed.

Lemma parse_line_param_colons (d : string)
  (acc : list (string * string) * option (string * string)) :
  contains ":param" d = true ->
  count_char ":" (remove ":param " d) <> 1 ->
  exists msg, parse_line d acc = Raise (ValueError msg).
Proof.
  intros Hc Hn. unfold parse_line. destruct acc as [params returns].
  destruct (String.eqb d "") eqn:Hd.
  { apply String.eqb_eq in Hd. subst d. discriminate Hc. }
  rewrite Hc.
  destruct (unpack_pair_length (split ":" (remove ":param " d)))
    as [msg ->].
  - rewrite split_length. lia.
  - exists msg. reflexivity.
Qed.

Lemma parse_lines_bad_line (descriptions : list string) (d : string) :
  In d descriptions ->
  contains ":param" d = true ->
  count_char ":" (remove ":param " d) <> 1 ->
  forall acc, exists msg, parse_lines descriptions acc = Raise (ValueError msg).
Proof.
  intros Hin Hc Hn.
  induction descriptions as [|d0 descriptions IH]; [contradiction|].
  intros acc. cbn [parse_lines].
  destruct (parse_line d0 acc) as [acc1|e] eqn:E; cbn [bind].
  - destruct Hin as [->|Hin]; [|now apply IH].
    destruct (parse_line_param_colons d acc Hc Hn) as [msg Hm]. congruence.
  - apply parse_line_raises in E. destruct E as [msg ->]. now exists msg.
Qed.

(** X7. A docstring line that contains [:param] must hold exactly one
    colon once every [:param ] is removed from it.  When the docstring of
    a callable has, after its first line, a line that does not (the
    description holds a colon, as a URL does, or [:param] is not followed
    by a space), compiling the callable from its arguments raises
    [ValueError], whatever the other lines and the signature are. *)
Theorem X7_colon_in_a_description_is_refused (camelize : string -> string)
  (f : callable) (doc header d : string) (descriptions : list string) :
  f_doc f = Some doc ->
  split newline (rstrip (lstrip doc)) = header :: descriptions ->
  In d descriptions ->
  contains ":param" d = true ->
  count_char ":" (remove ":param " d) <> 1 ->
  exists msg,
    _build_executable_from_args camelize f = Raise (ValueError msg).
Proof.
  intros Hdoc Hsplit Hin Hc Hn.
  unfold _build_executable_from_args, _parse_docstring.
  rewrite Hdoc, Hsplit.
  destruct (parse_lines_bad_line descriptions d Hin Hc Hn ([], None))
    as [msg ->].
  exists msg. reflexivity.
Qed.

Lemma X7_witness :
  exists msg,
    _build_executable_from_args inflection_camelize download
    = Raise (ValueError msg).
Proof.
  apply (X7_colon_in_a_description_is_refused inflection_camelize download
           ("Download a page." +:+ nl
            +:+ ":param url: address, e.g. http://host")
           "Download a page." ":param url: address, e.g. http://host"
           [":param url: address, e.g. http://host"]).
  - reflexivity.
  - reflexivity.
  - now left.
  - reflexivity.
  - vm_compute. lia.
Defined.

(** X8. A line [:param name: description], in which neither the name nor
    the description holds a colon and [:param ] does not occur again,
    records the description under the name, both stripped of the white
    space around them; it does not touch what was recorded for the
    return value. *)
Theorem X8_param_line_records_description (name description : string)
  (params : list (string * string)) (returns : option (string * string)) :
  count_char ":" name = 0 ->
  count_char ":" description = 0 ->
  contains ":param " (name +:+ ":" +:+ description) = false ->
  parse_line (":param " +:+ name +:+ ":" +:+ description) (params, returns)
  = Ok (dict_set params (strip name) (strip description), returns).
Proof.
  unfold count_char. intros Hn Hd Hc.
  apply length_zero_iff_nil in Hn, Hd.
  assert (Hremove : remove ":param " (":param " +:+ name +:+ ":" +:+ description)
                    = name +:+ ":" +:+ description).
  { unfold remove. rewrite chars_append.
    change (chars ":param ") with (":"%char :: chars "param ").
    rewrite remove_chars_prefix, remove_chars_absent by exact Hc.
    apply str_chars. }
  assert (Hsplit : split ":" (name +:+ ":" +:+ description)
                   = [name; description]).
  { unfold split. rewrite !chars_append.
    change (chars ":") with [":"%char]. cbn [app].
    rewrite (split_chars_at _ _ _ Hn), (split_chars_free _ _ Hd).
    cbn [rev app map]. now rewrite !str_chars. }
  assert (Hreturn : contains ":return" description = false).
  { unfold contains. change (chars ":return") with (":"%char :: chars "return").
    now apply contains_chars_head. }
  unfold parse_line.
  assert (Hparam : contains ":param"
                     (":param " +:+ name +:+ ":" +:+ description) = true).
  { unfold contains. rewrite chars_append.
    change (chars ":param ") with (chars ":param" ++ [" "%char]).
    rewrite <- app_assoc.
    apply (contains_chars_middle (chars ":param") []). }
  rewrite Hparam, Hremove, Hsplit. cbn [String.append String.eqb unpack_pair bind fst snd].
  now rewrite Hreturn.
Qed.

Lemma X8_witness :
  count_char ":" "url" = 0
  /\ parse_line ":param url: Address of the page" ([], None)
     = Ok ([("url", "Address of the page")], None).
Proof.
  split; [reflexivity|].
  apply (X8_param_line_records_description "url" " Address of the page"
           [] None); reflexivity.
Defined.

(** *** The fields of the synthesized models *)

Lemma dict_get_absent {V} (d : list (string * V)) (k : string) :
  ~ In k (keys d) -> dict_get d k = None.
Proof.
  unfold keys. induction d as [|[k' v] d IH]; cbn [map fst dict_get In];
    [reflexivity|].
  intros H. destruct (String.eqb k' k) eqn:E.
  - apply String.eqb_eq in E. tauto.
  - apply IH. tauto.
Qed.

Lemma param_annotation_keys (ps : list parameter) (k : string) :
  In k (keys (flat_map param_annotation ps)) ->
  exists p annot, In p ps /\ p_name p = k /\ p_annotation p = Some annot.
Proof.
  unfold keys. rewrite in_map_iff. intros [[a annot] [<- Hin]].
  apply in_param_annotations in Hin. destruct Hin as [p [Hp [Hn Ha]]].
  now exists p, annot.
Qed.

Lemma param_annotation_distinct (ps : list parameter) :
  distinct (map p_name ps) = true ->
  distinct (keys (flat_map param_annotation ps)) = true.
Proof.
  induction ps as [|p ps IH]; cbn [map distinct flat_map]; [reflexivity|].
  intros Hd. apply andb_true_iff in Hd. destruct Hd as [Hfresh Hd].
  unfold param_annotation at 1.
  destruct (p_annotation p); cbn [app keys map fst distinct];
    [|exact (IH Hd)].
  fold (keys (flat_map param_annotation ps)).
  rewrite (IH Hd), andb_true_r. apply negb_true_iff, mem_false_In.
  apply negb_true_iff, mem_false_In in Hfresh.
  intros Hin. apply param_annotation_keys in Hin.
  destruct Hin as (q & annot & Hq & Hn & _).
  apply Hfresh. rewrite <- Hn. now apply in_map.
Qed.

Lemma return_not_a_parameter (f : callable) :
  wf_signature f = true ->
  ~ In "return" (keys (flat_map param_annotation (f_parameters f))).
Proof.
  unfold wf_signature. intros Hwf Hin.
  apply andb_true_iff in Hwf. destruct Hwf as [_ Hr].
  apply negb_true_iff, mem_false_In in Hr. apply Hr.
  apply param_annotation_keys in Hin.
  destruct Hin as (q & annot & Hq & Hn & _).
  rewrite <- Hn. now apply in_map.
Qed.

(** The keys of [argspec.annotations] are pairwise distinct. *)
Lemma annotations_distinct (f : callable) :
  wf_signature f = true ->
  distinct (keys (annotations (getfullargspec f))) = true.
Proof.
  intros Hwf. pose proof (return_not_a_parameter f Hwf) as Hret.
  unfold wf_signature in Hwf. apply andb_true_iff in Hwf.
  destruct Hwf as [Hd _]. apply param_annotation_distinct in Hd.
  cbn [getfullargspec annotations]. unfold keys in *. rewrite map_app.
  destruct (f_return f); cbn [map app fst distinct]; [|exact Hd].
  rewrite Hd, andb_true_r. now apply negb_true_iff, mem_false_In.
Qed.

Section Fields.
Variable paramdesc : list (string * string).
Variable defaults : list (string * pyval).
Variable returns : option (string * string).

Let step := build_step paramdesc defaults returns.
Let loop := build_loop paramdesc defaults returns.

(** The name of the response field. *)
Let rname : string :=
  match returns with Some (name, _) => name | None => "return" end.

(** One iteration sets at most one key, in one of the two name spaces. *)
Lemma build_step_shape (st st1 : build_state) (arg : string)
  (annot : annotation) :
  step st (arg, annot) = Ok st1 ->
  if is_Shell annot then
    request_schema st1 = request_schema st
    /\ response_schema st1 = response_schema st
  else
    exists annottype description default,
      (if String.eqb (annotation_name annot) "Annotated"
       then _parse_annotated_type arg annot
            = Ok (annottype, description, default)
       else annottype = annot
            /\ default = get_default defaults arg VEllipsis)
      /\ if String.eqb arg "return" then
           request_schema st1 = request_schema st
           /\ response_schema st1
              = mkNamespace
                  (dict_set (ns_fields (response_schema st)) rname
                     (Field default description))
                  (dict_set (ns_annotations (response_schema st)) rname
                     annottype)
         else
           response_schema st1 = response_schema st
           /\ request_schema st1
              = mkNamespace
                  (dict_set (ns_fields (request_schema st)) arg
                     (Field default description))
                  (dict_set (ns_annotations (request_schema st)) arg
                     annottype).
Proof.
  unfold step, build_step.
  destruct (is_Shell annot).
  { intros [= <-]. split; reflexivity. }
  destruct (String.eqb (annotation_name annot) "Annotated").
  - destruct (_parse_annotated_type arg annot)
      as [[[annottype description] default]|e]; cbn [bind]; [|discriminate].
    unfold namespace_set.
    destruct (String.eqb arg "return") eqn:Hret.
    + apply String.eqb_eq in Hret. subst arg.
      change (match returns with
              | Some (name, _) => name
              | None => "return"
              end) with rname.
      destruct (String.eqb rname "__annotations__");
        cbn [bind]; [discriminate|].
      intros [= <-]. exists annottype, description, default.
      repeat split.
    + destruct (String.eqb arg "__annotations__"); cbn [bind];
        [discriminate|].
      intros [= <-]. exists annottype, description, default.
      repeat split.
  - unfold _parse_raw_type. cbn [bind]. unfold namespace_set.
    destruct (String.eqb arg "return") eqn:Hret.
    + apply String.eqb_eq in Hret. subst arg.
      change (match returns with
              | Some (name, _) => name
              | None => "return"
              end) with rname.
      destruct (String.eqb rname "__annotations__");
        cbn [bind]; [discriminate|].
      intros [= <-]. eexists _, _, _. repeat split.
    + destruct (String.eqb arg "__annotations__"); cbn [bind];
        [discriminate|].
      intros [= <-]. eexists _, _, _. repeat split.
Qed.

Lemma build_step_other_key (st st1 : build_state) (arg a : string)
  (annot : annotation) :
  step st (arg, annot) = Ok st1 -> a <> arg ->
  dict_get (ns_fields (request_schema st1)) a
  = dict_get (ns_fields (request_schema st)) a
  /\ dict_get (ns_annotations (request_schema st1)) a
     = dict_get (ns_annotations (request_schema st)) a.
Proof.
  intros Hs Hne. apply build_step_shape in Hs.
  destruct (is_Shell annot); [destruct Hs as [-> _]; now split|].
  destruct Hs as (annottype & description & default & _ & Hs).
  destruct (String.eqb arg "return"); [destruct Hs as [-> _]; now split|].
  destruct Hs as [_ ->]. cbn [ns_fields ns_annotations].
  split; now apply dict_get_set_ne.
Qed.

Lemma build_loop_other_key (entries : list (string * annotation))
  (a : string) :
  ~ In a (keys entries) ->
  forall st st',
    loop entries st = Ok st' ->
    dict_get (ns_fields (request_schema st')) a
    = dict_get (ns_fields (request_schema st)) a
    /\ dict_get (ns_annotations (request_schema st')) a
       = dict_get (ns_annotations (request_schema st)) a.
Proof.
  unfold keys.
  induction entries as [|[arg annot] entries IH]; cbn [map fst];
    intros Hnot st st'.
  - intros [= <-]. now split.
  - unfold loop. cbn [build_loop]. fold step.
    destruct (step st (arg, annot)) as [st1|e] eqn:Hs; [|discriminate].
    cbn [bind]. intros Hl.
    destruct (IH (fun H => Hnot (or_intror H)) _ _ Hl) as [-> ->].
    apply (build_step_other_key _ _ _ _ _ Hs).
    intros ->. apply Hnot. now left.
Qed.

(** The field the loop leaves for an argument that is not annotated with
    [Shell] and is not the return value. *)
Lemma build_loop_field (entries : list (string * annotation))
  (a : string) (annot : annotation) :
  distinct (keys entries) = true ->
  In (a, annot) entries ->
  is_Shell annot = false ->
  String.eqb a "return" = false ->
  forall st st',
    loop entries st = Ok st' ->
    exists annottype description default,
      (if String.eqb (annotation_name annot) "Annotated"
       then _parse_annotated_type a annot
            = Ok (annottype, description, default)
       else annottype = annot
            /\ default = get_default defaults a VEllipsis)
      /\ dict_get (ns_fields (request_schema st')) a
         = Some (Field default description)
      /\ dict_get (ns_annotations (request_schema st')) a
         = Some annottype.
Proof.
  unfold keys.
  induction entries as [|[arg annot0] entries IH]; cbn [map fst distinct];
    [contradiction|].
  intros Hd Hin Hsh Hret st st'.
  apply andb_true_iff in Hd. destruct Hd as [Hfresh Hd].
  apply negb_true_iff, mem_false_In in Hfresh.
  unfold loop. cbn [build_loop]. fold step.
  destruct (step st (arg, annot0)) as [st1|e] eqn:Hs; [|discriminate].
  cbn [bind]. intros Hl. destruct Hin as [[= -> ->]|Hin].
  - apply build_step_shape in Hs. rewrite Hsh, Hret in Hs.
    destruct Hs as (annottype & description & default & Hparse & _ & Hreq).
    exists annottype, description, default. split; [exact Hparse|].
    destruct (build_loop_other_key _ _ Hfresh _ _ Hl) as [-> ->].
    rewrite Hreq. cbn [ns_fields ns_annotations].
    split; apply dict_get_set_eq.
  - now apply (IH Hd Hin Hsh Hret st1 st').
Qed.

(** Only the entry [return] touches the response name space. *)
Lemma build_loop_response_kept (entries : list (string * annotation)) :
  ~ In "return" (keys entries) ->
  forall st st',
    loop entries st = Ok st' -> response_schema st' = response_schema st.
Proof.
  unfold keys.
  induction entries as [|[arg annot] entries IH]; cbn [map fst];
    intros Hnot st st'.
  - now intros [= <-].
  - unfold loop. cbn [build_loop]. fold step.
    destruct (step st (arg, annot)) as [st1|e] eqn:Hs; [|discriminate].
    cbn [bind]. intros Hl.
    rewrite (IH (fun H => Hnot (or_intror H)) _ _ Hl).
    apply build_step_shape in Hs.
    destruct (is_Shell annot); [now destruct Hs|].
    destruct Hs as (annottype & description & default & _ & Hs).
    destruct (String.eqb arg "return") eqn:Hret; [|now destruct Hs].
    apply String.eqb_eq in Hret. subst arg. exfalso. apply Hnot. now left.
Qed.
End Fields.

Lemma parse_annotated_origin (arg : string) (origin annottype : annotation)
  (metadata : list meta_item) (description : string) (default : pyval) :
  _parse_annotated_type arg (Annotated origin metadata)
  = Ok (annottype, description, default) ->
  annottype = origin.
Proof.
  unfold _parse_annotated_type. cbn [get_args].
  destruct metadata as [|[d v|d|v] [|m [|m' metadata]]];
    try discriminate; now intros [= <- _ _].
Qed.

(** X9. A parameter annotated with [Annotated[T, ...]] becomes a request
    field of type [T] whose description and default are the ones the
    metadata gives: neither the docstring nor the default the signature
    declares is used.  With a bare string as metadata the default is
    [None], so the field is optional whether or not the parameter has a
    default. *)
Theorem X9_annotated_metadata_decides_the_field (camelize : string -> string)
  (f : callable) (ep : entry_point) (Req Resp : model_class) (ros : bool)
  (p : parameter) (origin : annotation) (metadata : list meta_item) :
  wf_signature f = true ->
  _build_executable_from_args camelize f = Ok (ep, Req, Resp, ros) ->
  In p (f_parameters f) ->
  p_annotation p = Some (Annotated origin metadata) ->
  exists name ns description default,
    Req = Synthesized name ns
    /\ _parse_annotated_type (p_name p) (Annotated origin metadata)
       = Ok (origin, description, default)
    /\ dict_get (ns_fields ns) (p_name p) = Some (Field default description)
    /\ dict_get (ns_annotations ns) (p_name p) = Some origin
    /\ (forall d, metadata = [MStr d] -> description = d /\ default = VNone).
Proof.
  intros Hwf Hb Hin Ha.
  pose proof (annotations_distinct f Hwf) as Hd.
  destruct (build_executable_inv _ _ _ _ _ _ Hb)
    as (header & paramdesc & returns & st & _ & Hloop & -> & _).
  assert (Hret : String.eqb (p_name p) "return" = false).
  { apply String.eqb_neq. intros Heq.
    apply (return_not_a_parameter f Hwf). rewrite <- Heq.
    unfold keys. apply in_map_iff.
    exists (p_name p, Annotated origin metadata). split; [reflexivity|].
    apply in_param_annotations. now exists p. }
  assert (Hentry : In (p_name p, Annotated origin metadata)
                     (annotations (getfullargspec f))).
  { cbn [getfullargspec annotations]. apply in_or_app. right.
    apply in_param_annotations. now exists p. }
  destruct (build_loop_field paramdesc
              (signature_defaults (getfullargspec f)) returns
              (annotations (getfullargspec f)) (p_name p)
              (Annotated origin metadata) Hd Hentry eq_refl Hret _ _ Hloop)
    as (annottype & description & default & Hparse & Hfield & Hann).
  cbn [annotation_name String.eqb Ascii.eqb Bool.eqb] in Hparse.
  pose proof (parse_annotated_origin _ _ _ _ _ _ Hparse) as ->.
  eexists _, _, description, default.
  split; [reflexivity|]. split; [exact Hparse|].
  split; [exact Hfield|]. split; [exact Hann|].
  intros d ->. cbn in Hparse. now injection Hparse as <- <-.
Qed.

Lemma X9_witness :
  exists ns,
    dict_get (ns_fields ns) "query" = Some (Field VNone "Text to look for")
    /\ dict_get (ns_annotations ns) "query" = Some str_class.
Proof.
  destruct (X9_annotated_metadata_decides_the_field inflection_camelize
              search _ _ _ _
              (mkParam "query" POSITIONAL_OR_KEYWORD
                 (Some (Annotated str_class [MStr "Text to look for"]))
                 (Some (VStr "*")))
              str_class [MStr "Text to look for"]
              eq_refl eq_refl (or_introl eq_refl) eq_refl)
    as (name & ns & description & default & _ & _ & Hf & Ha & Hm).
  destruct (Hm _ eq_refl) as [-> ->].
  exists ns. split; [exact Hf | exact Ha].
Defined.

(** X10. The response model that [_build_executable_from_args] makes has
    one field when the callable has a return annotation (other than
    [Shell]) and none otherwise; the field is named by the [:return] line
    of the docstring, or [return] without one, and it is under this name
    that the closure [execute] passes the value the callable returned,
    when it is not a model instance, to the response model: what the
    response model makes of it, an instance or pydantic's
    [ValidationError], is the outcome of the invocation. *)
Theorem X10_response_field_is_the_one_execute_fills
  (camelize : string -> string) (f : callable) (ep : entry_point)
  (Req Resp : model_class) (ros : bool) :
  wf_signature f = true ->
  _build_executable_from_args camelize f = Ok (ep, Req, Resp, ros) ->
  exists shell header paramdesc returns,
    _parse_docstring (f_doc f) = Ok (header, paramdesc, returns)
    /\ ep = Execute f shell returns Resp header
    /\ let rname :=
         match returns with Some (name, _) => name | None => "return" end in
       model_fields Resp
       = match f_return f with
         | Some annot => if is_Shell annot then [] else [rname]
         | None => []
         end
       /\ forall construct request metadata kwargs response,
            execute_kwargs shell request metadata = Ok kwargs ->
            f_call f kwargs = Ok response ->
            is_model_instance response = false ->
            invoke construct ep request metadata
            = construct Resp [(rname, response)].
Proof.
  intros Hwf Hb.
  destruct (build_executable_inv _ _ _ _ _ _ Hb)
    as (header & paramdesc & returns & st & Hdoc & Hloop & _ & -> & -> & _).
  exists (shell_argument st), header, paramdesc, returns.
  split; [exact Hdoc|]. split; [reflexivity|]. cbn zeta. split.
  - cbn [model_fields].
    pose proof (return_not_a_parameter f Hwf) as Hnot.
    revert Hloop. cbn [getfullargspec annotations].
    destruct (f_return f) as [annot|]; cbn [app].
    + cbn [build_loop].
      destruct (build_step _ _ _ _ _) as [st1|e] eqn:Hs; cbn [bind];
        [|discriminate].
      intros Hl.
      rewrite (build_loop_response_kept _ _ _ _ Hnot _ _ Hl).
      apply build_step_shape in Hs.
      destruct (is_Shell annot); [now destruct Hs as [_ ->]|].
      destruct Hs as (annottype & description & default & _ & Hs).
      cbn [String.eqb Ascii.eqb Bool.eqb] in Hs. now destruct Hs as [_ ->].
    + intros Hl. now rewrite (build_loop_response_kept _ _ _ _ Hnot _ _ Hl).
  - intros construct request metadata kwargs response Hk Hc Hm.
    cbn [invoke]. rewrite Hk. cbn [bind]. rewrite Hc. cbn [bind].
    unfold execute_response. now rewrite Hm.
Qed.

Lemma X10_witness :
  exists Resp,
    model_fields Resp = ["path"]
    /\ exists ep,
         forall construct,
           invoke construct ep (VInstance "PwdRequest" [])
             [("workspace", VWorkspace (VShell 7))]
           = construct Resp [("path", VStr "/home/user")].
Proof.
  destruct (X10_response_field_is_the_one_execute_fills inflection_camelize
              pwd _ _ _ _ eq_refl eq_refl)
    as (shell & header & paramdesc & returns & Hdoc & Hep & Hfields & Hrun).
  injection Hdoc as <- <- <-. injection Hep as <-.
  eexists. split; [exact Hfields|]. eexists. intros construct.
  apply (Hrun construct (VInstance "PwdRequest" [])
           [("workspace", VWorkspace (VShell 7))]
           [("shell", VShell 7)]);
    reflexivity.
Defined.

(** Whether the loop recorded an argument says whether the callable has a
    [Shell] annotation. *)
Lemma last_shell_annotation (f : callable) :
  match last_shell (annotations (getfullargspec f)) None with
  | Some _ => true
  | None => false
  end = has_shell_annotation f.
Proof.
  cbn [getfullargspec annotations]. unfold last_shell.
  rewrite fold_left_app.
  fold (last_shell (flat_map param_annotation (f_parameters f))).
  rewrite last_shell_parameters. fold (shell_parameters f).
  unfold has_shell_annotation, has_shell_parameter.
  destruct (shell_parameters f) as [|s0 names] eqn:Hnames.
  - cbn [last_name fold_left orb].
    destruct (f_return f) as [[]|]; reflexivity.
  - rewrite last_name_nonempty by discriminate.
    assert (exists s, last (s0 :: names) = Some s) as [s ->].
    { clear. revert s0. induction names as [|n names IH]; intros s0.
      - now exists s0.
      - destruct (IH n) as [s Hs]. exists s. exact Hs. }
    reflexivity.
Qed.

(** X11. The closure [execute] reads the metadata only for a [Shell]
    annotation, on an argument or on the return value.  When the callable
    has none, the action is not marked as running on a shell and what an
    invocation returns or raises does not depend on the metadata; when it
    has one, the action is marked so and an invocation with a metadata
    that has no key [workspace] raises [KeyError], without calling the
    function. *)
Theorem X11_metadata_is_read_only_for_a_shell (camelize : string -> string)
  (f : callable) (ep : entry_point) (Req Resp : model_class) (ros : bool) :
  _build_executable_from_args camelize f = Ok (ep, Req, Resp, ros) ->
  (has_shell_annotation f = false ->
   ros = false
   /\ forall construct request metadata metadata',
        invoke construct ep request metadata
        = invoke construct ep request metadata')
  /\ (has_shell_annotation f = true ->
      ros = true
      /\ forall construct cls fields metadata,
           dict_get metadata "workspace" = None ->
           invoke construct ep (VInstance cls fields) metadata
           = Raise (KeyError "workspace")).
Proof.
  intros Hb.
  destruct (build_executable_inv _ _ _ _ _ _ Hb)
    as (header & paramdesc & returns & st & _ & Hloop & _ & _ & -> & ->).
  pose proof (build_loop_shell_argument _ _ _ _ _ _ Hloop) as Hsh.
  cbn [shell_argument] in Hsh.
  pose proof (last_shell_annotation f) as Hflag. rewrite <- Hsh in Hflag.
  rewrite <- Hflag. clear Hflag Hsh. split.
  - destruct (shell_argument st) as [s|]; [discriminate|]. intros _.
    split; [reflexivity|].
    intros construct request metadata metadata'. reflexivity.
  - destruct (shell_argument st) as [s|]; [|discriminate]. intros _.
    split; [reflexivity|].
    intros construct cls fields metadata Hws.
    cbn [invoke execute_kwargs model_dump bind].
    unfold recent_shell, getitem. now rewrite Hws.
Qed.

Lemma X11_witness :
  (exists ep,
     forall construct request metadata metadata',
       invoke construct ep request metadata
       = invoke construct ep request metadata')
  /\ (exists ep,
        forall construct,
          invoke construct ep
            (VInstance "GotoRequest" [("line_number", VInt 10)]) []
          = Raise (KeyError "workspace"))
  /\ has_shell_parameter current = false
  /\ exists ep,
       forall construct,
         invoke construct ep
           (VInstance "CurrentRequest" [("name", VStr "main")]) []
         = Raise (KeyError "workspace").
Proof.
  split; [|split; [|split; [reflexivity|]]].
  - destruct (X11_metadata_is_read_only_for_a_shell inflection_camelize
                listing _ _ _ _ eq_refl) as [Hplain _].
    destruct (Hplain eq_refl) as [_ H].
    eexists. exact H.
  - destruct (X11_metadata_is_read_only_for_a_shell inflection_camelize
                goto _ _ _ _ eq_refl) as [_ Hshell].
    destruct (Hshell eq_refl) as [_ H].
    eexists. intros construct. apply H. reflexivity.
  - destruct (X11_metadata_is_read_only_for_a_shell inflection_camelize
                current _ _ _ _ eq_refl) as [_ Hshell].
    destruct (Hshell eq_refl) as [_ H].
    eexists. intros construct. apply H. reflexivity.
Defined.

(** *** The test for the simple path *)

(** X12. [_is_simple_action] leaves the simple path aside only when the
    callable has neither a positional [request_data] nor a positional
    [metadata].  A callable that has one of them, and no annotated
    parameter named [request_data], is therefore not compiled from its
    arguments: [_parse_schemas] raises [KeyError] for [request_data]. *)
Theorem X12_metadata_argument_needs_request_data
  (camelize : string -> string) (f : callable) (runs_on_shell : bool)
  (q : parameter) :
  In q (f_parameters f) ->
  is_positional (p_kind q) = true ->
  p_name q = "metadata" \/ p_name q = "request_data" ->
  (forall p annot,
     In p (f_parameters f) -> p_annotation p = Some annot ->
     p_name p <> "request_data") ->
  _parse_schemas camelize f runs_on_shell = Raise (KeyError "request_data").
Proof.
  intros Hq Hpos Hname Hnone.
  assert (Hargs : In (p_name q) (args (getfullargspec f))).
  { cbn [getfullargspec args]. apply in_map. apply filter_In. now split. }
  assert (Htest : negb (mem "request_data" (args (getfullargspec f)))
                  && negb (mem "metadata" (args (getfullargspec f)))
                  = false).
  { apply andb_false_iff. destruct Hname as [Hn|Hn]; rewrite Hn in Hargs.
    - right. apply negb_false_iff. now apply mem_In.
    - left. apply negb_false_iff. now apply mem_In. }
  assert (Hget : dict_get (annotations (getfullargspec f)) "request_data"
                 = None).
  { apply dict_get_absent. cbn [getfullargspec annotations].
    unfold keys. rewrite map_app, in_app_iff. intros [Hin|Hin].
    - destruct (f_return f); cbn in Hin; [|contradiction].
      destruct Hin as [Hin|[]]. discriminate Hin.
    - apply param_annotation_keys in Hin.
      destruct Hin as (p & annot & Hp & Hn & Ha).
      now apply (Hnone p annot Hp Ha). }
  unfold _parse_schemas, _is_simple_action. rewrite Htest.
  unfold getitem at 1. rewrite Hget. reflexivity.
Qed.

Lemma X12_witness :
  _parse_schemas inflection_camelize notify false
  = Raise (KeyError "request_data").
Proof.
  apply (X12_metadata_argument_needs_request_data inflection_camelize notify
           false (mkParam "metadata" POSITIONAL_OR_KEYWORD (Some dict_class)
                    None)).
  - right. now left.
  - reflexivity.
  - now left.
  - intros p annot [<-|[<-|[]]] _; discriminate.
Defined.

(** *** The registry as a whole *)

Lemma attach_actions_other (tool_name tool_enum : string)
  (actions : list nat) (r : nat) :
  r ∉ actions ->
  forall h d,
    fst (fold_left (attach_action tool_name tool_enum) actions (h, d)) !! r
    = h !! r.
Proof.
  induction actions as [|action actions IH]; intros Hnot h d;
    [reflexivity|].
  cbn [fold_left].
  destruct (attach_action tool_name tool_enum (h, d) action) as [h1 d1] eqn:E.
  rewrite IH by (intros Hin; apply Hnot; now right).
  replace h1 with (fst (attach_action tool_name tool_enum (h, d) action))
    by now rewrite E.
  rewrite attach_action_heap.
  destruct (h !! r) as [a|]; [|reflexivity]. cbn.
  rewrite decide_False; [reflexivity|].
  intros ->. apply Hnot. now left.
Qed.

Lemma attach_actions_data (tool_name tool_enum : string)
  (actions : list nat) :
  forall h d r,
    a_data <$> fst (fold_left (attach_action tool_name tool_enum) actions (h, d)) !! r
    = a_data <$> h !! r.
Proof.
  induction actions as [|action actions IH]; intros h d r; [reflexivity|].
  cbn [fold_left].
  destruct (attach_action tool_name tool_enum (h, d) action) as [h1 d1] eqn:E.
  rewrite IH.
  replace h1 with (fst (attach_action tool_name tool_enum (h, d) action))
    by now rewrite E.
  rewrite attach_action_heap.
  destruct (h !! r) as [a|]; [|reflexivity]. cbn.
  now destruct (decide (r = action)).
Qed.

Lemma prefixed_namespaced (n : nat) (prefix : option string)
  (enum : string) :
  prefixed n prefix (namespaced prefix enum)
  = namespaced prefix (prefixed n prefix enum).
Proof.
  induction n as [|n IH]; cbn [prefixed]; [reflexivity | now rewrite IH].
Qed.

Section RegistryInvariant.
Variable camelize : string -> string.
Variable underscore : string -> string.
Variable humanize : string -> string.
Variable inherited : string -> option string.

Let create := _create_tool_class camelize underscore humanize inherited.
Let reg := register camelize underscore humanize inherited.
Let reg_all := register_all camelize underscore humanize inherited.
Let prefix := tool_enum camelize underscore inherited.

Lemma create_other (name : string) (actions : list nat)
  (h : list action_class) (r : nat) :
  r ∉ actions -> fst (create name actions h) !! r = h !! r.
Proof.
  intros Hnot. unfold create, _create_tool_class, RuntimeToolMeta_init.
  destruct (String.eqb (camelize name) "RuntimeTool"); [reflexivity|].
  destruct (fold_left _ actions (h, [])) as [h' d'] eqn:E. cbn [fst].
  replace h' with (fst (fold_left
    (attach_action
       (or_else (inherited "mame") (underscore (camelize name)))
       (upper (or_else (inherited "enum")
                 (or_else (inherited "mame")
                    (underscore (camelize name))))))
    actions (h, []))) by now rewrite E.
  now apply attach_actions_other.
Qed.

Lemma create_data (name : string) (actions : list nat)
  (h : list action_class) (r : nat) :
  a_data <$> fst (create name actions h) !! r = a_data <$> h !! r.
Proof.
  unfold create, _create_tool_class, RuntimeToolMeta_init.
  destruct (String.eqb (camelize name) "RuntimeTool"); [reflexivity|].
  destruct (fold_left _ actions (h, [])) as [h' d'] eqn:E. cbn [fst].
  replace h' with (fst (fold_left
    (attach_action
       (or_else (inherited "mame") (underscore (camelize name)))
       (upper (or_else (inherited "enum")
                 (or_else (inherited "mame")
                    (underscore (camelize name))))))
    actions (h, []))) by now rewrite E.
  apply attach_actions_data.
Qed.

Lemma register_registered (toolname : string) (r : registration)
  (st : state) (t : string) :
  registered_actions (fst (reg toolname r st)) t
  = if decide (t = toolname)
    then length (heap st) :: registered_actions st toolname
    else registered_actions st t.
Proof.
  unfold reg, register. destruct (decide (t = toolname)) as [->|Hne].
  - apply wrap_registered.
  - now apply wrap_registered_other.
Qed.

Lemma register_wf (toolname : string) (r : registration) (st : state) :
  wf_state st -> wf_state (fst (reg toolname r st)).
Proof.
  intros (Hnd & Hvalid & Hdisj).
  assert (Hlen : length (heap (fst (reg toolname r st)))
                 = S (length (heap st))) by apply wrap_length.
  assert (Hnew : forall t, length (heap st) ∉ registered_actions st t).
  { intros t Hin. apply Hvalid in Hin. lia. }
  split; [|split].
  - intros t. rewrite register_registered.
    destruct (decide (t = toolname)) as [->|Hne]; [|apply Hnd].
    constructor; [apply Hnew | apply Hnd].
  - intros t ref. rewrite register_registered, Hlen.
    destruct (decide (t = toolname)) as [->|Hne].
    + intros Hin. apply elem_of_cons in Hin. destruct Hin as [->|Hin]; [lia|].
      apply Hvalid in Hin. lia.
    + intros Hin. apply Hvalid in Hin. lia.
  - intros t t' ref. rewrite !register_registered.
    destruct (decide (t = toolname)) as [->|Hne];
      destruct (decide (t' = toolname)) as [->|Hne']; try reflexivity.
    + intros Hin Hin'. apply elem_of_cons in Hin.
      destruct Hin as [->|Hin]; [now apply Hnew in Hin'|].
      apply (Hdisj _ _ _ Hin Hin').
    + intros Hin Hin'. apply elem_of_cons in Hin'.
      destruct Hin' as [->|Hin']; [now apply Hnew in Hin|].
      apply (Hdisj _ _ _ Hin Hin').
    + apply Hdisj.
Qed.

Lemma register_enums (toolname : string) (r : registration) (st : state)
  (ref : nat) :
  wf_state st ->
  a_enum <$> heap (fst (reg toolname r st)) !! ref
  = if decide (ref = length (heap st)) then
      Some (namespaced (prefix toolname) (upper (entry_name (r_entry r))))
    else
      (fun a => if decide (ref ∈ registered_actions st toolname)
                then namespaced (prefix toolname) (a_enum a)
                else a_enum a) <$> heap st !! ref.
Proof.
  intros (Hnd & Hvalid & _). unfold reg, register.
  apply wrap_enums; [apply Hnd | apply Hvalid].
Qed.

Lemma register_other (toolname : string) (r : registration) (st : state)
  (ref : nat) :
  ref ∉ registered_actions st toolname ->
  ref <> length (heap st) ->
  heap (fst (reg toolname r st)) !! ref = heap st !! ref.
Proof.
  intros Hnot Hne. unfold reg, register.
  destruct (wrap_unfold camelize underscore humanize inherited (r_entry r)
              toolname (r_tags r) (r_file r) (r_request r) (r_response r)
              (r_runs_on_shell r) (r_requires r) st)
    as (cls & _ & _ & _ & -> & _).
  fold create. rewrite create_other.
  - destruct (decide (ref < length (heap st))) as [Hlt|Hge].
    + now rewrite lookup_app_l.
    + rewrite !lookup_ge_None_2; [reflexivity | lia |].
      rewrite length_app. cbn. lia.
  - intros Hin. apply elem_of_cons in Hin. tauto.
Qed.

Lemma register_log (toolname : string) (r : registration) (st : state) :
  wf_state st ->
  runtime_actions (fst (reg toolname r st))
  = runtime_actions st
    ++ [(namespaced (prefix toolname) (upper (entry_name (r_entry r))),
         mkActionData (entry_name (r_entry r)) toolname (r_tags r)
           true true true (r_runs_on_shell r))].
Proof.
  intros Hwf.
  pose proof (register_enums toolname r st (length (heap st)) Hwf) as He.
  rewrite decide_True in He by reflexivity.
  revert He. unfold reg, register, _wrap. fold create.
  set (cls := mkAction _ _ _ _ _ _ _ _ _ _ _ _ _ _).
  pose proof (create_data toolname
                (length (heap st) :: registered_actions st toolname)
                (heap st ++ [cls]) (length (heap st))) as Hd.
  rewrite list_lookup_middle in Hd by reflexivity.
  destruct (create toolname _ _) as [h tool]. cbn [fst snd heap runtime_actions] in *.
  destruct (h !! length (heap st)) as [a|]; [|discriminate].
  cbn in Hd |- *. intros [= ->]. injection Hd as ->. reflexivity.
Qed.

Lemma register_all_wf (toolname : string) (rs : list registration) :
  forall st, wf_state st -> wf_state (fst (reg_all toolname rs st)).
Proof.
  induction rs as [|r rs IH]; intros st Hwf; [exact Hwf|].
  unfold reg_all. cbn [register_all].
  pose proof (register_wf toolname r st Hwf) as Hwf1. unfold reg in Hwf1.
  destruct (register camelize underscore humanize inherited toolname r st)
    as [st1 ref].
  specialize (IH st1 Hwf1). unfold reg_all in IH.
  destruct (register_all camelize underscore humanize inherited toolname
              rs st1) as [st2 refs].
  exact IH.
Qed.

Lemma register_all_enums (toolname : string) (rs : list registration) :
  forall st,
    wf_state st ->
    (forall ref,
       ref ∈ registered_actions st toolname ->
       a_enum <$> heap (fst (reg_all toolname rs st)) !! ref
       = prefixed (length rs) (prefix toolname)
           <$> (a_enum <$> heap st !! ref))
    /\ (forall k ref r,
          snd (reg_all toolname rs st) !! k = Some ref ->
          rs !! k = Some r ->
          a_enum <$> heap (fst (reg_all toolname rs st)) !! ref
          = Some (prefixed (length rs - k) (prefix toolname)
                    (upper (entry_name (r_entry r))))).
Proof.
  induction rs as [|r rs IH]; intros st Hwf.
  - split.
    + intros ref _. cbn. now destruct (heap st !! ref).
    + intros k ref r' _ Hk. discriminate Hk.
  - pose proof (register_wf toolname r st Hwf) as Hwf1.
    pose proof (fun ref => register_enums toolname r st ref Hwf) as He.
    pose proof (register_registered toolname r st toolname) as Hreg.
    rewrite decide_True in Hreg by reflexivity.
    assert (Href : snd (reg toolname r st) = length (heap st)).
    { unfold reg, register.
      destruct (wrap_unfold camelize underscore humanize inherited
                  (r_entry r) toolname (r_tags r) (r_file r) (r_request r)
                  (r_response r) (r_runs_on_shell r) (r_requires r) st)
        as (_ & _ & _ & H & _). exact H. }
    unfold reg_all. cbn [register_all]. unfold reg in *.
    destruct (register camelize underscore humanize inherited toolname r st)
      as [st1 ref1].
    cbn [fst snd] in *. subst ref1.
    destruct (IH st1 Hwf1) as [IHold IHnew]. unfold reg_all in *.
    destruct (register_all camelize underscore humanize inherited toolname
                rs st1) as [st2 refs].
    cbn [fst snd length] in *.
    destruct Hwf as (_ & Hvalid & _).
    split.
    + intros ref Hin.
      rewrite IHold by (rewrite Hreg; now right).
      rewrite He. rewrite decide_False by (apply Hvalid in Hin; lia).
      destruct (heap st !! ref) as [a|]; [|reflexivity]. cbn.
      rewrite decide_True by exact Hin.
      now rewrite prefixed_namespaced.
    + intros [|k] ref r' Hk Hr; cbn in Hk, Hr.
      * injection Hk as <-. injection Hr as <-.
        rewrite IHold by (rewrite Hreg; now left).
        rewrite He, decide_True by reflexivity. cbn.
        now rewrite prefixed_namespaced.
      * now apply IHnew.
Qed.
End RegistryInvariant.

Lemma initial_state_wf : wf_state initial_state.
Proof.
  assert (H : forall t, registered_actions initial_state t = [])
    by reflexivity.
  split; [|split].
  - intros t. rewrite H. constructor.
  - intros t r. rewrite H. intros Hin. now apply not_elem_of_nil in Hin.
  - intros t t' r. rewrite H. intros Hin. now apply not_elem_of_nil in Hin.
Qed.

(** X13. The registry stays consistent: in the initial state, and after
    every registration from a consistent state, the lists of the tools
    hold valid references, none twice and none under two tools.  A
    registration under one tool name leaves every class that is not
    listed under this name exactly as it was, leaves the tool classes
    registered under the other names in place, and reports to
    [add_runtime_action] one more entry: the new class under the enum it
    has at that moment, namespaced once, with its action data. *)
Theorem X13_registration_keeps_the_registry_consistent
  (camelize underscore humanize : string -> string)
  (inherited : string -> option string) :
  wf_state initial_state
  /\ forall (toolname : string) (r : registration) (st : state),
       wf_state st ->
       let st' := fst (register camelize underscore humanize inherited
                         toolname r st) in
       wf_state st'
       /\ (forall ref,
             ref ∉ registered_actions st toolname ->
             ref <> length (heap st) ->
             heap st' !! ref = heap st !! ref)
       /\ (forall other,
             other <> toolname ->
             registry_runtime st' !! other = registry_runtime st !! other)
       /\ runtime_actions st'
          = runtime_actions st
            ++ [(namespaced (tool_enum camelize underscore inherited toolname)
                   (upper (entry_name (r_entry r))),
                 mkActionData (entry_name (r_entry r)) toolname (r_tags r)
                   true true true (r_runs_on_shell r))].
Proof.
  split; [exact initial_state_wf|].
  intros toolname r st Hwf st'. subst st'.
  split; [now apply register_wf|].
  split; [intros ref; apply register_other|].
  split; [|now apply register_log].
  intros other Hne. unfold register.
  destruct (wrap_unfold camelize underscore humanize inherited (r_entry r)
              toolname (r_tags r) (r_file r) (r_request r) (r_response r)
              (r_runs_on_shell r) (r_requires r) st)
    as (cls & _ & _ & _ & _ & ->).
  now rewrite lookup_insert_ne by congruence.
Qed.

(** X14. Every registration under a tool name puts the enum of the tool
    once more in front of the enum of every class listed under the name.
    After a sequence of registrations under one name, from a consistent
    state, a class that was listed before carries as many more prefixes
    as there were registrations, and the class of the [k]-th registration
    (from 0) of [n] carries [n - k] of them: only the last one has the
    enum that was reported for it. *)
Theorem X14_enum_grows_with_every_registration
  (camelize underscore humanize : string -> string)
  (inherited : string -> option string) (toolname : string)
  (rs : list registration) (st : state) :
  wf_state st ->
  let result := register_all camelize underscore humanize inherited
                  toolname rs st in
  let prefix := tool_enum camelize underscore inherited toolname in
  wf_state (fst result)
  /\ (forall ref,
        ref ∈ registered_actions st toolname ->
        a_enum <$> heap (fst result) !! ref
        = prefixed (length rs) prefix <$> (a_enum <$> heap st !! ref))
  /\ (forall k ref r,
        snd result !! k = Some ref ->
        rs !! k = Some r ->
        a_enum <$> heap (fst result) !! ref
        = Some (prefixed (length rs - k) prefix
                  (upper (entry_name (r_entry r))))).
Proof.
  intros Hwf result prefix. subst result prefix.
  split; [now apply register_all_wf|].
  now apply register_all_enums.
Qed.

Lemma X14_witness :
  wf_state initial_state
  /\ a_enum
       <$> heap (fst (register_all inflection_camelize (fun s => s)
                        (fun s => s) (fun _ => None) "tool"
                        [simple_registration fetch; simple_registration store;
                         simple_registration run]
                        initial_state)) !! 0
     = Some "TOOL_TOOL_TOOL_FETCH".
Proof.
  split; [exact initial_state_wf|].
  destruct (X14_enum_grows_with_every_registration inflection_camelize
              (fun s => s) (fun s => s) (fun _ => None) "tool"
              [simple_registration fetch; simple_registration store;
               simple_registration run]
              initial_state initial_state_wf) as (_ & _ & Hnew).
  exact (Hnew 0 0 (simple_registration fetch) eq_refl eq_refl).
Defined.

(** *** The decorator *)

(** The flag [_build_executable_from_args] returns. *)
Lemma compiled_flag (camelize : string -> string) (f : callable)
  (ep : entry_point) (Req Resp : model_class) (ros : bool) :
  _build_executable_from_args camelize f = Ok (ep, Req, Resp, ros) ->
  ros = has_shell_annotation f /\ entry_name ep = f_name f.
Proof.
  intros Hb.
  destruct (build_executable_inv _ _ _ _ _ _ Hb)
    as (header & paramdesc & returns & st & _ & Hloop & _ & _ & -> & ->).
  split; [|reflexivity].
  pose proof (build_loop_shell_argument _ _ _ _ _ _ Hloop) as Hsh.
  cbn [shell_argument] in Hsh. rewrite Hsh. apply last_shell_annotation.
Qed.

(** The flag and the entry point [_parse_schemas] returns. *)
Lemma parsed_flag (camelize : string -> string) (f : callable)
  (runs_on_shell : bool) (ep : entry_point) (Req Resp : model_class)
  (ros : bool) :
  _parse_schemas camelize f runs_on_shell = Ok (ep, Req, Resp, ros) ->
  ros = (if on_simple_path f then runs_on_shell else has_shell_annotation f)
  /\ entry_name ep = f_name f.
Proof.
  unfold _parse_schemas, _is_simple_action, on_simple_path.
  destruct (mem "request_data" (args (getfullargspec f)));
    destruct (mem "metadata" (args (getfullargspec f)));
    cbn [negb andb orb bind];
    try (destruct (getitem (annotations (getfullargspec f)) "request_data")
           as [request_data|e]; cbn [bind]; [|discriminate];
         destruct (issubclass_BaseModel request_data) as [[|]|e];
           cbn [bind negb]; try discriminate;
         destruct (getitem (annotations (getfullargspec f)) "return")
           as [ret|e]; cbn [bind]; [|discriminate];
         destruct (issubclass_BaseModel ret) as [[|]|e];
           cbn [bind negb]; try discriminate;
         intros [= <- _ _ <-]; now split).
  apply compiled_flag.
Qed.

(** X21. What the decorator [action] reports for the callable it wraps:
    the name of the callable, the tool name as the app, the tags (none
    when they are not given) and, as [shell], the argument
    [runs_on_shell] only on the simple path; for a callable that is
    compiled from its arguments the argument is not read, and the flag
    says whether the signature has a [Shell] annotation, on a parameter or
    on the return value. *)
Theorem X21_shell_flag_comes_from_the_signature
  (camelize underscore humanize : string -> string)
  (inherited : string -> option string) (toolname : string)
  (runs_on_shell : bool) (tags : option (list string))
  (requires : option (list string)) (f : callable) (st st' : state)
  (ref : nat) :
  wf_state st ->
  action camelize underscore humanize inherited toolname runs_on_shell tags
    requires f st = Ok (st', ref) ->
  wf_state st'
  /\ registered_actions st' toolname = ref :: registered_actions st toolname
  /\ runtime_actions st'
     = runtime_actions st
       ++ [(namespaced (tool_enum camelize underscore inherited toolname)
              (upper (f_name f)),
            mkActionData (f_name f) toolname (or_else tags []) true true true
              (if on_simple_path f then runs_on_shell
               else has_shell_annotation f))].
Proof.
  intros Hwf. unfold action.
  destruct (_parse_schemas camelize f runs_on_shell)
    as [[[[ep Req] Resp] ros]|e] eqn:Hp; cbn [bind]; [|discriminate].
  destruct (parsed_flag _ _ _ _ _ _ _ Hp) as [-> Hname].
  set (r := mkRegistration ep (or_else tags []) (f_file f) Req Resp
              (if on_simple_path f then runs_on_shell
               else has_shell_annotation f) requires).
  change (_wrap camelize underscore humanize inherited ep toolname
            (or_else tags []) (f_file f) Req Resp
            (if on_simple_path f then runs_on_shell
             else has_shell_annotation f) requires st)
    with (register camelize underscore humanize inherited toolname r st).
  intros [= Hst].
  assert (Hfst : st' = fst (register camelize underscore humanize inherited
                              toolname r st)) by now rewrite Hst.
  assert (Hsnd : ref = snd (register camelize underscore humanize inherited
                              toolname r st)) by now rewrite Hst.
  clear Hst. subst st'.
  split; [now apply register_wf|]. split.
  - rewrite register_registered, decide_True by reflexivity.
    f_equal. subst ref. unfold register.
    destruct (wrap_unfold camelize underscore humanize inherited (r_entry r)
                toolname (r_tags r) (r_file r) (r_request r) (r_response r)
                (r_runs_on_shell r) (r_requires r) st)
      as (_ & _ & _ & H & _). now rewrite H.
  - rewrite register_log by exact Hwf. subst r. cbn [r_entry r_tags r_runs_on_shell].
    now rewrite Hname.
Qed.

Lemma X21_witness :
  exists st' ref,
    action inflection_camelize (fun s => s) (fun s => s) (fun _ => None)
      "files" false None None tail initial_state = Ok (st', ref)
    /\ runtime_actions st'
       = [("FILES_TAIL",
           mkActionData "tail" "files" [] true true true true)].
Proof.
  eexists _, _. split; [reflexivity|].
  destruct (X21_shell_flag_comes_from_the_signature inflection_camelize
              (fun s => s) (fun s => s) (fun _ => None) "files" false None
              None tail initial_state _ _ initial_state_wf eq_refl)
    as (_ & _ & Hlog).
  exact Hlog.
Defined.

(** *** The execution-context argument *)





(** *** What compilation raises *)











End RuntimeProofs.

(** * Properties of the repository-map action *)

Module RepoMapProofs.
Import RepoMap.

Example project_map :
  execute project_fs (request_for "/project")
  = Ok [("status", VStr "success");
        ("repository_map", VStr "main.py");
        ("error_message", VNone)].
Proof. reflexivity. Qed.

Example missing_directory :
  execute project_fs (request_for "/nowhere")
  = Ok [("error_message",
         VStr "Repository root path '/nowhere' does not exist or is inaccessible.")].
Proof. reflexivity. Qed.

Example broken_directory :
  execute project_fs (request_for "/broken")
  = Ok [("repository_map", VNone);
        ("error_message",
         VStr "An error occurred while generating the repository map: [Errno 13] Permission denied. Please ensure all paths are correct and you have necessary permissions.")].
Proof. reflexivity. Qed.

Lemma failure_message_contains (e : exn) :
  contains (exc_text e) (failure_message e) = true.
Proof.
  unfold contains, failure_message. rewrite !chars_append.
  apply contains_chars_middle.
Qed.

Lemma generate_success (env : environment) (request : GetRepoMapRequest)
  (repo_root : string) (response : list (string * pyval)) :
  generate env request repo_root = Ok response ->
  exists generated_map,
    response = [("status", VStr "success");
                ("repository_map", generated_map);
                ("error_message", VNone)].
Proof.
  unfold generate.
  destruct (get_files_excluding_gitignore env repo_root); cbn [bind];
    [|discriminate].
  destruct (comprehension _ _); cbn [bind]; [|discriminate].
  destruct (get_repo_map env repo_root _ _ _ _) as [generated_map|];
    cbn [bind]; [|discriminate].
  intros [= <-]. now exists generated_map.
Qed.

(** C9, as the code has it.  With [repo_root] the resolved directory:
    (1) if it does not exist, [execute] returns a result whose only entry
    is the [error_message] saying so;
    (2) if generating the map returns, [execute] returns [status]
    ["success"], the map, and [error_message] [None];
    (3) if generating the map raises an exception that derives from
    [Exception], [execute] returns [repository_map] [None] and an
    [error_message] that contains the text of the exception;
    (4) [execute] does raise, and then exactly the exception that
    resolving the directory raised, or that the existence test raised, or
    that generating the map raised when it does not derive from
    [Exception]: the first two happen before the [try] block. *)
Theorem C9_exceptions_inside_try_are_reported (env : environment)
  (request : GetRepoMapRequest) :
  (forall repo_root,
     resolve env (code_directory request) = Ok repo_root ->
     path_exists env repo_root = Ok false ->
     execute env request
     = Ok [("error_message", VStr (missing_message repo_root))])
  /\ (forall repo_root response,
        resolve env (code_directory request) = Ok repo_root ->
        path_exists env repo_root = Ok true ->
        generate env request repo_root = Ok response ->
        execute env request = Ok response
        /\ dict_get response "status" = Some (VStr "success")
        /\ dict_get response "error_message" = Some VNone)
  /\ (forall repo_root e,
        resolve env (code_directory request) = Ok repo_root ->
        path_exists env repo_root = Ok true ->
        generate env request repo_root = Raise e ->
        exc_is_Exception e = true ->
        execute env request
        = Ok [("repository_map", VNone);
              ("error_message", VStr (failure_message e))]
        /\ contains (exc_text e) (failure_message e) = true)
  /\ (forall e,
        execute env request = Raise e <->
        resolve env (code_directory request) = Raise e
        \/ (exists repo_root,
              resolve env (code_directory request) = Ok repo_root
              /\ path_exists env repo_root = Raise e)
        \/ (exists repo_root,
              resolve env (code_directory request) = Ok repo_root
              /\ path_exists env repo_root = Ok true
              /\ generate env request repo_root = Raise e
              /\ exc_is_Exception e = false)).
Proof.
  unfold execute. split; [|split; [|split]].
  - intros repo_root Hres Hex. rewrite Hres. cbn [bind]. now rewrite Hex.
  - intros repo_root response Hres Hex Hg. rewrite Hres. cbn [bind].
    rewrite Hex. cbn [bind negb]. rewrite Hg.
    destruct (generate_success _ _ _ _ Hg) as [m ->].
    split; [reflexivity|]. split; reflexivity.
  - intros repo_root e Hres Hex Hg Hcls. rewrite Hres. cbn [bind].
    rewrite Hex. cbn [bind negb]. rewrite Hg. cbn [try_except].
    rewrite Hcls. split; [reflexivity | apply failure_message_contains].
  - intros e. split.
    + destruct (resolve env (code_directory request)) as [repo_root|e0];
        cbn [bind]; [|intros [= ->]; now left].
      destruct (path_exists env repo_root) as [[|]|e0] eqn:Hex;
        cbn [bind negb].
      * unfold try_except.
        destruct (generate env request repo_root) as [response|e0] eqn:Hg;
          [discriminate|].
        destruct (exc_is_Exception e0) eqn:Hcls; [discriminate|].
        intros [= ->]. right. right. now exists repo_root.
      * discriminate.
      * intros [= ->]. right. left. now exists repo_root.
    + intros [Hres|[[repo_root [Hres Hex]]|[repo_root (Hres & Hex & Hg & Hcls)]]].
      * now rewrite Hres.
      * rewrite Hres. cbn [bind]. now rewrite Hex.
      * rewrite Hres. cbn [bind]. rewrite Hex. cbn [bind negb].
        rewrite Hg. cbn [try_except]. now rewrite Hcls.
Qed.

(** On [project_fs]: the directory [/nowhere] is missing, and generating
    the map of [/broken] raises a [PermissionError]. *)
Lemma C9_witness :
  execute project_fs (request_for "/nowhere")
  = Ok [("error_message", VStr (missing_message "/nowhere"))]
  /\ execute project_fs (request_for "/broken")
     = Ok [("repository_map", VNone);
           ("error_message",
            VStr (failure_message
                    (mkExn "PermissionError" "[Errno 13] Permission denied"
                       true)))]
  /\ execute project_fs (request_for "/project")
     = Ok [("status", VStr "success");
           ("repository_map", VStr "main.py");
           ("error_message", VNone)].
Proof.
  split; [|split].
  - destruct (C9_exceptions_inside_try_are_reported project_fs
                (request_for "/nowhere")) as (Hmissing & _).
    apply Hmissing; reflexivity.
  - destruct (C9_exceptions_inside_try_are_reported project_fs
                (request_for "/broken")) as (_ & _ & Hraise & _).
    apply (Hraise "/broken"); reflexivity.
  - destruct (C9_exceptions_inside_try_are_reported project_fs
                (request_for "/project")) as (_ & Hsuccess & _).
    apply (Hsuccess "/project"); reflexivity.
Defined.

(** C9 as the specification states it fails on [looping_fs]: resolving
    the directory raises before the [try] block is entered, and [execute]
    lets the exception through to its caller. *)
Lemma C9_counterexample :
  execute looping_fs (request_for "/srv/repo")
  = Raise (RuntimeError "Symlink loop from '/srv/repo'").
Proof. reflexivity. Qed.

(** *** What a caller can read off the response *)

(** X19. Whenever [execute] returns, the response has the key
    [error_message], and its value is [None] exactly when the response
    has [status] ["success"], which is exactly when it carries a map
    under [repository_map]; in the two other responses the message is a
    string and there is no [status] at all, and in the one for a missing
    directory there is no [repository_map] either. *)
Theorem X19_error_message_tells_success (env : environment)
  (request : GetRepoMapRequest) (response : list (string * pyval)) :
  execute env request = Ok response ->
  (exists message, dict_get response "error_message" = Some message)
  /\ (dict_get response "error_message" = Some VNone
      <-> dict_get response "status" = Some (VStr "success"))
  /\ (dict_get response "status" = None
      \/ dict_get response "status" = Some (VStr "success"))
  /\ (dict_get response "status" = None ->
      (exists text, dict_get response "error_message" = Some (VStr text))
      /\ (dict_get response "repository_map" = None
          \/ dict_get response "repository_map" = Some VNone))
  /\ (dict_get response "status" = Some (VStr "success") ->
      exists repo_root generated_map,
        resolve env (code_directory request) = Ok repo_root
        /\ generate env request repo_root = Ok response
        /\ dict_get response "repository_map" = Some generated_map).
Proof.
  unfold execute.
  destruct (resolve env (code_directory request)) as [repo_root|e] eqn:Hres;
    cbn [bind]; [|discriminate].
  destruct (path_exists env repo_root) as [[|]|e]; cbn [bind negb];
    [| |discriminate].
  - unfold try_except.
    destruct (generate env request repo_root) as [made|e] eqn:Hg.
    + intros [= <-]. destruct (generate_success _ _ _ _ Hg) as [m ->].
      split; [now exists VNone|]. split; [now split|].
      split; [now right|]. split; [discriminate|].
      intros _. exists repo_root, m. repeat split; assumption.
    + destruct (exc_is_Exception e); [|discriminate].
      intros [= <-]. cbn.
      split; [eexists; reflexivity|]. split; [split; discriminate|].
      split; [now left|]. split; [|discriminate].
      intros _. split; [eexists; reflexivity | now right].
  - intros [= <-]. cbn.
    split; [eexists; reflexivity|]. split; [split; discriminate|].
    split; [now left|]. split; [|discriminate].
    intros _. split; [eexists; reflexivity | now left].
Qed.

Lemma X19_witness :
  dict_get [("repository_map", VNone);
            ("error_message",
             VStr (failure_message
                     (mkExn "PermissionError" "[Errno 13] Permission denied"
                        true)))] "status" = None
  /\ (dict_get [("status", VStr "success");
                ("repository_map", VStr "main.py");
                ("error_message", VNone)] "error_message" = Some VNone
      <-> dict_get [("status", VStr "success");
                    ("repository_map", VStr "main.py");
                    ("error_message", VNone)] "status"
          = Some (VStr "success")).
Proof.
  split; [reflexivity|].
  destruct (X19_error_message_tells_success project_fs
              (request_for "/project") _ eq_refl) as (_ & Hiff & _).
  exact Hiff.
Defined.

End RepoMapProofs.

(** * Properties of the workspace commands *)

Module CmdsProofs.
Import Cmds.

Example create_notes :
  CreateFileCmd_execute logging_communicate plain_output attached_action
    (mkCreateFileRequest "ws-1" (Some "notes.txt"))
  = mkOutcome (Ok (mkResponse "BaseResponse" (VStr "") 0))
      (mkActionState (Some ["create notes.txt"]) "ws-1" "" None)
      ["create notes.txt"].
Proof. reflexivity. Qed.

Lemma blank_not_valid (file_name : option string) :
  blank file_name = true -> validate_file_name file_name = false.
Proof.
  destruct file_name as [name|]; cbn [blank validate_file_name];
    [|reflexivity].
  intros H. now rewrite (strip_blank _ H).
Qed.

(** C10, as the code has it.  For a request whose [file_name] is [None],
    empty or white space only: when a workspace is attached to the action,
    [execute] returns the response [Exception: file-name can not be empty]
    with return code 1, sends no command, and leaves the workspace as it
    was (the instance only records the request's [workspace_id]); when
    none is attached, [_setup] raises [ValueError] first, and again no
    command is sent. *)
Theorem C10_blank_file_name_is_rejected (Workspace : Type)
  (communicate : Workspace -> string -> result BaseCmdResponse * Workspace)
  (process_output : pyval -> Z -> result (pyval * Z))
  (self : action_state Workspace) (request : CreateFileRequest) :
  blank (file_name request) = true ->
  CreateFileCmd_execute communicate process_output self request
  = mkOutcome
      (match workspace self with
       | Some _ =>
           Ok (mkResponse "CreateFileResponse"
                 (VStr "Exception: file-name can not be empty") 1)
       | None => Raise (ValueError "workspace_factory is not set")
       end)
      (mkActionState (workspace self) (request_workspace_id request)
         (command self) (self_return_code self))
      [].
Proof.
  intros Hblank. unfold CreateFileCmd_execute, _setup.
  cbn [workspace]. destruct (workspace self) as [ws|]; [|reflexivity].
  now rewrite (blank_not_valid _ Hblank).
Qed.

Lemma C10_witness :
  blank (Some (" " +:+ tab)) = true
  /\ CreateFileCmd_execute logging_communicate plain_output attached_action
       (mkCreateFileRequest "ws-1" (Some (" " +:+ tab)))
     = mkOutcome
         (Ok (mkResponse "CreateFileResponse"
                (VStr "Exception: file-name can not be empty") 1))
         (mkActionState (Some []) "ws-1" "" None)
         [].
Proof.
  split; [reflexivity|].
  apply (C10_blank_file_name_is_rejected (list string) logging_communicate
           plain_output attached_action
           (mkCreateFileRequest "ws-1" (Some (" " +:+ tab)))).
  reflexivity.
Defined.

(** C10 as the specification states it fails for an action to which no
    workspace was attached: with an empty [file_name], [execute] raises [ValueError]
    from [_setup] instead of returning the response. *)
Lemma C10_counterexample :
  blank (Some "") = true
  /\ returned
       (CreateFileCmd_execute logging_communicate plain_output detached_action
          (mkCreateFileRequest "ws-1" (Some "")))
     = Raise (ValueError "workspace_factory is not set").
Proof. split; reflexivity. Qed.

(** *** What the three actions send *)

Lemma validate_not_blank (file_name : option string) :
  validate_file_name file_name = negb (blank file_name).
Proof.
  destruct file_name as [name|]; cbn [blank validate_file_name];
    [|reflexivity].
  now rewrite strip_empty.
Qed.

(** X15. [CreateFileCmd.execute] sends a command exactly when a workspace
    is attached and the file name holds a character that is not white
    space; the command is [create] followed by the name as it was given,
    not stripped. *)
Theorem X15_create_sends_a_named_file (Workspace : Type)
  (communicate : Workspace -> string -> result BaseCmdResponse * Workspace)
  (process_output : pyval -> Z -> result (pyval * Z))
  (self : action_state Workspace) (request_data : CreateFileRequest) :
  issued (CreateFileCmd_execute communicate process_output self request_data)
  = match workspace self, file_name request_data with
    | Some _, Some name =>
        if forallb isspace (chars name) then [] else ["create " +:+ name]
    | _, _ => []
    end.
Proof.
  unfold CreateFileCmd_execute, _setup. cbn [workspace].
  destruct (workspace self) as [ws|]; [|reflexivity].
  rewrite validate_not_blank, negb_involutive.
  destruct (file_name request_data) as [name|]; cbn [blank]; [|reflexivity].
  destruct (forallb isspace (chars name)); [reflexivity|].
  cbn [str_file_name workspace].
  now destruct (communicate ws ("create " +:+ name)).
Qed.

(** What [execute] records and sends, and what it returns once it sent a
    command. *)
Lemma execute_runs (Workspace : Type)
  (communicate : Workspace -> string -> result BaseCmdResponse * Workspace)
  (process_output : pyval -> Z -> result (pyval * Z))
  (self : action_state Workspace) (r : request) :
  let o := execute communicate process_output self r in
  workspace_id (self_after o) = requested_workspace_id r
  /\ issued o
     = match workspace self, command_of r with
       | Some _, Some cmd => [cmd]
       | _, _ => []
       end
  /\ (forall ws cmd,
        workspace self = Some ws -> command_of r = Some cmd ->
        returned o
        = (cmd_response <- fst (communicate ws cmd) ;;
           processed <- process_output (cmd_output cmd_response)
                          (cmd_return_code cmd_response) ;;
           Ok (mkResponse "BaseResponse" (fst processed) (snd processed)))
        /\ workspace (self_after o) = Some (snd (communicate ws cmd))).
Proof.
  intros o. subst o.
  destruct r as [request_data|request_data|request_data];
    cbn [execute requested_workspace_id command_of];
    unfold GoToLineNumInOpenFile_execute, CreateFileCmd_execute,
      OpenFile_execute, _setup; cbn [workspace];
    destruct (workspace self) as [ws|] eqn:Hws; cbn [workspace].
  - destruct (communicate ws _) as [resp ws'] eqn:Hc.
    cbn [self_after workspace_id issued returned workspace].
    split; [reflexivity|]. split; [reflexivity|].
    intros ws0 cmd [= <-] [= <-]. rewrite Hc. split; reflexivity.
  - cbn [self_after workspace_id issued returned workspace].
    split; [reflexivity|]. split; [reflexivity|]. discriminate.
  - destruct (validate_file_name (file_name request_data)); cbn [negb].
    + destruct (communicate ws _) as [resp ws'] eqn:Hc.
      cbn [self_after workspace_id issued returned workspace].
      split; [reflexivity|]. split; [reflexivity|].
      intros ws0 cmd [= <-] [= <-]. rewrite Hc. split; reflexivity.
    + cbn [self_after workspace_id issued returned workspace].
      split; [reflexivity|]. split; [reflexivity|]. discriminate.
  - cbn [self_after workspace_id issued returned workspace].
    split; [reflexivity|].
    split; [now destruct (validate_file_name (file_name request_data))|].
    discriminate.
  - destruct (communicate ws _) as [resp ws'] eqn:Hc.
    cbn [self_after workspace_id issued returned workspace].
    split; [reflexivity|]. split; [reflexivity|].
    intros ws0 cmd [= <-] [= <-]. rewrite Hc. split; reflexivity.
  - cbn [self_after workspace_id issued returned workspace].
    split; [reflexivity|]. split; [reflexivity|]. discriminate.
Qed.

(** X16. For the three actions alike: [execute] records the workspace id
    of the request, also when it fails; it sends at most one command, and
    none without an attached workspace, in which case it raises the
    [ValueError] of [_setup]; the guard [Workspace is not initialized.]
    that follows [_setup] is never the reason of a failure; with a
    workspace and a command, the answer is made of what [communicate] and
    [process_output] give, as a [BaseResponse], and the workspace is left
    as [communicate] left it.  No line number is refused: the command of
    [goto] is sent for every integer. *)
Theorem X16_second_guard_is_never_reached (Workspace : Type)
  (communicate : Workspace -> string -> result BaseCmdResponse * Workspace)
  (process_output : pyval -> Z -> result (pyval * Z))
  (self : action_state Workspace) (r : request) :
  let o := execute communicate process_output self r in
  workspace_id (self_after o) = requested_workspace_id r
  /\ issued o
     = match workspace self, command_of r with
       | Some _, Some cmd => [cmd]
       | _, _ => []
       end
  /\ (issued o = [] ->
      returned o <> Raise (ValueError "Workspace is not initialized."))
  /\ (workspace self = None ->
      returned o = Raise (ValueError "workspace_factory is not set"))
  /\ (forall ws cmd,
        workspace self = Some ws -> command_of r = Some cmd ->
        returned o
        = (cmd_response <- fst (communicate ws cmd) ;;
           processed <- process_output (cmd_output cmd_response)
                          (cmd_return_code cmd_response) ;;
           Ok (mkResponse "BaseResponse" (fst processed) (snd processed)))
        /\ workspace (self_after o) = Some (snd (communicate ws cmd)))
  /\ (forall n workspace_id,
        command_of (GoTo (mkGoToRequest workspace_id n))
        = Some ("goto " +:+ str_int n)).
Proof.
  intros o.
  destruct (execute_runs Workspace communicate process_output self r)
    as (Hid & Hissued & Hrun).
  fold o in Hid, Hissued, Hrun.
  split; [exact Hid|]. split; [exact Hissued|].
  split; [|split; [|split; [exact Hrun | reflexivity]]].
  - intros Hnil. rewrite Hissued in Hnil. subst o.
    destruct r as [request_data|request_data|request_data];
      cbn [execute command_of] in *;
      unfold GoToLineNumInOpenFile_execute, CreateFileCmd_execute,
        OpenFile_execute, _setup; cbn [workspace];
      destruct (workspace self) as [ws|]; cbn [workspace];
      try discriminate Hnil; try (cbn [returned]; discriminate).
    destruct (validate_file_name (file_name request_data));
      [discriminate Hnil | cbn [negb returned]; discriminate].
  - intros Hnone. subst o.
    destruct r as [request_data|request_data|request_data];
      cbn [execute];
      unfold GoToLineNumInOpenFile_execute, CreateFileCmd_execute,
        OpenFile_execute, _setup; cbn [workspace];
      rewrite Hnone; reflexivity.
Qed.

Example goto_negative_line :
  issued (execute logging_communicate plain_output attached_action
            (GoTo (mkGoToRequest "ws-1" (-3))))
  = ["goto -3"].
Proof. reflexivity. Qed.

Example open_at_line :
  map (fun r => issued (execute logging_communicate plain_output
                          attached_action (Open r)))
    [mkOpenCmdRequest "ws-1" "main.py" 0;
     mkOpenCmdRequest "ws-1" "main.py" 12]
  = [["open main.py"]; ["open main.py 12"]].
Proof. reflexivity. Qed.

(** X17. [set_workspace] looks the workspace up under the id the
    instance holds, which is the id of the request executed before, and
    the empty id on a new instance; [execute] then runs on this
    workspace, whatever id its own request names, and only records that
    id for the next [set_workspace]. *)
Theorem X17_workspace_is_the_one_of_the_previous_id (Workspace : Type)
  (communicate : Workspace -> string -> result BaseCmdResponse * Workspace)
  (process_output : pyval -> Z -> result (pyval * Z))
  (get_registered_manager : string -> result (option Workspace))
  (self : action_state Workspace) (r : request) (ws : Workspace)
  (cmd : string) :
  get_registered_manager (workspace_id self) = Ok (Some ws) ->
  command_of r = Some cmd ->
  let attached := snd (set_workspace self get_registered_manager) in
  let o := execute communicate process_output attached r in
  issued o = [cmd]
  /\ workspace (self_after o) = Some (snd (communicate ws cmd))
  /\ fst (set_workspace (self_after o) get_registered_manager)
     = (manager <- get_registered_manager (requested_workspace_id r) ;;
        Ok tt).
Proof.
  intros Hm Hcmd attached o.
  assert (Hws : workspace attached = Some ws)
    by (subst attached; unfold set_workspace; now rewrite Hm).
  destruct (execute_runs Workspace communicate process_output attached r)
    as (Hid & Hissued & Hrun).
  fold o in Hid, Hissued, Hrun.
  rewrite Hws, Hcmd in Hissued. split; [exact Hissued|].
  split; [apply (Hrun ws cmd Hws Hcmd)|].
  unfold set_workspace. rewrite Hid.
  now destruct (get_registered_manager (requested_workspace_id r)).
Qed.

Lemma X17_witness :
  issued (execute logging_communicate plain_output
            (snd (set_workspace BaseAction_init default_factory))
            (CreateFile (mkCreateFileRequest "ws-1" (Some "notes.txt"))))
  = ["create notes.txt"]
  /\ workspace
       (self_after
          (execute logging_communicate plain_output
             (snd (set_workspace BaseAction_init default_factory))
             (CreateFile (mkCreateFileRequest "ws-1" (Some "notes.txt")))))
     = Some ["cd /"; "create notes.txt"].
Proof.
  destruct (X17_workspace_is_the_one_of_the_previous_id (list string)
              logging_communicate plain_output default_factory
              BaseAction_init
              (CreateFile (mkCreateFileRequest "ws-1" (Some "notes.txt")))
              ["cd /"] "create notes.txt" eq_refl eq_refl)
    as (Hissued & Hws & _).
  split; [exact Hissued | exact Hws].
Defined.

End CmdsProofs.

(** * Properties of the E2B workspace *)

Module E2BProofs.
Import Cmds E2B.

Section Sandbox.
Variable exec_in_sandbox : option string -> string -> result BaseCmdResponse.
Variable state_of_sandbox : option string -> result string.

Let perform := perform exec_in_sandbox state_of_sandbox.
Let run := run exec_in_sandbox state_of_sandbox.

(** No method assigns to an attribute. *)
Lemma perform_keeps (self : E2BWorkspace) (c : call) :
  snd (perform self c) = self.
Proof. now destruct c. Qed.

Lemma run_keeps (calls : list call) :
  forall self, snd (run self calls) = self.
Proof.
  induction calls as [|c calls IH]; intros self; [reflexivity|].
  unfold run. cbn [E2B.run]. fold perform.
  pose proof (perform_keeps self c) as Hp.
  destruct (perform self c) as [a self1]. cbn [snd] in Hp. subst self1.
  specialize (IH self). unfold run in IH.
  destruct (E2B.run exec_in_sandbox state_of_sandbox self calls)
    as [answers self2].
  exact IH.
Qed.

Lemma run_answers (calls : list call) :
  forall self r,
    sandbox self = None ->
    In (Response r) (fst (run self calls)) ->
    r = Raise (ValueError "Sandbox is None").
Proof.
  induction calls as [|c calls IH]; intros self r Hnone; [contradiction|].
  unfold run. cbn [E2B.run]. fold perform.
  pose proof (perform_keeps self c) as Hp.
  destruct (perform self c) as [a self1] eqn:Ha. cbn [snd] in Hp.
  subst self1. specialize (IH self r Hnone). unfold run in IH.
  destruct (E2B.run exec_in_sandbox state_of_sandbox self calls)
    as [answers self2].
  cbn [fst] in *. intros [Heq|Hin]; [|now apply IH].
  subst a. destruct c; try discriminate Ha.
  unfold perform in Ha. cbn [E2B.perform] in Ha.
  injection Ha as <-. unfold communicate. now rewrite Hnone.
Qed.
End Sandbox.

(** X18. A new [E2BWorkspace] never runs a command.  No method sets the
    sandbox, so after any sequence of calls of [setup], [reset],
    [communicate], [get_state] and [close] on a new workspace, every
    [communicate] of the sequence raised [ValueError] and so does the
    next one, without running the command-line client; and each of the
    three workspace actions attached to it sends its command and fails
    with this exception. *)
Theorem X18_a_new_workspace_never_runs_a_command
  (exec_in_sandbox : option string -> string -> result BaseCmdResponse)
  (state_of_sandbox : option string -> result string)
  (calls : list call) :
  let result := run exec_in_sandbox state_of_sandbox E2BWorkspace_init calls in
  (forall r,
     In (Response r) (fst result) ->
     r = Raise (ValueError "Sandbox is None"))
  /\ (forall cmd,
        communicate exec_in_sandbox (snd result) cmd
        = Raise (ValueError "Sandbox is None"))
  /\ (forall process_output self request cmd,
        workspace self = Some (snd result) ->
        command_of request = Some cmd ->
        let o := execute (workspace_communicate exec_in_sandbox)
                   process_output self request in
        issued o = [cmd]
        /\ returned o = Raise (ValueError "Sandbox is None")).
Proof.
  intros result. subst result. rewrite run_keeps.
  split; [|split].
  - intros r. now apply run_answers.
  - reflexivity.
  - intros process_output self request cmd Hws Hcmd o.
    destruct (CmdsProofs.execute_runs E2BWorkspace
                (workspace_communicate exec_in_sandbox) process_output
                self request) as (_ & Hissued & Hrun).
    fold o in Hissued, Hrun. rewrite Hws, Hcmd in Hissued.
    split; [exact Hissued|].
    destruct (Hrun _ _ Hws Hcmd) as [-> _]. reflexivity.
Qed.

(** With a command-line client that would succeed. *)
Example communicate_after_setup :
  fst (run obliging_exec obliging_state E2BWorkspace_init
         [Setup; Communicate "ls"; Reset; Communicate "pwd"; Close])
  = [Done; Response (Raise (ValueError "Sandbox is None")); Done;
     Response (Raise (ValueError "Sandbox is None")); Done].
Proof. reflexivity. Qed.

End E2BProofs.

(** * Properties of the Slack agent *)

Module SlackProofs.
Import SlackAgent.

Example tagged_message :
  callback_new_message "UBOT" echo_chat accept_post
    (mention "U1" "<@UBOT> hello")
  = mkOutcome (Ok tt) [VStr "<@UBOT> hello"]
      [[("channel", VStr "C42"); ("text", VStr "<@UBOT> hello");
        ("thread_ts", VStr "1700000000.1")]].
Proof. reflexivity. Qed.

Lemma get_method_dict (v : pyval) (key : string) (dflt x : pyval) :
  get_method v key dflt = Ok x ->
  exists d, v = VDict d /\ x = get_default d key dflt.
Proof.
  destruct v; try discriminate. cbn [get_method]. intros [= <-].
  eexists. split; reflexivity.
Qed.

(** What the callback has found when it goes on to answer. *)
Lemma message_to_answer_some (bot : string) (payload : list (string * pyval))
  (message channel_id thread_ts : pyval) :
  message_to_answer bot payload = Ok (Some (message, channel_id, thread_ts)) ->
  exists event,
    get_default payload "event" (VDict []) = VDict event
    /\ eq_str (get_default event "user" (VStr "")) bot = false
    /\ message = get_default event "text" (VStr "")
    /\ is_in ("<@" +:+ bot +:+ ">") message = Ok true
    /\ channel_id = get_default event "channel" (VStr "")
    /\ thread_ts
       = get_default event "thread_ts" (get_default event "ts" (VStr "")).
Proof.
  unfold message_to_answer.
  destruct (get_method _ "user" _) as [user_id|e] eqn:Hu; cbn [bind];
    [|discriminate].
  apply get_method_dict in Hu. destruct Hu as [event [Hev ->]].
  rewrite Hev. cbn [get_method bind].
  destruct (eq_str (get_default event "user" (VStr "")) bot) eqn:Hself;
    [discriminate|].
  cbn [RESPOND_ONLY_IF_TAGGED].
  destruct (is_in _ _) as [[|]|e] eqn:Hin; cbn [bind negb];
    try discriminate.
  intros [= <- <- <-]. exists event. repeat split; assumption.
Qed.

(** X22. The Slack callback answers an event at most once, and only a
    message that somebody else wrote and that tags the bot: it starts no
    chat and posts nothing for a message of the bot itself, tagged or
    not, nor for a message without the tag.  What it posts goes to the
    channel of the event, carries the summary of the chat about the
    message, and is threaded under the thread of the event or, for a
    message outside a thread, under the message itself. *)
Theorem X22_bot_answers_only_when_tagged_by_others (bot : string)
  (initiate_chat : pyval -> result pyval)
  (execute_action : list (string * pyval) -> result unit)
  (payload : list (string * pyval)) :
  let o := callback_new_message bot initiate_chat execute_action payload in
  let tag := "<@" +:+ bot +:+ ">" in
  (length (chats o) <= 1)%nat
  /\ (posts o = []
      \/ exists event summary,
           get_default payload "event" (VDict []) = VDict event
           /\ initiate_chat (get_default event "text" (VStr "")) = Ok summary
           /\ posts o
              = [[("channel", get_default event "channel" (VStr ""));
                  ("text", summary);
                  ("thread_ts",
                   get_default event "thread_ts"
                     (get_default event "ts" (VStr "")))]]
           /\ returned o
              = execute_action
                  [("channel", get_default event "channel" (VStr ""));
                   ("text", summary);
                   ("thread_ts",
                    get_default event "thread_ts"
                      (get_default event "ts" (VStr "")))])
  /\ (posts o <> [] -> chats o <> [])
  /\ (forall event,
        get_default payload "event" (VDict []) = VDict event ->
        chats o
        = if eq_str (get_default event "user" (VStr "")) bot then []
          else match is_in tag (get_default event "text" (VStr "")) with
               | Ok true => [get_default event "text" (VStr "")]
               | _ => []
               end)
  /\ (forall event,
        get_default payload "event" (VDict []) = VDict event ->
        eq_str (get_default event "user" (VStr "")) bot = true ->
        o = mkOutcome (Ok tt) [] []).
Proof.
  intros o tag. subst o tag. unfold callback_new_message.
  destruct (message_to_answer bot payload)
    as [[[[message channel_id] thread_ts]|]|e] eqn:Hm.
  - destruct (message_to_answer_some _ _ _ _ _ Hm)
      as (event & Hev & Hself & -> & Htag & -> & ->).
    destruct (initiate_chat (get_default event "text" (VStr "")))
      as [summary|e] eqn:Hchat; cbn [chats posts returned length].
    + split; [lia|]. split.
      { right. exists event, summary. repeat split; assumption. }
      split; [discriminate|]. split.
      * intros event' Hev'. rewrite Hev in Hev'. injection Hev' as <-.
        now rewrite Hself, Htag.
      * intros event' Hev'. rewrite Hev in Hev'. injection Hev' as <-.
        congruence.
    + split; [lia|]. split; [now left|]. split; [congruence|]. split.
      * intros event' Hev'. rewrite Hev in Hev'. injection Hev' as <-.
        now rewrite Hself, Htag.
      * intros event' Hev'. rewrite Hev in Hev'. injection Hev' as <-.
        congruence.
  - cbn [chats posts returned length].
    split; [lia|]. split; [now left|]. split; [congruence|].
    split; [|reflexivity].
    intros event Hev. revert Hm. unfold message_to_answer.
    rewrite Hev. cbn [get_method bind].
    destruct (eq_str (get_default event "user" (VStr "")) bot);
      [reflexivity|].
    cbn [RESPOND_ONLY_IF_TAGGED].
    destruct (is_in _ _) as [[|]|e]; cbn [bind negb]; try reflexivity.
    discriminate.
  - cbn [chats posts returned length].
    split; [lia|]. split; [now left|]. split; [congruence|]. split.
    + intros event Hev. revert Hm. unfold message_to_answer.
      rewrite Hev. cbn [get_method bind].
      destruct (eq_str (get_default event "user" (VStr "")) bot);
        [reflexivity|].
      cbn [RESPOND_ONLY_IF_TAGGED].
      destruct (is_in _ _) as [[|]|e']; cbn [bind negb]; try reflexivity.
      discriminate.
    + intros event Hev Hself. revert Hm. unfold message_to_answer.
      rewrite Hev. cbn [get_method bind]. rewrite Hself. discriminate.
Qed.

(** The bot tags itself in a message of its own. *)
Example own_message_is_ignored :
  callback_new_message "UBOT" echo_chat accept_post
    (mention "UBOT" "<@UBOT> again")
  = mkOutcome (Ok tt) [] [].
Proof. reflexivity. Qed.

End SlackProofs.
